(** * Mask-N-Go: rental lifecycle, inventory ledger and overdue sweep

    A shallow embedding of the rental subsystem of the repository.  The
    repository holds two copies of the controllers and models:

    - [src/controllers], [src/models]               (module [Controllers]);
    - [src/INTEGRADORA/controllers], [.../models]    (module [Integradora]).

    Both talk to MySQL through [ConexionDB] (config/database.py, read from
    src/INTEGRADORA/config; the first copy imports a module of the same
    name and is embedded over the same wrapper).

    Modelling conventions.
    - A table with a primary key that the code addresses by key is a finite
      map ([INVENTARIO], [CONFIGURACION]); [RENTAS] and [DETALLE_RENTAS]
      are lists of rows in insertion order, and an UPDATE rewrites every
      row that satisfies its WHERE clause.
    - Money (MySQL decimal(10,2), Python float or Decimal) is an integer
      number of centavos and its arithmetic is exact.
    - A datetime is an integer number of microseconds; one call reads the
      clock once ([ahora]).
    - [cursor.rowcount] after an UPDATE is the number of rows whose stored
      value changed (the server default).
    - A data-modifying statement may raise [mysql.connector.Error]; the
      schedule [fallos] says, statement after statement in execution
      order, which ones do.  SELECTs and the connection itself do not fail.
    - Messages are the constructors of [Mensaje]; each stands for the text
      built by the code. *)

From stdpp Require Import base numbers option list gmap strings.
From Stdlib Require Import ZArith Lia.

Local Open Scope Z_scope.

(** ** Rows of the persistent store *)

(** INVENTARIO (Codigo_Barras is the key of the map). *)
Record FilaInventario := mkFilaInventario {
  Precio_Venta : Z;
  Precio_Renta : Z;
  Stock : Z;
  Disponible : Z;
  Estado : string
}.

(** RENTAS. *)
Record FilaRenta := mkFilaRenta {
  Id_Renta : Z;
  Id_Cliente : Z;
  Id_Usuario : Z;
  Fecha_Renta : Z;
  Fecha_Devolucion : Z;
  Fecha_Devuelto : option Z;
  Penalizacion : Z;
  Dias_Renta : Z;
  Total : Z;
  Deposito : Z;
  Estado_Renta : string
}.

(** DETALLE_RENTAS. *)
Record FilaDetalle := mkFilaDetalle {
  det_Id_Renta : Z;
  det_Codigo_Barras : string;
  det_Cantidad : Z;
  det_Precio_Unitario : Z;
  det_Subtotal : Z
}.

(** The whole store.  [auto_increment] is the next Id_Renta. *)
Record BD := mkBD {
  INVENTARIO : gmap string FilaInventario;
  RENTAS : list FilaRenta;
  DETALLE_RENTAS : list FilaDetalle;
  CONFIGURACION : gmap string Z;
  CLIENTES : list Z;
  USUARIOS : list Z;
  auto_increment : Z
}.

Definition con_INVENTARIO (inv : gmap string FilaInventario) (bd : BD) : BD :=
  mkBD inv (RENTAS bd) (DETALLE_RENTAS bd) (CONFIGURACION bd)
       (CLIENTES bd) (USUARIOS bd) (auto_increment bd).

Definition con_RENTAS (rs : list FilaRenta) (bd : BD) : BD :=
  mkBD (INVENTARIO bd) rs (DETALLE_RENTAS bd) (CONFIGURACION bd)
       (CLIENTES bd) (USUARIOS bd) (auto_increment bd).

Definition con_DETALLE_RENTAS (ds : list FilaDetalle) (bd : BD) : BD :=
  mkBD (INVENTARIO bd) (RENTAS bd) ds (CONFIGURACION bd)
       (CLIENTES bd) (USUARIOS bd) (auto_increment bd).

Definition con_CONFIGURACION (c : gmap string Z) (bd : BD) : BD :=
  mkBD (INVENTARIO bd) (RENTAS bd) (DETALLE_RENTAS bd) c
       (CLIENTES bd) (USUARIOS bd) (auto_increment bd).

Definition con_auto_increment (n : Z) (bd : BD) : BD :=
  mkBD (INVENTARIO bd) (RENTAS bd) (DETALLE_RENTAS bd) (CONFIGURACION bd)
       (CLIENTES bd) (USUARIOS bd) n.

Definition con_Disponible (d : Z) (f : FilaInventario) : FilaInventario :=
  mkFilaInventario (Precio_Venta f) (Precio_Renta f) (Stock f) d (Estado f).

Definition con_Estado_Renta (e : string) (r : FilaRenta) : FilaRenta :=
  mkFilaRenta (Id_Renta r) (Id_Cliente r) (Id_Usuario r) (Fecha_Renta r)
              (Fecha_Devolucion r) (Fecha_Devuelto r) (Penalizacion r)
              (Dias_Renta r) (Total r) (Deposito r) e.

#[global] Instance FilaRenta_eq_dec : EqDecision FilaRenta.
Proof. solve_decision. Defined.

(** ** Time and money *)

Definition microsegundos_por_dia : Z := 86400000000.

(** [timedelta(days=n)]. *)
Definition timedelta (dias : Z) : Z := dias * microsegundos_por_dia.

(** [delta.days]: a timedelta is normalised with a floored day count. *)
Definition days (delta : Z) : Z := delta / microsegundos_por_dia.

Definition pesos (n : Z) : Z := n * 100.

(** ** The SQL statements the controllers issue *)

(** UPDATE INVENTARIO SET Disponible = Disponible + delta
    WHERE Codigo_Barras = codigo.   (delta is negative for a rental.) *)
Definition sql_sumar_disponible (delta : Z) (codigo : string) (bd : BD) : BD * Z :=
  match INVENTARIO bd !! codigo with
  | Some f =>
      (con_INVENTARIO (<[codigo := con_Disponible (Disponible f + delta) f]> (INVENTARIO bd)) bd,
       if delta =? 0 then 0 else 1)
  | None => (bd, 0)
  end.

(** UPDATE INVENTARIO SET Disponible = nuevo WHERE Codigo_Barras = codigo. *)
Definition sql_fijar_disponible (nuevo : Z) (codigo : string) (bd : BD) : BD * Z :=
  match INVENTARIO bd !! codigo with
  | Some f =>
      (con_INVENTARIO (<[codigo := con_Disponible nuevo f]> (INVENTARIO bd)) bd,
       if Disponible f =? nuevo then 0 else 1)
  | None => (bd, 0)
  end.

(** INSERT INTO RENTAS (...) VALUES (..., 'Activa'); the new row gets the
    next Id_Renta, no Fecha_Devuelto and Penalizacion 0.  The result is the
    store and [cursor.lastrowid]. *)
Definition sql_insertar_renta (id_cliente id_usuario fecha_renta fecha_devolucion
                               dias_renta total deposito : Z) (bd : BD) : BD * Z :=
  let id := auto_increment bd in
  let fila := mkFilaRenta id id_cliente id_usuario fecha_renta fecha_devolucion
                          None 0 dias_renta total deposito "Activa" in
  (con_auto_increment (id + 1) (con_RENTAS (RENTAS bd ++ [fila]) bd), id).

(** INSERT INTO DETALLE_RENTAS (...) VALUES (...). *)
Definition sql_insertar_detalle (fila : FilaDetalle) (bd : BD) : BD :=
  con_DETALLE_RENTAS (DETALLE_RENTAS bd ++ [fila]) bd.

(** SELECT * FROM RENTAS WHERE Id_Renta = id. *)
Definition sql_rentas_por_id (id : Z) (bd : BD) : list FilaRenta :=
  filter (λ r, Id_Renta r = id) (RENTAS bd).

(** SELECT Codigo_Barras, Cantidad FROM DETALLE_RENTAS WHERE Id_Renta = id. *)
Definition sql_detalles_de (id : Z) (bd : BD) : list (string * Z) :=
  (λ d, (det_Codigo_Barras d, det_Cantidad d)) <$>
  filter (λ d, det_Id_Renta d = id) (DETALLE_RENTAS bd).

(** UPDATE RENTAS SET Estado = 'Devuelto', Fecha_Devuelto = ahora,
    Penalizacion = pen WHERE Id_Renta = id. *)
Definition marcar_devuelto (ahora pen : Z) (r : FilaRenta) : FilaRenta :=
  mkFilaRenta (Id_Renta r) (Id_Cliente r) (Id_Usuario r) (Fecha_Renta r)
              (Fecha_Devolucion r) (Some ahora) pen
              (Dias_Renta r) (Total r) (Deposito r) "Devuelto".

Definition sql_devolver_renta (ahora pen id : Z) (bd : BD) : BD * Z :=
  (con_RENTAS ((λ r, if decide (Id_Renta r = id) then marcar_devuelto ahora pen r else r)
               <$> RENTAS bd) bd,
   Z.of_nat (length (filter (λ r, marcar_devuelto ahora pen r ≠ r) (sql_rentas_por_id id bd)))).

(** UPDATE RENTAS SET Estado = 'Vencida'
    WHERE Estado = 'Activa' AND Fecha_Devolucion < ahora. *)
Definition debe_vencer (ahora : Z) (r : FilaRenta) : bool :=
  String.eqb (Estado_Renta r) "Activa" && (Fecha_Devolucion r <? ahora).

Definition sql_marcar_vencidas (ahora : Z) (bd : BD) : BD * Z :=
  (con_RENTAS ((λ r, if debe_vencer ahora r then con_Estado_Renta "Vencida" r else r)
               <$> RENTAS bd) bd,
   Z.of_nat (length (filter (λ r, debe_vencer ahora r = true) (RENTAS bd)))).

(** UPDATE CONFIGURACION SET Valor_Config = v WHERE Nombre_Config = nombre. *)
Definition sql_fijar_config (nombre : string) (v : Z) (bd : BD) : BD * Z :=
  match CONFIGURACION bd !! nombre with
  | Some v0 => (con_CONFIGURACION (<[nombre := v]> (CONFIGURACION bd)) bd,
                if v0 =? v then 0 else 1)
  | None => (bd, 0)
  end.

(** INSERT INTO CONFIGURACION (Nombre_Config, Valor_Config, ...). *)
Definition sql_insertar_config (nombre : string) (v : Z) (bd : BD) : BD :=
  con_CONFIGURACION (<[nombre := v]> (CONFIGURACION bd)) bd.

(** ** ConexionDB (config/database.py) *)

(** An operation runs against the fault schedule and the store. *)
Definition Op (A : Type) : Type := list bool * BD → A * (list bool * BD).

#[global] Instance op_ret : MRet Op := λ A x s, (x, s).

#[global] Instance op_bind : MBind Op :=
  λ A B f m s, let '(x, s') := m s in f x s'.

(** [ejecutar_query]: a SELECT; it reads the store and changes nothing. *)
Definition ejecutar_query {A} (consulta : BD → A) : Op A :=
  λ s, (consulta (snd s), s).

(** The next statement of the schedule: does it raise, and what is left.
    A schedule that has run out lets every later statement through. *)
Definition siguiente (fallos : list bool) : bool * list bool :=
  match fallos with
  | [] => (false, [])
  | falla :: resto => (falla, resto)
  end.

(** [cursor.execute] of a data-modifying statement: None when the
    statement raises [Error], and then the store is as before it. *)
Definition cursor_execute {A} (stmt : BD → BD * A) : Op (option A) :=
  λ s, let '(falla, resto) := siguiente (fst s) in
       if falla then (None, (resto, snd s))
       else let '(bd', x) := stmt (snd s) in (Some x, (resto, bd')).

(** [connection.rollback()]: back to the store as of the last commit. *)
Definition rollback (comprometida : BD) : Op unit :=
  λ s, ((), (fst s, comprometida)).

(** [ejecutar_update]: execute and commit; on [Error] roll the statement
    back and answer None.  The answer is [cursor.rowcount]. *)
Definition ejecutar_update (stmt : BD → BD * Z) : Op (option Z) :=
  cursor_execute stmt.

(** [ejecutar_insert]: execute and commit; on [Error] roll the statement
    back and answer None.  The answer is [cursor.lastrowid]. *)
Definition ejecutar_insert (stmt : BD → BD * Z) : Op (option Z) :=
  cursor_execute stmt.

(** Python's [filas and filas > 0] on an optional row count. *)
Definition filas_positivas (filas : option Z) : bool :=
  match filas with
  | Some n => 0 <? n
  | None => false
  end.

(** ** Objects shared by both copies *)

(** One entry of [detalles]: [{'codigo_barras': str, 'cantidad': int}].
    The empty code stands for a missing or empty 'codigo_barras'. *)
Record Item := mkItem {
  item_codigo_barras : string;
  item_cantidad : Z
}.

(** models/disfraz.py, the attributes the rental code reads. *)
Record Disfraz := mkDisfraz {
  codigo_barras : string;
  precio_venta : Z;
  precio_renta : Z;
  stock : Z;
  disponible : Z;
  estado : string
}.

Definition esta_activo (d : Disfraz) : bool := String.eqb (estado d) "Activo".

(** models/renta.py, class Renta. *)
Record Renta := mkRenta {
  id_renta : option Z;
  id_cliente : Z;
  id_usuario : Z;
  fecha_renta : Z;
  fecha_devolucion : Z;
  fecha_devuelto : option Z;
  penalizacion : Z;
  dias_renta : Z;
  total : Z;
  deposito : Z;
  estado_renta : string
}.

Definition esta_activa (r : Renta) : bool := String.eqb (estado_renta r) "Activa".
Definition esta_devuelta (r : Renta) : bool := String.eqb (estado_renta r) "Devuelto".
Definition esta_vencida (r : Renta) : bool := String.eqb (estado_renta r) "Vencida".

(** [deposito_a_devolver]: always the whole deposit. *)
Definition deposito_a_devolver (r : Renta) : Z := deposito r.

(** A controller instance: the rate it holds in [self.penalizacion_dia]. *)
Record RentaController := mkRentaController {
  penalizacion_dia : Z
}.

(** ** Further statements, issued by the catalogue and query functions *)

#[global] Instance FilaInventario_eq_dec : EqDecision FilaInventario.
Proof. solve_decision. Defined.

Definition con_Estado (e : string) (f : FilaInventario) : FilaInventario :=
  mkFilaInventario (Precio_Venta f) (Precio_Renta f) (Stock f) (Disponible f) e.

(** The number of rows an UPDATE of the row stored at [codigo] changes. *)
Definition filas_cambiadas (antes despues : FilaInventario) : Z :=
  if decide (antes = despues) then 0 else 1.

(** UPDATE INVENTARIO SET Estado = 'Inactivo' WHERE Codigo_Barras = codigo. *)
Definition sql_inactivar (codigo : string) (bd : BD) : BD * Z :=
  match INVENTARIO bd !! codigo with
  | Some f =>
      (con_INVENTARIO (<[codigo := con_Estado "Inactivo" f]> (INVENTARIO bd)) bd,
       filas_cambiadas f (con_Estado "Inactivo" f))
  | None => (bd, 0)
  end.

(** DELETE FROM INVENTARIO WHERE Codigo_Barras = codigo. *)
Definition sql_eliminar_inventario (codigo : string) (bd : BD) : BD * Z :=
  match INVENTARIO bd !! codigo with
  | Some _ => (con_INVENTARIO (delete codigo (INVENTARIO bd)) bd, 1)
  | None => (bd, 0)
  end.

(** UPDATE INVENTARIO SET Precio_Venta = .., Precio_Renta = .., Stock = ..
    WHERE Codigo_Barras = codigo, with the columns that are given. *)
Definition editar_fila (precio_venta precio_renta stock : option Z) (f : FilaInventario)
  : FilaInventario :=
  mkFilaInventario (default (Precio_Venta f) precio_venta)
                   (default (Precio_Renta f) precio_renta)
                   (default (Stock f) stock)
                   (Disponible f) (Estado f).

Definition sql_editar_inventario (precio_venta precio_renta stock : option Z)
           (codigo : string) (bd : BD) : BD * Z :=
  match INVENTARIO bd !! codigo with
  | Some f =>
      (con_INVENTARIO
         (<[codigo := editar_fila precio_venta precio_renta stock f]> (INVENTARIO bd)) bd,
       filas_cambiadas f (editar_fila precio_venta precio_renta stock f))
  | None => (bd, 0)
  end.

(** SELECT COUNT( * ) FROM DETALLE_RENTAS WHERE Codigo_Barras = codigo. *)
Definition sql_contar_detalles_de_codigo (codigo : string) (bd : BD) : Z :=
  Z.of_nat (length (filter (λ d, det_Codigo_Barras d = codigo) (DETALLE_RENTAS bd))).

(** SELECT * FROM DETALLE_RENTAS WHERE Id_Renta = id. *)
Definition sql_filas_detalle_de (id : Z) (bd : BD) : list FilaDetalle :=
  filter (λ d, det_Id_Renta d = id) (DETALLE_RENTAS bd).

(** SELECT COUNT( * ) FROM RENTAS WHERE Estado IN (estados). *)
Definition sql_contar_rentas_en (estados : list string) (bd : BD) : Z :=
  Z.of_nat (length (filter (λ r, Estado_Renta r ∈ estados) (RENTAS bd))).

(** ** First copy: src/controllers and src/models *)

Module Controllers.

(** The texts returned as [mensaje]. *)
Inductive Mensaje :=
| NoExisteDisfraz (codigo : string)
| DisfrazInactivo (codigo : string)
| StockInsuficiente (disponible requerido : Z)
| StockSuficiente
| StockActualizado
| NoSePudoActualizarStock
| RentaSinProductos
| DiasNoPositivos
| MaximoDias30
| ProductoInvalido (item : Item)
| DisfrazNoEncontrado (codigo : string)
| TotalNoPositivo
| DepositoNegativo
| FechaDevolucionNoPosterior
| ErrorAlRegistrarRenta
| RentaRegistrada (id : Z)
| NoExisteRenta (id : Z)
| RentaYaDevuelta
| EstadoNoDevolvible (estado : string)
| SinDetalles
| RentaDevuelta (id : Z)
| MontoNegativo
| PenalizacionActualizada (monto : Z)
| NoSePudoActualizarConfiguracion
| ErrorInesperado.

(** *** models/disfraz.py *)

(** [Disfraz.from_db_row]: the constructor converts and stores the
    columns; it rejects nothing. *)
Definition Disfraz_from_db_row (codigo : string) (f : FilaInventario) : Disfraz :=
  mkDisfraz codigo (Precio_Venta f) (Precio_Renta f) (Stock f) (Disponible f) (Estado f).

(** *** models/renta.py *)

Record DetalleRenta := mkDetalleRenta {
  dr_codigo_barras : string;
  dr_cantidad : Z;
  dr_precio_unitario : Z;
  dr_subtotal : Z
}.

(** [DetalleRenta.calcular_subtotal]. *)
Definition calcular_subtotal (d : DetalleRenta) (dias : Z) : DetalleRenta :=
  mkDetalleRenta (dr_codigo_barras d) (dr_cantidad d) (dr_precio_unitario d)
                 (dr_cantidad d * dr_precio_unitario d * dias).

(** [Renta.from_db_row]. *)
Definition Renta_from_db_row (r : FilaRenta) : Renta :=
  mkRenta (Some (Id_Renta r)) (Id_Cliente r) (Id_Usuario r) (Fecha_Renta r)
          (Fecha_Devolucion r) (Fecha_Devuelto r) (Penalizacion r)
          (Dias_Renta r) (Total r) (Deposito r) (Estado_Renta r).

(** [Renta.dias_de_retraso]. *)
Definition dias_de_retraso (ahora : Z) (r : Renta) : Z :=
  if negb (esta_activa r) && negb (esta_vencida r) then 0
  else
    let fecha_comparacion :=
      match fecha_devuelto r with Some t => t | None => ahora end in
    if fecha_devolucion r <? fecha_comparacion
    then days (fecha_comparacion - fecha_devolucion r)
    else 0.

(** [Renta.calcular_penalizacion]. *)
Definition calcular_penalizacion (ahora : Z) (r : Renta) (penalizacion_por_dia : Z) : Z :=
  let dias_retraso := dias_de_retraso ahora r in
  if 0 <? dias_retraso then dias_retraso * penalizacion_por_dia else 0.

(** [Renta.validar_renta], on a Renta and its list of details. *)
Definition validar_renta (r : Renta) (detalles : list DetalleRenta) : option Mensaje :=
  match detalles with
  | [] => Some RentaSinProductos
  | _ =>
    if dias_renta r <=? 0 then Some DiasNoPositivos
    else if total r <=? 0 then Some TotalNoPositivo
    else if deposito r <? 0 then Some DepositoNegativo
    else if fecha_devolucion r <=? fecha_renta r then Some FechaDevolucionNoPosterior
    else None
  end.

(** *** controllers/inventario_controller.py *)

Definition buscar_por_codigo (bd : BD) (codigo : string) : option Disfraz :=
  Disfraz_from_db_row codigo <$> (INVENTARIO bd !! codigo).

Definition verificar_disponibilidad (bd : BD) (codigo : string) (cantidad : Z)
  : bool * Mensaje * Z :=
  match buscar_por_codigo bd codigo with
  | None => (false, NoExisteDisfraz codigo, 0)
  | Some disfraz =>
      if negb (esta_activo disfraz) then (false, DisfrazInactivo codigo, 0)
      else if disponible disfraz <? cantidad
      then (false, StockInsuficiente (disponible disfraz) cantidad, disponible disfraz)
      else (true, StockSuficiente, disponible disfraz)
  end.

Definition descontar_stock (codigo : string) (cantidad : Z) : Op (bool * Mensaje) :=
  '(hay_stock, mensaje, _) ← ejecutar_query (λ bd, verificar_disponibilidad bd codigo cantidad);
  if negb hay_stock then mret (false, mensaje)
  else
    filas ← ejecutar_update (sql_sumar_disponible (- cantidad) codigo);
    if filas_positivas filas then mret (true, StockActualizado)
    else mret (false, NoSePudoActualizarStock).

Definition aumentar_stock (codigo : string) (cantidad : Z) : Op (bool * Mensaje) :=
  disfraz ← ejecutar_query (λ bd, buscar_por_codigo bd codigo);
  match disfraz with
  | None => mret (false, NoExisteDisfraz codigo)
  | Some _ =>
      filas ← ejecutar_update (sql_sumar_disponible cantidad codigo);
      if filas_positivas filas then mret (true, StockActualizado)
      else mret (false, NoSePudoActualizarStock)
  end.

(** *** controllers/renta_controller.py *)

(** [_cargar_penalizacion_dia]: the stored rate, or 50.00. *)
Definition _cargar_penalizacion_dia (bd : BD) : Z :=
  match CONFIGURACION bd !! "PENALIZACION_DIA" with
  | Some v => v
  | None => pesos 50
  end.

(** [RentaController.__init__]. *)
Definition nuevo_controlador (bd : BD) : RentaController :=
  mkRentaController (_cargar_penalizacion_dia bd).

(** Step 3 of [registrar_renta]: the loop that validates every entry and
    accumulates [detalles_validados], [subtotal] and [deposito_total]. *)
Fixpoint preparar_detalles (bd : BD) (dias : Z) (detalles : list Item)
         (detalles_validados : list DetalleRenta) (subtotal deposito_total : Z)
  : Mensaje + (list DetalleRenta * Z * Z) :=
  match detalles with
  | [] => inr (detalles_validados, subtotal, deposito_total)
  | item :: resto =>
      let codigo := item_codigo_barras item in
      let cantidad := item_cantidad item in
      if String.eqb codigo "" || (cantidad <=? 0) then inl (ProductoInvalido item)
      else
        match verificar_disponibilidad bd codigo cantidad with
        | (false, msg_stock, _) => inl msg_stock
        | (true, _, _) =>
            match buscar_por_codigo bd codigo with
            | None => inl (DisfrazNoEncontrado codigo)
            | Some disfraz =>
                if negb (esta_activo disfraz) then inl (DisfrazInactivo codigo)
                else
                  let detalle :=
                    calcular_subtotal
                      (mkDetalleRenta codigo cantidad (precio_renta disfraz) 0) dias in
                  preparar_detalles bd dias resto
                    (detalles_validados ++ [detalle])
                    (subtotal + dr_subtotal detalle)
                    (deposito_total + precio_venta disfraz * cantidad)
            end
        end
  end.

(** Step 7: for every validated detail, insert its row and take its
    quantity off Disponible.  None: a statement raised. *)
Fixpoint insertar_detalles (id : Z) (detalles_validados : list DetalleRenta)
  : Op (option unit) :=
  match detalles_validados with
  | [] => mret (Some ())
  | detalle :: resto =>
      r1 ← cursor_execute (λ bd,
             (sql_insertar_detalle
                (mkFilaDetalle id (dr_codigo_barras detalle) (dr_cantidad detalle)
                               (dr_precio_unitario detalle) (dr_subtotal detalle)) bd, ()));
      match r1 with
      | None => mret None
      | Some _ =>
          r2 ← cursor_execute
                 (sql_sumar_disponible (- dr_cantidad detalle) (dr_codigo_barras detalle));
          match r2 with
          | None => mret None
          | Some _ => insertar_detalles id resto
          end
      end
  end.

(** [registrar_renta].  The header and every line are executed on one
    cursor and committed together at the end; [comprometida] is the store
    as of the last commit, the one a rollback goes back to.  The
    validations read through another connection, before any statement. *)
Definition registrar_renta (ahora : Z) (id_cliente id_usuario : Z)
           (detalles : list Item) (dias_renta : Z)
  : Op (bool * Mensaje * option Z) :=
  match detalles with
  | [] => mret (false, RentaSinProductos, None)
  | _ =>
    if dias_renta <=? 0 then mret (false, DiasNoPositivos, None)
    else if 30 <? dias_renta then mret (false, MaximoDias30, None)
    else
      comprometida ← ejecutar_query (λ bd, bd);
      match preparar_detalles comprometida dias_renta detalles [] 0 0 with
      | inl msg => mret (false, msg, None)
      | inr (detalles_validados, subtotal, deposito_total) =>
          let fecha_renta := ahora in
          let fecha_devolucion := ahora + timedelta dias_renta in
          let renta := mkRenta None id_cliente id_usuario fecha_renta fecha_devolucion
                               None 0 dias_renta subtotal deposito_total "Activa" in
          match validar_renta renta detalles_validados with
          | Some msg_val => mret (false, msg_val, None)
          | None =>
              r ← cursor_execute
                    (sql_insertar_renta id_cliente id_usuario fecha_renta fecha_devolucion
                                        dias_renta subtotal deposito_total);
              match r with
              | None => _ ← rollback comprometida; mret (false, ErrorInesperado, None)
              | Some id =>
                  if id =? 0
                  then _ ← rollback comprometida; mret (false, ErrorAlRegistrarRenta, None)
                  else
                    r' ← insertar_detalles id detalles_validados;
                    match r' with
                    | None => _ ← rollback comprometida; mret (false, ErrorInesperado, None)
                    | Some _ => mret (true, RentaRegistrada id, Some id)
                    end
              end
          end
      end
  end.

(** [buscar_por_id]. *)
Definition buscar_por_id (bd : BD) (id : Z) : option Renta :=
  match sql_rentas_por_id id bd with
  | fila :: _ => Some (Renta_from_db_row fila)
  | [] => None
  end.

(** [info_financiera]. *)
Record InfoFinanciera := mkInfoFinanciera {
  total_renta : Z;
  info_deposito : Z;
  dias_retraso : Z;
  info_penalizacion : Z;
  deposito_devuelto : Z;
  cobrar_adicional : Z
}.

(** Step 5 of [devolver_renta]: one committed UPDATE for each detail;
    its result is not looked at. *)
Fixpoint devolver_stock (detalles : list (string * Z)) : Op unit :=
  match detalles with
  | [] => mret ()
  | (codigo, cantidad) :: resto =>
      _ ← ejecutar_update (sql_sumar_disponible cantidad codigo);
      devolver_stock resto
  end.

Definition devolver_renta (self : RentaController) (ahora : Z) (id id_usuario : Z)
  : Op (bool * Mensaje * option InfoFinanciera) :=
  renta ← ejecutar_query (λ bd, buscar_por_id bd id);
  match renta with
  | None => mret (false, NoExisteRenta id, None)
  | Some renta =>
      if esta_devuelta renta then mret (false, RentaYaDevuelta, None)
      else if negb (esta_activa renta) && negb (esta_vencida renta)
      then mret (false, EstadoNoDevolvible (estado_renta renta), None)
      else
        let dias_retraso := dias_de_retraso ahora renta in
        let penalizacion := calcular_penalizacion ahora renta (penalizacion_dia self) in
        detalles ← ejecutar_query (sql_detalles_de id);
        match detalles with
        | [] => mret (false, SinDetalles, None)
        | _ =>
            _ ← devolver_stock detalles;
            _ ← ejecutar_update (sql_devolver_renta ahora penalizacion id);
            let info :=
              mkInfoFinanciera (total renta) (deposito renta) dias_retraso penalizacion
                               (deposito_a_devolver renta) (Z.max 0 penalizacion) in
            mret (true, RentaDevuelta id, Some info)
        end
  end.

(** [marcar_rentas_vencidas]; [ahora] is the server's NOW(). *)
Definition marcar_rentas_vencidas (ahora : Z) : Op Z :=
  filas ← ejecutar_update (sql_marcar_vencidas ahora);
  match filas with
  | Some n => if 0 <? n then mret n else mret 0
  | None => mret 0
  end.

(** [actualizar_penalizacion_dia]: the answer and the instance after the
    call. *)
Definition actualizar_penalizacion_dia (self : RentaController) (nuevo_monto : Z)
  : Op (bool * Mensaje * RentaController) :=
  if nuevo_monto <? 0 then mret (false, MontoNegativo, self)
  else
    filas ← ejecutar_update (sql_fijar_config "PENALIZACION_DIA" nuevo_monto);
    if filas_positivas filas
    then mret (true, PenalizacionActualizada nuevo_monto, mkRentaController nuevo_monto)
    else mret (false, NoSePudoActualizarConfiguracion, self).

(** *** Further functions of the first copy *)

(** The texts of [eliminar_disfraz]. *)
Inductive MensajeCatalogo :=
| NoExisteCodigo (codigo : string)
| DisfrazEliminado
| NoSePudoEliminar.

(** [existe_codigo]: SELECT COUNT( * ) ... WHERE Codigo_Barras = codigo is
    positive. *)
Definition existe_codigo (bd : BD) (codigo : string) : bool :=
  match INVENTARIO bd !! codigo with
  | Some _ => true
  | None => false
  end.

(** [eliminar_disfraz]: the item is marked 'Inactivo', never deleted. *)
Definition eliminar_disfraz (codigo : string) : Op (bool * MensajeCatalogo) :=
  existe ← ejecutar_query (λ bd, existe_codigo bd codigo);
  if negb existe then mret (false, NoExisteCodigo codigo)
  else
    filas ← ejecutar_update (sql_inactivar codigo);
    if filas_positivas filas then mret (true, DisfrazEliminado)
    else mret (false, NoSePudoEliminar).

(** [Disfraz.tiene_stock] and [Disfraz.es_rentable]. *)
Definition tiene_stock (d : Disfraz) (cantidad : Z) : bool := cantidad <=? disponible d.

Definition es_rentable (d : Disfraz) : bool := esta_activo d && (0 <? disponible d).

(** [Renta.debe_marcarse_vencida]. *)
Definition debe_marcarse_vencida (ahora : Z) (r : Renta) : bool :=
  esta_activa r && (fecha_devolucion r <? ahora).

(** [Renta.total_a_pagar_devolucion]. *)
Definition total_a_pagar_devolucion (ahora : Z) (r : Renta) (penalizacion_por_dia : Z) : Z :=
  total r - deposito r + calcular_penalizacion ahora r penalizacion_por_dia.

(** [Renta.agregar_detalle], on the list [renta.detalles]: the subtotal is
    computed again from the rental's days. *)
Definition agregar_detalle (r : Renta) (detalles : list DetalleRenta) (d : DetalleRenta)
  : list DetalleRenta :=
  detalles ++ [calcular_subtotal d (dias_renta r)].

(** [cargar_detalles]: the rows of the rental, each turned into a
    DetalleRenta with the stored subtotal and then added to the rental;
    the answer is False when there is none.  (Id_Detalle is not a column
    of the store and the two id attributes of the objects are left out.) *)
Definition cargar_detalles (bd : BD) (r : Renta) : bool * list DetalleRenta :=
  match id_renta r with
  | None => (false, [])
  | Some id =>
      match sql_filas_detalle_de id bd with
      | [] => (false, [])
      | filas =>
          (true,
           foldl (λ detalles fila,
                    agregar_detalle r detalles
                      (mkDetalleRenta (det_Codigo_Barras fila) (det_Cantidad fila)
                                      (det_Precio_Unitario fila) (det_Subtotal fila)))
                 [] filas)
      end
  end.

(** [obtener_renta_completa]: the rental and its [detalles]. *)
Definition obtener_renta_completa (bd : BD) (id : Z) : option (Renta * list DetalleRenta) :=
  match buscar_por_id bd id with
  | Some r => Some (r, snd (cargar_detalles bd r))
  | None => None
  end.

(** [contar_rentas_activas]: COUNT( * ) ... WHERE Estado = 'Activa'. *)
Definition contar_rentas_activas (bd : BD) : Z :=
  sql_contar_rentas_en ["Activa"] bd.

End Controllers.

(** ** Second copy: src/INTEGRADORA/controllers and src/INTEGRADORA/models *)

Module Integradora.

(** The texts returned as [mensaje]. *)
Inductive Mensaje :=
| DisfrazNoEncontrado (codigo : string)
| DisfrazInactivo (codigo : string)
| CantidadNoPositiva
| StockInsuficiente (disponible solicitado : Z)
| OK
| StockDescontado
| StockAumentado
| NoSePudoActualizarStock
| ExcedeStock (stock disponible_actual intento : Z)
| ClienteNoEncontrado (id : Z)
| UsuarioNoEncontrado (id : Z)
| RentaSinDisfraces
| DiasNoPositivos
| SinStockSuficiente (codigo : string) (msg_disp : Mensaje)
| PrecioRentaNegativo (codigo : string)
| PrecioVentaNegativo (codigo : string)
| ErrorAlRegistrarRenta
| RentaRegistrada
| RentaNoEncontrada (id : Z)
| EstadoNoDevolvible (estado : string)
| RentaDevuelta
| PenalizacionNegativa
| PenalizacionActualizada (monto : Z)
| ErrorInesperado.

(** *** models/disfraz.py *)

(** [Disfraz.from_db_row]: the constructor raises ValueError on a
    negative price, stock or disponible (None here); an empty Estado
    reads as 'Activo'. *)
Definition Disfraz_from_db_row (codigo : string) (f : FilaInventario) : option Disfraz :=
  if Precio_Venta f <? 0 then None
  else if Precio_Renta f <? 0 then None
  else if Stock f <? 0 then None
  else if Disponible f <? 0 then None
  else Some (mkDisfraz codigo (Precio_Venta f) (Precio_Renta f) (Stock f) (Disponible f)
                       (if String.eqb (Estado f) "" then "Activo" else Estado f)).

(** *** models/renta.py *)

(** [Renta.from_db_row]: the constructor raises ValueError on the cases
    below (None here); an empty Estado reads as 'Activa'. *)
Definition Renta_from_db_row (r : FilaRenta) : option Renta :=
  if Id_Cliente r <=? 0 then None
  else if Id_Usuario r <=? 0 then None
  else if Dias_Renta r <=? 0 then None
  else if Total r <? 0 then None
  else if Deposito r <? 0 then None
  else if Penalizacion r <? 0 then None
  else if Fecha_Devolucion r <=? Fecha_Renta r then None
  else Some (mkRenta (Some (Id_Renta r)) (Id_Cliente r) (Id_Usuario r) (Fecha_Renta r)
                     (Fecha_Devolucion r) (Fecha_Devuelto r) (Penalizacion r)
                     (Dias_Renta r) (Total r) (Deposito r)
                     (if String.eqb (Estado_Renta r) "" then "Activa" else Estado_Renta r)).

(** *** controllers/inventario_controller.py *)

(** An exception of [from_db_row] is caught and answered with None. *)
Definition buscar_por_codigo (bd : BD) (codigo : string) : option Disfraz :=
  INVENTARIO bd !! codigo ≫= Disfraz_from_db_row codigo.

Definition verificar_disponibilidad (bd : BD) (codigo : string) (cantidad : Z)
  : bool * Mensaje * Z :=
  match buscar_por_codigo bd codigo with
  | None => (false, DisfrazNoEncontrado codigo, 0)
  | Some disfraz =>
      if negb (esta_activo disfraz) then (false, DisfrazInactivo codigo, 0)
      else if cantidad <=? 0 then (false, CantidadNoPositiva, disponible disfraz)
      else if disponible disfraz <? cantidad
      then (false, StockInsuficiente (disponible disfraz) cantidad, disponible disfraz)
      else (true, OK, disponible disfraz)
  end.

Definition descontar_stock (codigo : string) (cantidad : Z) : Op (bool * Mensaje) :=
  disfraz ← ejecutar_query (λ bd, buscar_por_codigo bd codigo);
  match disfraz with
  | None => mret (false, DisfrazNoEncontrado codigo)
  | Some disfraz =>
      if negb (esta_activo disfraz) then mret (false, DisfrazInactivo codigo)
      else if cantidad <=? 0 then mret (false, CantidadNoPositiva)
      else if disponible disfraz <? cantidad
      then mret (false, StockInsuficiente (disponible disfraz) cantidad)
      else
        let nuevo_disponible := disponible disfraz - cantidad in
        filas ← ejecutar_update (sql_fijar_disponible nuevo_disponible codigo);
        if filas_positivas filas then mret (true, StockDescontado)
        else mret (false, NoSePudoActualizarStock)
  end.

Definition aumentar_stock (codigo : string) (cantidad : Z) : Op (bool * Mensaje) :=
  disfraz ← ejecutar_query (λ bd, buscar_por_codigo bd codigo);
  match disfraz with
  | None => mret (false, DisfrazNoEncontrado codigo)
  | Some disfraz =>
      if cantidad <=? 0 then mret (false, CantidadNoPositiva)
      else
        let nuevo_disponible := disponible disfraz + cantidad in
        if stock disfraz <? nuevo_disponible
        then mret (false, ExcedeStock (stock disfraz) (disponible disfraz) cantidad)
        else
          filas ← ejecutar_update (sql_fijar_disponible nuevo_disponible codigo);
          if filas_positivas filas then mret (true, StockAumentado)
          else mret (false, NoSePudoActualizarStock)
  end.

(** *** controllers/renta_controller.py *)

(** [_cargar_penalizacion_config], over the default 50.0 of [__init__]. *)
Definition _cargar_penalizacion_config (bd : BD) : Z :=
  match CONFIGURACION bd !! "PENALIZACIONDIA" with
  | Some v => v
  | None => pesos 50
  end.

Definition nuevo_controlador (bd : BD) : RentaController :=
  mkRentaController (_cargar_penalizacion_config bd).

(** [actualizar_penalizacion_dia]: neither the UPDATE's nor the INSERT's
    result is looked at before the attribute is set. *)
Definition actualizar_penalizacion_dia (self : RentaController) (monto : Z)
  : Op (bool * Mensaje * RentaController) :=
  if monto <? 0 then mret (false, PenalizacionNegativa, self)
  else
    r ← ejecutar_query (λ bd, CONFIGURACION bd !! "PENALIZACIONDIA");
    _ ← match r with
        | Some _ => ejecutar_update (sql_fijar_config "PENALIZACIONDIA" monto)
        | None => ejecutar_insert (λ bd, (sql_insertar_config "PENALIZACIONDIA" monto bd, 0))
        end;
    mret (true, PenalizacionActualizada monto, mkRentaController monto).

(** [_validar_datos_renta_basicos]; a customer or user exists when its
    id is in the table. *)
Definition _validar_datos_renta_basicos (bd : BD) (id_cliente id_usuario : Z)
           (detalles : list Item) (dias_renta : Z) : option Mensaje :=
  if negb (bool_decide (id_cliente ∈ CLIENTES bd)) then Some (ClienteNoEncontrado id_cliente)
  else if negb (bool_decide (id_usuario ∈ USUARIOS bd)) then Some (UsuarioNoEncontrado id_usuario)
  else match detalles with
       | [] => Some RentaSinDisfraces
       | _ => if dias_renta <=? 0 then Some DiasNoPositivos else None
       end.

(** First loop of [registrar_renta]: availability of every entry, and
    [total] and [deposito]. *)
Fixpoint calcular_totales (bd : BD) (dias_renta : Z) (detalles : list Item)
         (total deposito : Z) : Mensaje + (Z * Z) :=
  match detalles with
  | [] => inr (total, deposito)
  | item :: resto =>
      let codigo := item_codigo_barras item in
      let cantidad := item_cantidad item in
      match verificar_disponibilidad bd codigo cantidad with
      | (false, msg_disp, _) => inl (SinStockSuficiente codigo msg_disp)
      | (true, _, _) =>
          match buscar_por_codigo bd codigo with
          | None => inl (DisfrazNoEncontrado codigo)
          | Some disfraz =>
              if precio_renta disfraz <? 0 then inl (PrecioRentaNegativo codigo)
              else if precio_venta disfraz <? 0 then inl (PrecioVentaNegativo codigo)
              else
                let subtotal := cantidad * precio_renta disfraz * dias_renta in
                calcular_totales bd dias_renta resto
                  (total + subtotal) (deposito + precio_venta disfraz * cantidad)
          end
      end
  end.

(** Second loop of [registrar_renta]: for every entry a committed INSERT
    of its row, then [descontar_stock]; a failure of either is at most
    logged.  None: [buscar_por_codigo] found nothing and the attribute
    access raised. *)
Fixpoint registrar_detalles (nuevo_id dias_renta : Z) (detalles : list Item)
  : Op (option unit) :=
  match detalles with
  | [] => mret (Some ())
  | item :: resto =>
      let codigo := item_codigo_barras item in
      let cantidad := item_cantidad item in
      disfraz ← ejecutar_query (λ bd, buscar_por_codigo bd codigo);
      match disfraz with
      | None => mret None
      | Some disfraz =>
          let subtotal := cantidad * precio_renta disfraz * dias_renta in
          _ ← ejecutar_insert (λ bd,
                (sql_insertar_detalle
                   (mkFilaDetalle nuevo_id codigo cantidad (precio_renta disfraz) subtotal) bd,
                 0));
          _ ← descontar_stock codigo cantidad;
          registrar_detalles nuevo_id dias_renta resto
      end
  end.

(** [registrar_renta]: every statement is committed on its own, through
    [ejecutar_insert] and [descontar_stock]. *)
Definition registrar_renta (ahora : Z) (id_cliente id_usuario : Z)
           (detalles : list Item) (dias_renta : Z)
  : Op (bool * Mensaje * option Z) :=
  validacion ← ejecutar_query
                 (λ bd, _validar_datos_renta_basicos bd id_cliente id_usuario detalles dias_renta);
  match validacion with
  | Some msg => mret (false, msg, None)
  | None =>
      totales ← ejecutar_query (λ bd, calcular_totales bd dias_renta detalles 0 0);
      match totales with
      | inl msg => mret (false, msg, None)
      | inr (total, deposito) =>
          let fecha_devolucion := ahora + timedelta dias_renta in
          nuevo_id ← ejecutar_insert
                       (sql_insertar_renta id_cliente id_usuario ahora fecha_devolucion
                                           dias_renta total deposito);
          match nuevo_id with
          | None => mret (false, ErrorAlRegistrarRenta, None)
          | Some nuevo_id =>
              if nuevo_id =? 0 then mret (false, ErrorAlRegistrarRenta, None)
              else
                r ← registrar_detalles nuevo_id dias_renta detalles;
                match r with
                | None => mret (false, ErrorInesperado, None)
                | Some _ => mret (true, RentaRegistrada, Some nuevo_id)
                end
          end
      end
  end.

(** [info] of [devolver_renta]. *)
Record Info := mkInfo {
  dias_retraso : Z;
  info_penalizacion : Z;
  deposito_devuelto : Z
}.

(** The loop of [devolver_renta] over the details: [aumentar_stock] for
    each, a failure is logged. *)
Fixpoint restaurar_stock (dets : list (string * Z)) : Op unit :=
  match dets with
  | [] => mret ()
  | (codigo, cant) :: resto =>
      _ ← aumentar_stock codigo cant;
      restaurar_stock resto
  end.

Definition devolver_renta (self : RentaController) (ahora : Z) (id id_usuario : Z)
  : Op (bool * Mensaje * option Info) :=
  r ← ejecutar_query (sql_rentas_por_id id);
  match r with
  | [] => mret (false, RentaNoEncontrada id, None)
  | fila :: _ =>
      match Renta_from_db_row fila with
      | None => mret (false, ErrorInesperado, None)
      | Some renta =>
          if negb (String.eqb (estado_renta renta) "Activa"
                   || String.eqb (estado_renta renta) "Vencida")
          then mret (false, EstadoNoDevolvible (estado_renta renta), None)
          else
            dets ← ejecutar_query (sql_detalles_de id);
            _ ← restaurar_stock dets;
            let dias_retraso :=
              if fecha_devolucion renta <? ahora
              then days (ahora - fecha_devolucion renta) else 0 in
            let penalizacion :=
              if (fecha_devolucion renta <? ahora) && (0 <? dias_retraso)
              then penalizacion_dia self * dias_retraso else 0 in
            _ ← ejecutar_update (sql_devolver_renta ahora penalizacion id);
            mret (true, RentaDevuelta, Some (mkInfo dias_retraso penalizacion (deposito renta)))
      end
  end.

(** [marcar_rentas_vencidas]; [ahora] is [datetime.now()]. *)
Definition marcar_rentas_vencidas (ahora : Z) : Op Z :=
  filas ← ejecutar_update (sql_marcar_vencidas ahora);
  match filas with
  | Some n => if n =? 0 then mret 0 else mret n
  | None => mret 0
  end.

(** *** Further functions of the second copy *)

(** The texts of [eliminar_disfraz] and [editar_disfraz]. *)
Inductive MensajeCatalogo :=
| NoEncontrado (codigo : string)
| MarcadoInactivo (codigo : string)
| NoSePudoCambiarEstado
| EliminadoCompletamente
| NoSePudoEliminar
| PrecioVentaNoPositivo
| PrecioRentaNoPositivo
| StockNegativo
| StockBajoRentados (rentados : Z)
| SinDatosParaActualizar
| DisfrazActualizado
| SinCambios.

(** [obtener_disponible] and [tiene_disponible]. *)
Definition obtener_disponible (bd : BD) (codigo : string) : Z :=
  match buscar_por_codigo bd codigo with
  | Some disfraz => disponible disfraz
  | None => 0
  end.

Definition tiene_disponible (bd : BD) (codigo : string) (cantidad : Z) : bool :=
  match buscar_por_codigo bd codigo with
  | Some disfraz => cantidad <=? disponible disfraz
  | None => false
  end.

(** [_disfraz_tiene_movimiento]: a line of a rental or of a sale names the
    item.  DETALLE_VENTAS is a table of the sales; its Codigo_Barras
    column is an argument here, nothing below writes to it. *)
Definition _disfraz_tiene_movimiento (DETALLE_VENTAS : list string) (bd : BD) (codigo : string)
  : bool :=
  let rentas := sql_contar_detalles_de_codigo codigo bd in
  let ventas := Z.of_nat (length (filter (λ c, c = codigo) DETALLE_VENTAS)) in
  (0 <? rentas) || (0 <? ventas).

(** [_eliminar_disfraz_fisico]. *)
Definition _eliminar_disfraz_fisico (codigo : string) : Op (bool * MensajeCatalogo) :=
  filas ← ejecutar_update (sql_eliminar_inventario codigo);
  if filas_positivas filas then mret (true, EliminadoCompletamente)
  else mret (false, NoSePudoEliminar).

(** [_cambiar_a_inactivo]. *)
Definition _cambiar_a_inactivo (codigo : string) : Op (bool * MensajeCatalogo) :=
  disfraz ← ejecutar_query (λ bd, buscar_por_codigo bd codigo);
  match disfraz with
  | None => mret (false, NoEncontrado codigo)
  | Some _ =>
      filas ← ejecutar_update (sql_inactivar codigo);
      if filas_positivas filas then mret (true, MarcadoInactivo codigo)
      else mret (false, NoSePudoCambiarEstado)
  end.

(** [eliminar_disfraz]: an item with movement is marked 'Inactivo', one
    without is deleted. *)
Definition eliminar_disfraz (DETALLE_VENTAS : list string) (codigo : string)
  : Op (bool * MensajeCatalogo) :=
  disfraz ← ejecutar_query (λ bd, buscar_por_codigo bd codigo);
  match disfraz with
  | None => mret (false, NoEncontrado codigo)
  | Some _ =>
      movimiento ← ejecutar_query (λ bd, _disfraz_tiene_movimiento DETALLE_VENTAS bd codigo);
      if (movimiento : bool) then _cambiar_a_inactivo codigo
      else _eliminar_disfraz_fisico codigo
  end.

(** [editar_disfraz] called with [descripcion], [talla], [color] and
    [categoria] left at None: the two prices and the stock ([nuevo_stock],
    once converted), each optional. *)
Definition editar_disfraz (codigo : string) (precio_venta precio_renta nuevo_stock : option Z)
  : Op (bool * MensajeCatalogo) :=
  disfraz ← ejecutar_query (λ bd, buscar_por_codigo bd codigo);
  match disfraz with
  | None => mret (false, NoEncontrado codigo)
  | Some disfraz =>
      if match precio_venta with Some pv => pv <=? 0 | None => false end
      then mret (false, PrecioVentaNoPositivo)
      else if match precio_renta with Some pr => pr <=? 0 | None => false end
      then mret (false, PrecioRentaNoPositivo)
      else
        let rentados := stock disfraz - disponible disfraz in
        if match nuevo_stock with Some n => n <? 0 | None => false end
        then mret (false, StockNegativo)
        else if match nuevo_stock with Some n => n <? rentados | None => false end
        then mret (false, StockBajoRentados rentados)
        else
          match precio_venta, precio_renta, nuevo_stock with
          | None, None, None => mret (false, SinDatosParaActualizar)
          | _, _, _ =>
              rows ← ejecutar_update
                       (sql_editar_inventario precio_venta precio_renta nuevo_stock codigo);
              if filas_positivas rows then mret (true, DisfrazActualizado)
              else mret (false, SinCambios)
          end
  end.

(** [Disfraz.rentados_actualmente]. *)
Definition rentados_actualmente (d : Disfraz) : Z :=
  Z.max 0 (stock d - disponible d).

(** [contar_rentas_activas]: COUNT( * ) ... WHERE Estado IN ('Activa',
    'Vencida'). *)
Definition contar_rentas_activas (bd : BD) : Z :=
  sql_contar_rentas_en ["Activa"; "Vencida"] bd.

(** [cambiar_estado] of models/disfraz.py and models/renta.py, which differ
    in ESTADOS_VALIDOS only: the state of the object and its
    [historial_estados]. *)
Record RegistroEstado := mkRegistroEstado {
  reg_fecha : Z;
  reg_antiguo_estado : string;
  reg_nuevo_estado : string;
  reg_usuario : option string;
  reg_motivo : option string
}.

Record Auditado := mkAuditado {
  aud_estado : string;
  historial_estados : list RegistroEstado
}.

Definition ESTADOS_VALIDOS_Disfraz : list string := ["Activo"; "Inactivo"].
Definition ESTADOS_VALIDOS_Renta : list string := ["Activa"; "Devuelto"; "Vencida"].

Definition validar_estado (ESTADOS_VALIDOS : list string) (obj : Auditado) : bool :=
  bool_decide (aud_estado obj ∈ ESTADOS_VALIDOS).

Definition cambiar_estado (ESTADOS_VALIDOS : list string) (ahora : Z) (obj : Auditado)
           (nuevo_estado : string) (usuario motivo : option string) : bool * Auditado :=
  if String.eqb (aud_estado obj) nuevo_estado then (false, obj)
  else if negb (bool_decide (nuevo_estado ∈ ESTADOS_VALIDOS)) then (false, obj)
  else
    let registro :=
      mkRegistroEstado ahora (aud_estado obj) nuevo_estado usuario motivo in
    (true, mkAuditado nuevo_estado (historial_estados obj ++ [registro])).

Definition ultimo_cambio_estado (obj : Auditado) : option RegistroEstado :=
  last (historial_estados obj).

End Integradora.

(** ** Vocabulary of the statements *)

(** The ledger invariant on every item of the inventory. *)
Definition invariante_stock (bd : BD) : Prop :=
  ∀ codigo f, INVENTARIO bd !! codigo = Some f → 0 ≤ Disponible f ≤ Stock f.

(** Columns of an item, 0 when the item is not in the inventory. *)
Definition disponible_de (bd : BD) (codigo : string) : Z :=
  match INVENTARIO bd !! codigo with Some f => Disponible f | None => 0 end.

Definition precio_renta_de (bd : BD) (codigo : string) : Z :=
  match INVENTARIO bd !! codigo with Some f => Precio_Renta f | None => 0 end.

Definition precio_venta_de (bd : BD) (codigo : string) : Z :=
  match INVENTARIO bd !! codigo with Some f => Precio_Venta f | None => 0 end.

Definition suma (l : list Z) : Z := foldr Z.add 0 l.

(** Units of an item asked for by an order. *)
Definition cantidad_pedida (codigo : string) (detalles : list Item) : Z :=
  suma (item_cantidad <$> filter (λ i, item_codigo_barras i = codigo) detalles).

(** An operation of the ledger, and a sequence of them run one after the
    other on the second copy's inventory controller. *)
Inductive Movimiento :=
| Reservar (codigo : string) (cantidad : Z)
| Liberar (codigo : string) (cantidad : Z).

Definition mover (m : Movimiento) : Op (bool * Integradora.Mensaje) :=
  match m with
  | Reservar codigo cantidad => Integradora.descontar_stock codigo cantidad
  | Liberar codigo cantidad => Integradora.aumentar_stock codigo cantidad
  end.

Fixpoint mover_todos (ms : list Movimiento) : Op unit :=
  match ms with
  | [] => mret ()
  | m :: resto => _ ← mover m; mover_todos resto
  end.

(** Scenario A of the specification: item X with 10 of 10 units
    available, 150 a day, sale price 800; the rate is 50 a day. *)
Definition bd_A : BD :=
  mkBD {[ "X" := mkFilaInventario (pesos 800) (pesos 150) 10 10 "Activo" ]} [] []
       {[ "PENALIZACION_DIA" := pesos 50 ]} [1] [1] 1.

(** The same store with 11 units of X available. *)
Definition bd_A_excedido : BD :=
  con_INVENTARIO {[ "X" := mkFilaInventario (pesos 800) (pesos 150) 10 11 "Activo" ]} bd_A.

(** A reservation of 2 units and its release, made twice, on the first
    copy's inventory controller. *)
Definition doble_devolucion : Op unit :=
  _ ← Controllers.descontar_stock "X" 2;
  _ ← Controllers.aumentar_stock "X" 2;
  _ ← Controllers.aumentar_stock "X" 2;
  mret ().

(** When the sweep at [ahora] has to flag a rental. *)
Definition vence (ahora : Z) (r : FilaRenta) : Prop :=
  Estado_Renta r = "Activa" ∧ Fecha_Devolucion r < ahora.

#[global] Instance vence_dec ahora r : Decision (vence ahora r).
Proof. unfold vence. apply _. Defined.

(** What the claim on the overdue sweep asks of an implementation
    [marcar] whose UPDATE goes through. *)
Definition barrido_correcto (marcar : Z → Op Z) : Prop :=
  ∀ ahora fallos bd,
    let r := marcar ahora (false :: fallos, bd) in
    let bd' := snd (snd r) in
    fst r = Z.of_nat (length (filter (vence ahora) (RENTAS bd))) ∧
    length (RENTAS bd') = length (RENTAS bd) ∧
    (∀ i fila, RENTAS bd !! i = Some fila →
       RENTAS bd' !! i
       = Some (if decide (vence ahora fila) then con_Estado_Renta "Vencida" fila else fila)) ∧
    Penalizacion <$> RENTAS bd' = Penalizacion <$> RENTAS bd ∧
    INVENTARIO bd' = INVENTARIO bd ∧
    DETALLE_RENTAS bd' = DETALLE_RENTAS bd ∧
    CONFIGURACION bd' = CONFIGURACION bd ∧
    (∀ fallos', marcar ahora (fallos', bd') = (0, (snd (siguiente fallos'), bd'))).

(** Scenario B of the specification: a rental of 2 units of X, due at
    the end of day 2, still open; 8 of the 10 units are available. *)
Definition bd_B : BD :=
  mkBD {[ "X" := mkFilaInventario (pesos 800) (pesos 150) 10 8 "Activo" ]}
       [mkFilaRenta 1 1 1 0 (timedelta 2) None 0 2 (pesos 600) (pesos 1600) "Activa"]
       [mkFilaDetalle 1 "X" 2 (pesos 150) (pesos 600)]
       {[ "PENALIZACION_DIA" := pesos 50 ]} [1] [1] 2.






(** A rental that has not been returned carries no return date: true of
    the empty table and kept by every operation on rentals (below). *)
Definition rentas_abiertas_sin_fecha (bd : BD) : Prop :=
  ∀ r, r ∈ RENTAS bd → Estado_Renta r ≠ "Devuelto" → Fecha_Devuelto r = None.

(** The detail [registrar_renta] validates for an entry of the order: the
    rate is the item's Precio_Renta in the store at that moment. *)
Definition detalle_de (bd : BD) (dias : Z) (i : Item) : Controllers.DetalleRenta :=
  Controllers.mkDetalleRenta
    (item_codigo_barras i) (item_cantidad i) (precio_renta_de bd (item_codigo_barras i))
    (item_cantidad i * precio_renta_de bd (item_codigo_barras i) * dias).

(** Did one of the statements that ran between schedule [fallos] and what
    is left of it, [fallos'], raise? *)
Definition hubo_fallo (fallos fallos' : list bool) : Prop :=
  true ∈ take (length fallos - length fallos') fallos.

(** The claim that a return is one unit of work: when a statement of the
    call raises, the store is left as it was. *)
Definition devolucion_atomica {R} (devolver : RentaController → Z → Z → Z → Op R) : Prop :=
  ∀ self ahora id id_usuario fallos bd r fallos' bd',
    devolver self ahora id id_usuario (fallos, bd) = (r, (fallos', bd')) →
    hubo_fallo fallos fallos' →
    bd' = bd.

(** Units of [codigo] in the lines of a return whose release statement,
    one for each line in order, went through. *)
Fixpoint liberado (codigo : string) (detalles : list (string * Z)) (fallos : list bool) : Z :=
  match detalles with
  | [] => 0
  | (c, cantidad) :: resto =>
      (if decide (c = codigo) then if fst (siguiente fallos) then 0 else cantidad else 0)
      + liberado codigo resto (snd (siguiente fallos))
  end.

(** The schedule after [n] statements. *)
Fixpoint tras (n : nat) (fallos : list bool) : list bool :=
  match n with
  | O => fallos
  | S n' => tras n' (snd (siguiente fallos))
  end.

(** No item has a negative Disponible. *)
Definition disponible_no_negativo (bd : BD) : Prop :=
  ∀ codigo f, INVENTARIO bd !! codigo = Some f → 0 ≤ Disponible f.

(** Every id in use is below the next id to be given. *)
Definition ids_frescos (bd : BD) : Prop :=
  (∀ r, r ∈ RENTAS bd → Id_Renta r < auto_increment bd) ∧
  (∀ d, d ∈ DETALLE_RENTAS bd → det_Id_Renta d < auto_increment bd).

(** The row of DETALLE_RENTAS that [registrar_renta] writes for an entry
    of the order. *)
Definition fila_de_detalle (bd : BD) (dias id : Z) (i : Item) : FilaDetalle :=
  mkFilaDetalle id (item_codigo_barras i) (item_cantidad i)
                (precio_renta_de bd (item_codigo_barras i))
                (item_cantidad i * precio_renta_de bd (item_codigo_barras i) * dias).

(** A call on the first copy's rental controller, and a sequence of calls
    run one after the other. *)
Inductive Llamada :=
| Registrar (ahora id_cliente id_usuario : Z) (detalles : list Item) (dias_renta : Z)
| Devolver (self : RentaController) (ahora id id_usuario : Z)
| MarcarVencidas (ahora : Z).

Definition llamar (l : Llamada) : Op unit :=
  match l with
  | Registrar ahora id_cliente id_usuario detalles dias_renta =>
      _ ← Controllers.registrar_renta ahora id_cliente id_usuario detalles dias_renta; mret ()
  | Devolver self ahora id id_usuario =>
      _ ← Controllers.devolver_renta self ahora id id_usuario; mret ()
  | MarcarVencidas ahora =>
      _ ← Controllers.marcar_rentas_vencidas ahora; mret ()
  end.

Fixpoint llamar_todas (ls : list Llamada) : Op unit :=
  match ls with
  | [] => mret ()
  | l :: resto => _ ← llamar l; llamar_todas resto
  end.

(** What every row of RENTAS written by the first copy looks like: due
    after it starts, by its 1 to 30 days; a positive total; and either
    returned, with its return date, or open ('Activa' or 'Vencida'), with
    no return date and no penalty. *)
Definition renta_coherente (r : FilaRenta) : Prop :=
  1 ≤ Dias_Renta r ≤ 30 ∧
  Fecha_Devolucion r = Fecha_Renta r + timedelta (Dias_Renta r) ∧
  0 < Total r ∧ 0 ≤ Deposito r ∧
  ((Estado_Renta r = "Devuelto" ∧ is_Some (Fecha_Devuelto r)) ∨
   ((Estado_Renta r = "Activa" ∨ Estado_Renta r = "Vencida") ∧
    Fecha_Devuelto r = None ∧ Penalizacion r = 0)).

Definition almacen_coherente (bd : BD) : Prop :=
  (∀ r, r ∈ RENTAS bd → renta_coherente r) ∧
  ids_frescos bd ∧
  NoDup (Id_Renta <$> RENTAS bd).

(** Every line of DETALLE_RENTAS names an item of the inventory. *)
Definition referencias_validas (bd : BD) : Prop :=
  ∀ d, d ∈ DETALLE_RENTAS bd → is_Some (INVENTARIO bd !! det_Codigo_Barras d).

(** A store in which rental 1 has been registered and returned two days
    late. *)
Definition bd_devuelta : BD :=
  snd (snd (llamar_todas
              [Registrar 0 1 1 [mkItem "X" 2] 3;
               Devolver (mkRentaController (pesos 50)) (timedelta 5) 1 1]
              ([], bd_A))).

(** ** Proof support *)

Ltac desplegar :=
  unfold mbind, mret, op_bind, op_ret, ejecutar_query, ejecutar_update,
    ejecutar_insert, rollback in *;
  simpl in *.

Lemma siguiente_cursor_execute {A} (stmt : BD → BD * A) fallos bd :
  cursor_execute stmt (fallos, bd) =
  if fst (siguiente fallos)
  then (None, (snd (siguiente fallos), bd))
  else (Some (snd (stmt bd)), (snd (siguiente fallos), fst (stmt bd))).
Proof.
  unfold cursor_execute; simpl.
  destruct (siguiente fallos) as [[] resto]; simpl; [reflexivity|].
  destruct (stmt bd); reflexivity.
Qed.

Lemma invariante_stock_fijar bd codigo nuevo f :
  invariante_stock bd →
  INVENTARIO bd !! codigo = Some f →
  0 ≤ nuevo ≤ Stock f →
  invariante_stock (fst (sql_fijar_disponible nuevo codigo bd)).
Proof.
  intros Hinv Hf Hn. unfold sql_fijar_disponible. rewrite Hf. simpl.
  intros c g. simpl. rewrite lookup_insert.
  case_decide as Hc.
  - intros [= <-]. simpl. exact Hn.
  - apply Hinv.
Qed.

Lemma buscar_por_codigo_Some bd codigo d :
  Integradora.buscar_por_codigo bd codigo = Some d →
  ∃ f, INVENTARIO bd !! codigo = Some f ∧
       stock d = Stock f ∧ disponible d = Disponible f ∧
       precio_renta d = Precio_Renta f ∧ precio_venta d = Precio_Venta f ∧
       0 ≤ Disponible f ∧ 0 ≤ Stock f ∧ 0 ≤ Precio_Renta f ∧ 0 ≤ Precio_Venta f.
Proof.
  unfold Integradora.buscar_por_codigo, Integradora.Disfraz_from_db_row.
  destruct (INVENTARIO bd !! codigo) as [f|]; simpl; [|discriminate].
  destruct (Precio_Venta f <? 0) eqn:E1; [discriminate|].
  destruct (Precio_Renta f <? 0) eqn:E2; [discriminate|].
  destruct (Stock f <? 0) eqn:E3; [discriminate|].
  destruct (Disponible f <? 0) eqn:E4; [discriminate|].
  intros [= <-]. exists f. simpl. repeat split; lia.
Qed.

(** The second copy's [descontar_stock] keeps the ledger invariant, whatever
    the arguments and the schedule. *)
Lemma Integradora_descontar_stock_invariante codigo cantidad fallos bd :
  invariante_stock bd →
  invariante_stock (snd (snd (Integradora.descontar_stock codigo cantidad (fallos, bd)))).
Proof.
  intros Hinv. unfold Integradora.descontar_stock.
  unfold mbind, op_bind, ejecutar_query, ejecutar_update. simpl.
  destruct (Integradora.buscar_por_codigo bd codigo) as [d|] eqn:Hd; [|exact Hinv].
  destruct (negb (esta_activo d)); [exact Hinv|].
  destruct (cantidad <=? 0) eqn:Hc; [exact Hinv|].
  destruct (disponible d <? cantidad) eqn:Hq; [exact Hinv|].
  rewrite siguiente_cursor_execute.
  destruct (buscar_por_codigo_Some _ _ _ Hd) as (f & Hf & Hs & Hdisp & _).
  assert (Hok : invariante_stock
                  (fst (sql_fijar_disponible (disponible d - cantidad) codigo bd))).
  { apply (invariante_stock_fijar bd codigo _ f Hinv Hf).
    specialize (Hinv _ _ Hf). lia. }
  destruct (fst (siguiente fallos)); simpl; [exact Hinv|].
  case_match; exact Hok.
Qed.

(** So does the second copy's [aumentar_stock]. *)
Lemma Integradora_aumentar_stock_invariante codigo cantidad fallos bd :
  invariante_stock bd →
  invariante_stock (snd (snd (Integradora.aumentar_stock codigo cantidad (fallos, bd)))).
Proof.
  intros Hinv. unfold Integradora.aumentar_stock.
  unfold mbind, op_bind, ejecutar_query, ejecutar_update. simpl.
  destruct (Integradora.buscar_por_codigo bd codigo) as [d|] eqn:Hd; [|exact Hinv].
  destruct (cantidad <=? 0) eqn:Hc; [exact Hinv|].
  destruct (stock d <? disponible d + cantidad) eqn:Hq; [exact Hinv|].
  rewrite siguiente_cursor_execute.
  destruct (buscar_por_codigo_Some _ _ _ Hd) as (f & Hf & Hs & Hdisp & _).
  assert (Hok : invariante_stock
                  (fst (sql_fijar_disponible (disponible d + cantidad) codigo bd))).
  { apply (invariante_stock_fijar bd codigo _ f Hinv Hf).
    specialize (Hinv _ _ Hf). lia. }
  destruct (fst (siguiente fallos)); simpl; [exact Hinv|].
  case_match; exact Hok.
Qed.

(** Hence every sequence of reservations and releases through the second
    copy's inventory controller ends in a store that satisfies the
    invariant (and so does every prefix of it, being such a sequence). *)
Lemma Integradora_movimientos_invariante ms fallos bd :
  invariante_stock bd →
  invariante_stock (snd (snd (mover_todos ms (fallos, bd)))).
Proof.
  revert fallos bd. induction ms as [|m ms IH]; intros fallos bd Hinv; [exact Hinv|].
  simpl. unfold mbind, op_bind.
  destruct (mover m (fallos, bd)) as [r [fallos' bd']] eqn:Hm.
  apply IH.
  replace bd' with (snd (snd (mover m (fallos, bd)))) by (rewrite Hm; reflexivity).
  destruct m; simpl.
  - apply Integradora_descontar_stock_invariante, Hinv.
  - apply Integradora_aumentar_stock_invariante, Hinv.
Qed.

(** The second copy's [aumentar_stock] refuses a release that would push
    Disponible above Stock and leaves the store as it was. *)
Lemma Integradora_aumentar_stock_rechaza_exceso codigo cantidad fallos bd d :
  Integradora.buscar_por_codigo bd codigo = Some d →
  0 < cantidad →
  stock d < disponible d + cantidad →
  Integradora.aumentar_stock codigo cantidad (fallos, bd)
  = ((false, Integradora.ExcedeStock (stock d) (disponible d) cantidad), (fallos, bd)).
Proof.
  intros Hd Hc Hq. unfold Integradora.aumentar_stock.
  unfold mbind, op_bind, ejecutar_query. simpl. rewrite Hd.
  destruct (cantidad <=? 0) eqn:E; [lia|].
  destruct (stock d <? disponible d + cantidad) eqn:E'; [reflexivity|lia].
Qed.

(** The second copy's [verificar_disponibilidad] answers false exactly in
    the four cases, and reports Disponible when the stock is short. *)
Lemma Integradora_verificar_disponibilidad_exacto bd codigo cantidad :
  (fst (fst (Integradora.verificar_disponibilidad bd codigo cantidad)) = false ↔
     Integradora.buscar_por_codigo bd codigo = None
     ∨ (∃ d, Integradora.buscar_por_codigo bd codigo = Some d ∧
             (esta_activo d = false ∨ cantidad ≤ 0 ∨ disponible d < cantidad)))
  ∧ (∀ d, Integradora.buscar_por_codigo bd codigo = Some d →
          esta_activo d = true → 0 < cantidad → disponible d < cantidad →
          Integradora.verificar_disponibilidad bd codigo cantidad
          = (false, Integradora.StockInsuficiente (disponible d) cantidad, disponible d)).
Proof.
  unfold Integradora.verificar_disponibilidad.
  destruct (Integradora.buscar_por_codigo bd codigo) as [d|]; simpl.
  - split.
    + destruct (esta_activo d) eqn:Ha; simpl.
      * destruct (cantidad <=? 0) eqn:Hc; simpl.
        -- split; [intros _; right; exists d; split; [reflexivity|lia] | reflexivity].
        -- destruct (disponible d <? cantidad) eqn:Hq; simpl.
           ++ split; [intros _; right; exists d; split; [reflexivity|lia] | reflexivity].
           ++ split; [discriminate|].
              intros [?|(d' & [= <-] & [?|[?|?]])]; try discriminate; try congruence; exfalso; lia.
      * split; [intros _; right; exists d; split; [reflexivity|left; exact Ha] | reflexivity].
    + intros d' [= <-] Ha Hc Hq. rewrite Ha. simpl.
      destruct (cantidad <=? 0) eqn:E; [lia|].
      destruct (disponible d <? cantidad) eqn:E'; [reflexivity|lia].
  - split; [split; [intros _; left; reflexivity | reflexivity] | intros d [=]].
Qed.

(** The first copy's [registrar_renta] is all or nothing: whenever it
    answers False, whatever the order and the schedule of failing
    statements, the store is the one it started from. *)
Lemma Controllers_registrar_renta_todo_o_nada ahora c u detalles dias fallos bd :
  fst (fst (fst (Controllers.registrar_renta ahora c u detalles dias (fallos, bd)))) = false →
  snd (snd (Controllers.registrar_renta ahora c u detalles dias (fallos, bd))) = bd.
Proof.
  unfold Controllers.registrar_renta.
  destruct detalles as [|item resto]; [reflexivity|].
  destruct (dias <=? 0); [reflexivity|].
  destruct (30 <? dias); [reflexivity|].
  unfold mbind, op_bind, ejecutar_query. cbn [snd fst].
  destruct (Controllers.preparar_detalles bd dias (item :: resto) [] 0 0)
    as [msg|[[validados subtotal] deposito_total]]; [reflexivity|].
  destruct (Controllers.validar_renta _ validados); [reflexivity|].
  rewrite siguiente_cursor_execute.
  destruct (fst (siguiente fallos)); [reflexivity|].
  cbn [snd fst].
  destruct (_ =? 0); [reflexivity|].
  destruct (Controllers.insertar_detalles _ validados _) as [[[]|] [fallos' bd']];
    [discriminate|reflexivity].
Qed.

(** C10.  In the first copy, every call of [registrar_renta] for more than
    30 days answers False with a validation message, executes no
    statement and leaves the store as it was. *)
Theorem registrar_renta_maximo_30_dias ahora c u detalles dias fallos bd :
  30 < dias →
  Controllers.registrar_renta ahora c u detalles dias (fallos, bd)
  = ((false,
      match detalles with
      | [] => Controllers.RentaSinProductos
      | _ => Controllers.MaximoDias30
      end,
      None),
     (fallos, bd)).
Proof.
  intros Hd. unfold Controllers.registrar_renta.
  destruct detalles as [|item resto]; [reflexivity|].
  destruct (dias <=? 0) eqn:E; [lia|].
  destruct (30 <? dias) eqn:E'; [reflexivity|lia].
Qed.

Lemma registrar_renta_maximo_30_dias_witness :
  30 < 31 ∧
  Controllers.registrar_renta 1000 1 1 [mkItem "X" 2] 31 ([], bd_A)
  = ((false, Controllers.MaximoDias30, None), ([], bd_A)).
Proof.
  split; [lia|].
  apply (registrar_renta_maximo_30_dias 1000 1 1 [mkItem "X" 2] 31 [] bd_A). lia.
Defined.

(** C1.  In the first copy the invariant 0 <= available <= totalStock does
    not survive a sequence of ledger operations: from Scenario A's store,
    which satisfies it, a reservation of 2 units followed by two releases
    of 2 units ends with 12 units available of a stock of 10. *)
Theorem doble_devolucion_rompe_invariante :
  invariante_stock bd_A ∧
  disponible_de (snd (snd (doble_devolucion ([], bd_A)))) "X" = 12 ∧
  ¬ invariante_stock (snd (snd (doble_devolucion ([], bd_A)))).
Proof.
  split; [|split].
  - intros codigo f Hf. unfold bd_A in Hf. simpl in Hf.
    apply lookup_singleton_Some in Hf as [_ <-]. simpl. lia.
  - vm_compute. reflexivity.
  - intros Hinv.
    specialize (Hinv "X" (mkFilaInventario (pesos 800) (pesos 150) 10 12 "Activo")).
    simpl in Hinv. assert (12 ≤ 10) by (apply Hinv; vm_compute; reflexivity). lia.
Qed.

(** C4.  In the first copy [aumentar_stock] answers True to a release that
    pushes available above totalStock: with 10 of 10 units available, the
    release of 1 unit is accepted and stored as 11 available. *)
Theorem aumentar_stock_acepta_exceso :
  disponible_de bd_A "X" = 10 ∧
  Controllers.aumentar_stock "X" 1 ([], bd_A)
  = ((true, Controllers.StockActualizado), ([], bd_A_excedido)) ∧
  disponible_de bd_A_excedido "X" = 11.
Proof.
  split; [|split]; vm_compute; reflexivity.
Qed.

(** C7.  In the first copy [verificar_disponibilidad] answers True for a
    quantity that is zero or negative. *)
Theorem verificar_disponibilidad_acepta_cantidad_no_positiva :
  Controllers.verificar_disponibilidad bd_A "X" 0 = (true, Controllers.StockSuficiente, 10) ∧
  Controllers.verificar_disponibilidad bd_A "X" (-3) = (true, Controllers.StockSuficiente, 10).
Proof.
  split; vm_compute; reflexivity.
Qed.

(** C2.  In the second copy [registrar_renta] is not all or nothing.  An
    order of 6 and 6 units of X, of which 10 are available, passes the
    validation of each line; the second reservation is then refused and
    only logged: the call answers True and leaves the header, both lines
    and the first reservation in the store.  And when the INSERT of the
    only line of an order fails, the call still answers True and leaves
    the header and the reservation without their line. *)
Theorem Integradora_registrar_renta_parcial :
  (let r := Integradora.registrar_renta 1000 1 1 [mkItem "X" 6; mkItem "X" 6] 3 ([], bd_A) in
   fst r = (true, Integradora.RentaRegistrada, Some 1) ∧
   length (RENTAS (snd (snd r))) = 1%nat ∧
   length (DETALLE_RENTAS (snd (snd r))) = 2%nat ∧
   disponible_de (snd (snd r)) "X" = 4) ∧
  (let r := Integradora.registrar_renta 1000 1 1 [mkItem "X" 2] 3 ([false; true], bd_A) in
   fst r = (true, Integradora.RentaRegistrada, Some 1) ∧
   length (RENTAS (snd (snd r))) = 1%nat ∧
   DETALLE_RENTAS (snd (snd r)) = [] ∧
   disponible_de (snd (snd r)) "X" = 8).
Proof.
  split; cbv zeta; repeat split; vm_compute; reflexivity.
Qed.

Lemma debe_vencer_vence ahora r : debe_vencer ahora r = true ↔ vence ahora r.
Proof.
  unfold debe_vencer, vence. rewrite andb_true_iff, String.eqb_eq, Z.ltb_lt. reflexivity.
Qed.

Lemma debe_vencer_tras_marcar ahora r :
  debe_vencer ahora (if debe_vencer ahora r then con_Estado_Renta "Vencida" r else r) = false.
Proof.
  destruct (debe_vencer ahora r) eqn:E; [reflexivity|exact E].
Qed.

(** The UPDATE of the sweep, row by row. *)
Lemma sql_marcar_vencidas_filas ahora bd :
  snd (sql_marcar_vencidas ahora bd) = Z.of_nat (length (filter (vence ahora) (RENTAS bd))) ∧
  (∀ i fila, RENTAS bd !! i = Some fila →
     RENTAS (fst (sql_marcar_vencidas ahora bd)) !! i
     = Some (if decide (vence ahora fila) then con_Estado_Renta "Vencida" fila else fila)) ∧
  Penalizacion <$> RENTAS (fst (sql_marcar_vencidas ahora bd)) = Penalizacion <$> RENTAS bd.
Proof.
  unfold sql_marcar_vencidas. simpl. split; [|split].
  - f_equal. f_equal. apply list_filter_iff. intros r. apply debe_vencer_vence.
  - intros i fila Hi. rewrite list_lookup_fmap, Hi. simpl. f_equal.
    destruct (debe_vencer ahora fila) eqn:E.
    + rewrite decide_True; [reflexivity|]. apply debe_vencer_vence, E.
    + rewrite decide_False; [reflexivity|].
      intros Hv. apply debe_vencer_vence in Hv. congruence.
  - rewrite <- list_fmap_compose. apply list_fmap_ext.
    intros i r _. simpl. destruct (debe_vencer ahora r); reflexivity.
Qed.

(** A second UPDATE of the sweep finds nothing to change. *)
Lemma sql_marcar_vencidas_idempotente ahora bd :
  sql_marcar_vencidas ahora (fst (sql_marcar_vencidas ahora bd))
  = (fst (sql_marcar_vencidas ahora bd), 0).
Proof.
  unfold sql_marcar_vencidas. simpl. unfold con_RENTAS. simpl.
  destruct bd as [inv rentas dets conf cli usu ai]. simpl.
  assert (Hmap : ∀ l : list FilaRenta,
            (λ r, if debe_vencer ahora r then con_Estado_Renta "Vencida" r else r) <$>
            ((λ r, if debe_vencer ahora r then con_Estado_Renta "Vencida" r else r) <$> l)
            = (λ r, if debe_vencer ahora r then con_Estado_Renta "Vencida" r else r) <$> l).
  { intros l. rewrite <- list_fmap_compose. apply list_fmap_ext.
    intros i r _. simpl. rewrite debe_vencer_tras_marcar. reflexivity. }
  assert (Hfil : ∀ l : list FilaRenta,
            filter (λ r, debe_vencer ahora r = true)
              ((λ r, if debe_vencer ahora r then con_Estado_Renta "Vencida" r else r) <$> l)
            = []).
  { induction l as [|r l IH]; [reflexivity|].
    rewrite fmap_cons, filter_cons, decide_False, IH; [reflexivity|].
    rewrite debe_vencer_tras_marcar. discriminate. }
  rewrite Hmap, Hfil. reflexivity.
Qed.

Lemma barrido_correcto_de (marcar : Z → Op Z) :
  (∀ ahora fallos bd,
     marcar ahora (fallos, bd)
     = if fst (siguiente fallos) then (0, (snd (siguiente fallos), bd))
       else (snd (sql_marcar_vencidas ahora bd),
             (snd (siguiente fallos), fst (sql_marcar_vencidas ahora bd)))) →
  barrido_correcto marcar.
Proof.
  intros Hm ahora fallos bd. cbv zeta. rewrite Hm. cbn [siguiente fst snd].
  destruct (sql_marcar_vencidas_filas ahora bd) as (Hn & Hrows & Hpen).
  split; [exact Hn|]. split; [apply length_fmap|]. split; [exact Hrows|].
  split; [exact Hpen|]. do 3 (split; [reflexivity|]).
  intros fallos'. rewrite Hm.
  destruct (fst (siguiente fallos')); [reflexivity|].
  rewrite sql_marcar_vencidas_idempotente. reflexivity.
Qed.

(** C8.  In both copies, when its UPDATE goes through,
    [marcar_rentas_vencidas] answers the number of rentals that are
    'Activa' with Fecha_Devolucion before [ahora], sets exactly those to
    'Vencida' and leaves every other row and column, Penalizacion among
    them, as it was; run again at once with the same [ahora] it answers 0
    and changes nothing. *)
Theorem marcar_rentas_vencidas_barrido :
  barrido_correcto Controllers.marcar_rentas_vencidas ∧
  barrido_correcto Integradora.marcar_rentas_vencidas.
Proof.
  split; apply barrido_correcto_de; intros ahora fallos bd.
  - unfold Controllers.marcar_rentas_vencidas, mbind, op_bind, ejecutar_update.
    rewrite siguiente_cursor_execute.
    destruct (fst (siguiente fallos)); [reflexivity|].
    destruct (sql_marcar_vencidas_filas ahora bd) as (Hn & _). rewrite Hn.
    destruct (0 <? Z.of_nat _) eqn:E; [reflexivity|].
    unfold mret, op_ret. f_equal. lia.
  - unfold Integradora.marcar_rentas_vencidas, mbind, op_bind, ejecutar_update.
    rewrite siguiente_cursor_execute.
    destruct (fst (siguiente fallos)); [reflexivity|].
    destruct (sql_marcar_vencidas_filas ahora bd) as (Hn & _). rewrite Hn.
    destruct (Z.of_nat _ =? 0) eqn:E; [|reflexivity].
    unfold mret, op_ret. f_equal. lia.
Qed.




(** *** What the statements on the inventory do to the other tables *)

Lemma sql_sumar_disponible_RENTAS delta codigo bd :
  RENTAS (fst (sql_sumar_disponible delta codigo bd)) = RENTAS bd.
Proof. unfold sql_sumar_disponible. destruct (INVENTARIO bd !! codigo); reflexivity. Qed.

Lemma sql_sumar_disponible_disponible delta codigo bd c :
  is_Some (INVENTARIO bd !! codigo) →
  disponible_de (fst (sql_sumar_disponible delta codigo bd)) c
  = disponible_de bd c + (if decide (codigo = c) then delta else 0).
Proof.
  intros [f Hf]. unfold sql_sumar_disponible, disponible_de. rewrite Hf. simpl.
  rewrite lookup_insert. case_decide as Hc.
  - subst c. rewrite Hf. reflexivity.
  - destruct (INVENTARIO bd !! c); lia.
Qed.

Lemma sql_sumar_disponible_dominio delta codigo bd c :
  is_Some (INVENTARIO (fst (sql_sumar_disponible delta codigo bd)) !! c)
  ↔ is_Some (INVENTARIO bd !! c).
Proof.
  unfold sql_sumar_disponible.
  destruct (INVENTARIO bd !! codigo) as [f|] eqn:Hf; simpl; [|reflexivity].
  rewrite lookup_insert. case_decide as Hc; [|reflexivity].
  subst c. rewrite Hf. split; intros _; eexists; reflexivity.
Qed.

Lemma Controllers_devolver_stock_RENTAS detalles fallos bd :
  RENTAS (snd (snd (Controllers.devolver_stock detalles (fallos, bd)))) = RENTAS bd.
Proof.
  revert fallos bd. induction detalles as [|[codigo cantidad] resto IH]; intros fallos bd;
    [reflexivity|].
  simpl. unfold mbind, op_bind, ejecutar_update. rewrite siguiente_cursor_execute.
  destruct (fst (siguiente fallos)); rewrite IH; [reflexivity|].
  apply sql_sumar_disponible_RENTAS.
Qed.

Lemma Controllers_insertar_detalles_RENTAS id validados fallos bd :
  RENTAS (snd (snd (Controllers.insertar_detalles id validados (fallos, bd)))) = RENTAS bd.
Proof.
  revert fallos bd. induction validados as [|d resto IH]; intros fallos bd; [reflexivity|].
  simpl. unfold mbind, op_bind. rewrite siguiente_cursor_execute.
  destruct (fst (siguiente fallos)); [reflexivity|]. cbn [fst snd].
  rewrite siguiente_cursor_execute.
  destruct (fst (siguiente (snd (siguiente fallos)))); [reflexivity|]. cbn [fst snd].
  rewrite IH. rewrite sql_sumar_disponible_RENTAS. reflexivity.
Qed.

(** *** The rentals and their return date *)

Lemma rentas_abiertas_sin_fecha_inicial bd :
  RENTAS bd = [] → rentas_abiertas_sin_fecha bd.
Proof. intros H r Hr. rewrite H in Hr. inversion Hr. Qed.

Lemma Controllers_registrar_renta_sin_fecha ahora c u detalles dias fallos bd :
  rentas_abiertas_sin_fecha bd →
  rentas_abiertas_sin_fecha
    (snd (snd (Controllers.registrar_renta ahora c u detalles dias (fallos, bd)))).
Proof.
  intros Hinv. unfold Controllers.registrar_renta.
  destruct detalles as [|item resto]; [exact Hinv|].
  destruct (dias <=? 0); [exact Hinv|].
  destruct (30 <? dias); [exact Hinv|].
  unfold mbind, op_bind, ejecutar_query. cbn [snd fst].
  destruct (Controllers.preparar_detalles bd dias (item :: resto) [] 0 0)
    as [msg|[[validados subtotal] deposito_total]]; [exact Hinv|].
  destruct (Controllers.validar_renta _ validados); [exact Hinv|].
  rewrite siguiente_cursor_execute.
  destruct (fst (siguiente fallos)); [exact Hinv|].
  cbn [snd fst].
  destruct (_ =? 0); [exact Hinv|].
  match goal with
  | |- context [Controllers.insertar_detalles ?i ?v ?s] =>
      pose proof (Controllers_insertar_detalles_RENTAS i v (fst s) (snd s)) as HR;
      destruct (Controllers.insertar_detalles i v s) as [[[]|] [fallos' bd']] eqn:Hins
  end; [|exact Hinv].
  cbn [fst snd] in HR. rewrite Hins in HR. simpl in HR.
  intros r Hr Hest. unfold mret, op_ret in Hr. cbn [snd] in Hr. rewrite HR in Hr.
  simpl in Hr.
  apply elem_of_app in Hr as [Hr|Hr]; [apply Hinv; assumption|].
  apply list_elem_of_singleton in Hr. subst r. reflexivity.
Qed.

Lemma Controllers_devolver_renta_sin_fecha self ahora id u fallos bd :
  rentas_abiertas_sin_fecha bd →
  rentas_abiertas_sin_fecha
    (snd (snd (Controllers.devolver_renta self ahora id u (fallos, bd)))).
Proof.
  intros Hinv. unfold Controllers.devolver_renta.
  unfold mbind, op_bind, ejecutar_query. cbn [snd fst].
  destruct (Controllers.buscar_por_id bd id) as [renta|]; [|exact Hinv].
  destruct (esta_devuelta renta); [exact Hinv|].
  destruct (negb (esta_activa renta) && negb (esta_vencida renta)); [exact Hinv|].
  cbn [snd fst].
  destruct (sql_detalles_de id bd) as [|d ds] eqn:Hd; [exact Hinv|].
  pose proof (Controllers_devolver_stock_RENTAS (d :: ds) fallos bd) as HR.
  destruct (Controllers.devolver_stock (d :: ds) (fallos, bd)) as [[] [fallos1 bd1]].
  cbn [fst snd] in HR. unfold ejecutar_update. rewrite siguiente_cursor_execute.
  destruct (fst (siguiente fallos1)); cbn [fst snd].
  - intros r Hr. unfold mret, op_ret in Hr. cbn [snd] in Hr.
    rewrite HR in Hr. apply Hinv, Hr.
  - intros r Hr Hest. unfold mret, op_ret in Hr. cbn [snd] in Hr.
    simpl in Hr. rewrite HR in Hr.
    apply list_elem_of_fmap in Hr as (r0 & -> & Hr0).
    destruct (decide (Id_Renta r0 = id)); [contradiction Hest; reflexivity|].
    apply Hinv; assumption.
Qed.

Lemma Controllers_marcar_rentas_vencidas_sin_fecha ahora fallos bd :
  rentas_abiertas_sin_fecha bd →
  rentas_abiertas_sin_fecha
    (snd (snd (Controllers.marcar_rentas_vencidas ahora (fallos, bd)))).
Proof.
  intros Hinv. unfold Controllers.marcar_rentas_vencidas.
  unfold mbind, op_bind, ejecutar_update. rewrite siguiente_cursor_execute.
  destruct (fst (siguiente fallos)); [exact Hinv|]. cbn [fst snd].
  assert (Hok : rentas_abiertas_sin_fecha (fst (sql_marcar_vencidas ahora bd))).
  { intros r Hr Hest. simpl in Hr.
    apply list_elem_of_fmap in Hr as (r0 & -> & Hr0).
    destruct (debe_vencer ahora r0) eqn:E.
    - simpl. apply Hinv; [exact Hr0|].
      apply debe_vencer_vence in E as [-> _]. discriminate.
    - apply Hinv; assumption. }
  destruct (0 <? _); exact Hok.
Qed.



(** *** The two loops of the first copy's [registrar_renta] *)

Lemma Controllers_buscar_por_codigo_Some bd codigo d :
  Controllers.buscar_por_codigo bd codigo = Some d →
  is_Some (INVENTARIO bd !! codigo) ∧
  precio_renta d = precio_renta_de bd codigo ∧
  precio_venta d = precio_venta_de bd codigo.
Proof.
  unfold Controllers.buscar_por_codigo, precio_renta_de, precio_venta_de.
  destruct (INVENTARIO bd !! codigo) as [f|]; simpl; [|discriminate].
  intros [= <-]. simpl. split; [eexists; reflexivity|]. split; reflexivity.
Qed.

Lemma suma_cons x l : suma (x :: l) = x + suma l.
Proof. reflexivity. Qed.

Lemma Controllers_preparar_detalles_inr bd dias detalles validados subtotal deposito_total
      validados' subtotal' deposito_total' :
  Controllers.preparar_detalles bd dias detalles validados subtotal deposito_total
  = inr (validados', subtotal', deposito_total') →
  validados' = validados ++ (detalle_de bd dias <$> detalles) ∧
  subtotal' = subtotal
              + suma ((λ i, item_cantidad i * precio_renta_de bd (item_codigo_barras i) * dias)
                      <$> detalles) ∧
  deposito_total' = deposito_total
                    + suma ((λ i, item_cantidad i * precio_venta_de bd (item_codigo_barras i))
                            <$> detalles) ∧
  Forall (λ i, is_Some (INVENTARIO bd !! item_codigo_barras i)) detalles.
Proof.
  revert validados subtotal deposito_total.
  induction detalles as [|item resto IH]; intros validados subtotal deposito_total.
  - simpl. intros [= <- <- <-]. rewrite app_nil_r. simpl.
    repeat split; try lia. constructor.
  - cbn [Controllers.preparar_detalles].
    destruct (String.eqb (item_codigo_barras item) "" || (item_cantidad item <=? 0));
      [discriminate|].
    destruct (Controllers.verificar_disponibilidad bd (item_codigo_barras item)
                (item_cantidad item)) as [[[] msg] disp]; [|discriminate].
    destruct (Controllers.buscar_por_codigo bd (item_codigo_barras item)) as [d|] eqn:Hd;
      [|discriminate].
    destruct (negb (esta_activo d)); [discriminate|].
    destruct (Controllers_buscar_por_codigo_Some _ _ _ Hd) as (Hsome & Hpr & Hpv).
    intros H. apply IH in H as (Hv & Hs & Hdep & Hall).
    unfold Controllers.calcular_subtotal in *.
    cbn [Controllers.dr_subtotal Controllers.dr_cantidad Controllers.dr_precio_unitario
         Controllers.dr_codigo_barras] in *.
    rewrite Hpr in *. rewrite Hpv in *.
    rewrite !fmap_cons, !suma_cons.
    split; [|split; [|split]].
    + rewrite Hv, <- app_assoc. reflexivity.
    + lia.
    + lia.
    + constructor; assumption.
Qed.

Lemma Controllers_insertar_detalles_disponible id validados fallos bd fallos' bd' c :
  Forall (λ d, is_Some (INVENTARIO bd !! Controllers.dr_codigo_barras d)) validados →
  Controllers.insertar_detalles id validados (fallos, bd) = (Some (), (fallos', bd')) →
  disponible_de bd' c
  = disponible_de bd c
    - suma (Controllers.dr_cantidad
            <$> filter (λ d, Controllers.dr_codigo_barras d = c) validados).
Proof.
  revert fallos bd. induction validados as [|d resto IH]; intros fallos bd Hall.
  - simpl. intros [= <- <-]. simpl. lia.
  - cbn [Controllers.insertar_detalles]. unfold mbind, op_bind.
    rewrite siguiente_cursor_execute.
    destruct (fst (siguiente fallos)); [discriminate|]. cbn [fst snd].
    rewrite siguiente_cursor_execute.
    destruct (fst (siguiente (snd (siguiente fallos)))); [discriminate|]. cbn [fst snd].
    inversion Hall as [|? ? Hd Hresto]; subst.
    intros Hins. apply IH in Hins.
    + rewrite Hins. rewrite sql_sumar_disponible_disponible by exact Hd.
      change (disponible_de (sql_insertar_detalle ?f bd) c) with (disponible_de bd c).
      rewrite filter_cons.
      destruct (decide (Controllers.dr_codigo_barras d = c));
        [rewrite fmap_cons, suma_cons|]; lia.
    + eapply Forall_impl; [exact Hresto|]. intros d' Hd'.
      apply sql_sumar_disponible_dominio. exact Hd'.
Qed.

Lemma cantidad_pedida_detalle_de bd dias c detalles :
  suma (Controllers.dr_cantidad
        <$> filter (λ d, Controllers.dr_codigo_barras d = c) (detalle_de bd dias <$> detalles))
  = cantidad_pedida c detalles.
Proof.
  unfold cantidad_pedida. induction detalles as [|i resto IH]; [reflexivity|].
  rewrite fmap_cons, !filter_cons.
  change (Controllers.dr_codigo_barras (detalle_de bd dias i)) with (item_codigo_barras i).
  destruct (decide (item_codigo_barras i = c)).
  - rewrite !fmap_cons, !suma_cons, IH. reflexivity.
  - exact IH.
Qed.

(** C5.  In the first copy, every [registrar_renta] that answers True has
    appended one 'Activa' header whose Total is the sum over the lines of
    quantity x the item's rental rate per day x days and whose Deposito is
    the sum over the lines of quantity x the item's sale price, answers
    that header's id, and has taken off every item's Disponible the
    quantities of its lines. *)
Theorem registrar_renta_importes ahora c u detalles dias fallos bd ok_msg id fallos' bd' :
  Controllers.registrar_renta ahora c u detalles dias (fallos, bd)
  = ((true, ok_msg, id), (fallos', bd')) →
  ∃ fila,
    RENTAS bd' = RENTAS bd ++ [fila] ∧
    id = Some (Id_Renta fila) ∧
    Estado_Renta fila = "Activa" ∧
    Total fila
    = suma ((λ i, item_cantidad i * precio_renta_de bd (item_codigo_barras i) * dias)
            <$> detalles) ∧
    Deposito fila
    = suma ((λ i, item_cantidad i * precio_venta_de bd (item_codigo_barras i)) <$> detalles) ∧
    ∀ codigo, disponible_de bd' codigo = disponible_de bd codigo - cantidad_pedida codigo detalles.
Proof.
  unfold Controllers.registrar_renta.
  destruct detalles as [|item resto]; [discriminate|].
  destruct (dias <=? 0); [discriminate|].
  destruct (30 <? dias); [discriminate|].
  unfold mbind, op_bind, ejecutar_query. cbn [snd fst].
  destruct (Controllers.preparar_detalles bd dias (item :: resto) [] 0 0)
    as [msg|[[validados subtotal] deposito_total]] eqn:Hprep; [discriminate|].
  apply Controllers_preparar_detalles_inr in Hprep as (Hv & Hs & Hdep & Hall).
  destruct (Controllers.validar_renta _ validados); [discriminate|].
  rewrite siguiente_cursor_execute.
  destruct (fst (siguiente fallos)); [discriminate|].
  cbn [snd fst].
  destruct (_ =? 0); [discriminate|].
  match goal with
  | |- context [Controllers.insertar_detalles ?i ?v ?s] =>
      pose proof (Controllers_insertar_detalles_RENTAS i v (fst s) (snd s)) as HR;
      pose proof (λ c, Controllers_insertar_detalles_disponible i v (fst s) (snd s) c) as HD;
      destruct (Controllers.insertar_detalles i v s) as [[[]|] [fallos1 bd1]] eqn:Hins
  end; [|discriminate].
  cbn [fst snd] in HR, HD. rewrite Hins in HR. cbn [snd] in HR.
  intros [= <- <- <- <-].
  eexists. split; [rewrite HR; reflexivity|].
  split; [reflexivity|]. split; [reflexivity|].
  split; [cbn [Total]; lia|]. split; [cbn [Deposito]; lia|].
  intros codigo. rewrite (HD fallos1 bd1 codigo).
  - rewrite app_nil_l in Hv. subst validados.
    rewrite cantidad_pedida_detalle_de. reflexivity.
  - rewrite app_nil_l in Hv. subst validados. rewrite Forall_fmap.
    eapply Forall_impl; [exact Hall|]. intros i Hi. exact Hi.
  - exact Hins.
Qed.

Lemma registrar_renta_importes_witness :
  ∃ fila,
    RENTAS (con_auto_increment 2
              (con_DETALLE_RENTAS [mkFilaDetalle 1 "X" 2 (pesos 150) (pesos 900)]
                 (con_RENTAS [mkFilaRenta 1 1 1 0 (timedelta 3) None 0 3 (pesos 900)
                                          (pesos 1600) "Activa"]
                    (con_INVENTARIO
                       {[ "X" := mkFilaInventario (pesos 800) (pesos 150) 10 8 "Activo" ]}
                       bd_A))))
    = RENTAS bd_A ++ [fila] ∧
    Some 1 = Some (Id_Renta fila) ∧
    Estado_Renta fila = "Activa" ∧
    Total fila
    = suma ((λ i, item_cantidad i * precio_renta_de bd_A (item_codigo_barras i) * 3)
            <$> [mkItem "X" 2]) ∧
    Deposito fila
    = suma ((λ i, item_cantidad i * precio_venta_de bd_A (item_codigo_barras i))
            <$> [mkItem "X" 2]) ∧
    ∀ codigo,
      disponible_de
        (con_auto_increment 2
           (con_DETALLE_RENTAS [mkFilaDetalle 1 "X" 2 (pesos 150) (pesos 900)]
              (con_RENTAS [mkFilaRenta 1 1 1 0 (timedelta 3) None 0 3 (pesos 900)
                                       (pesos 1600) "Activa"]
                 (con_INVENTARIO
                    {[ "X" := mkFilaInventario (pesos 800) (pesos 150) 10 8 "Activo" ]}
                    bd_A)))) codigo
      = disponible_de bd_A codigo - cantidad_pedida codigo [mkItem "X" 2].
Proof.
  eapply (registrar_renta_importes 0 1 1 [mkItem "X" 2] 3 [] bd_A
            (Controllers.RentaRegistrada 1) (Some 1) []).
  vm_compute. reflexivity.
Defined.

(** C3.  [devolver_renta] is not one unit of work, in either copy: the
    releases and the header's UPDATE are committed one by one and the
    result of none of them is looked at.  On rental 1 of [bd_B], when the
    release of its only line goes through and the header's UPDATE raises,
    both copies answer True ("devuelta exitosamente") although the rental
    is still 'Activa', and the 2 units stay released: a statement failed,
    and neither the release was rolled back nor the header marked
    'Devuelto'. *)
Lemma devolver_renta_no_es_atomica :
  ¬ devolucion_atomica Controllers.devolver_renta ∧
  ¬ devolucion_atomica Integradora.devolver_renta ∧
  (let r := Controllers.devolver_renta (mkRentaController (pesos 50)) (timedelta 5) 1 1
              ([false; true], bd_B) in
   fst (fst (fst r)) = true ∧
   disponible_de (snd (snd r)) "X" = 10 ∧
   RENTAS (snd (snd r)) = RENTAS bd_B) ∧
  (let r := Integradora.devolver_renta (mkRentaController (pesos 50)) (timedelta 5) 1 1
              ([false; true], bd_B) in
   fst (fst (fst r)) = true ∧
   disponible_de (snd (snd r)) "X" = 10 ∧
   RENTAS (snd (snd r)) = RENTAS bd_B).
Proof.
  assert (Hfallo : hubo_fallo [false; true] []).
  { unfold hubo_fallo. simpl. apply list_elem_of_In. right. left. reflexivity. }
  split; [|split; [|split]].
  - intros Hat.
    destruct (Controllers.devolver_renta (mkRentaController (pesos 50)) (timedelta 5) 1 1
                ([false; true], bd_B)) as [r [fallos' bd']] eqn:Hdev.
    assert (Hf : fallos' = []) by (vm_compute in Hdev; congruence).
    assert (Hd : disponible_de bd' "X" = 10).
    { vm_compute in Hdev. injection Hdev as _ _ Hbd. subst bd'. vm_compute. reflexivity. }
    subst fallos'. specialize (Hat _ _ _ _ _ _ _ _ _ Hdev Hfallo). subst bd'.
    vm_compute in Hd. discriminate.
  - intros Hat.
    destruct (Integradora.devolver_renta (mkRentaController (pesos 50)) (timedelta 5) 1 1
                ([false; true], bd_B)) as [r [fallos' bd']] eqn:Hdev.
    assert (Hf : fallos' = []) by (vm_compute in Hdev; congruence).
    assert (Hd : disponible_de bd' "X" = 10).
    { vm_compute in Hdev. injection Hdev as _ _ Hbd. subst bd'. vm_compute. reflexivity. }
    subst fallos'. specialize (Hat _ _ _ _ _ _ _ _ _ Hdev Hfallo). subst bd'.
    vm_compute in Hd. discriminate.
  - cbv zeta. repeat split; vm_compute; reflexivity.
  - cbv zeta. repeat split; vm_compute; reflexivity.
Qed.

(** *** Releases, statement by statement *)

Lemma sql_sumar_disponible_item delta codigo bd c :
  is_Some (INVENTARIO bd !! c) →
  disponible_de (fst (sql_sumar_disponible delta codigo bd)) c
  = disponible_de bd c + (if decide (codigo = c) then delta else 0).
Proof.
  intros Hc. destruct (decide (codigo = c)) as [->|Hne].
  - rewrite sql_sumar_disponible_disponible by exact Hc.
    rewrite decide_True by reflexivity. reflexivity.
  - unfold sql_sumar_disponible, disponible_de.
    destruct (INVENTARIO bd !! codigo) as [f|]; simpl.
    + rewrite lookup_insert_ne by exact Hne. destruct (INVENTARIO bd !! c); lia.
    + destruct (INVENTARIO bd !! c); lia.
Qed.

Lemma Controllers_devolver_stock_efecto detalles fallos bd :
  fst (snd (Controllers.devolver_stock detalles (fallos, bd))) = tras (length detalles) fallos ∧
  ∀ codigo,
    is_Some (INVENTARIO bd !! codigo) →
    disponible_de (snd (snd (Controllers.devolver_stock detalles (fallos, bd)))) codigo
    = disponible_de bd codigo + liberado codigo detalles fallos.
Proof.
  revert fallos bd. induction detalles as [|[c q] resto IH]; intros fallos bd.
  - split; [reflexivity|]. intros codigo _. simpl. lia.
  - cbn [Controllers.devolver_stock liberado length tras].
    unfold mbind, op_bind, ejecutar_update. rewrite siguiente_cursor_execute.
    destruct (fst (siguiente fallos)).
    + destruct (IH (snd (siguiente fallos)) bd) as [Hf Hd].
      split; [exact Hf|]. intros codigo Hc. rewrite Hd by exact Hc.
      destruct (decide (c = codigo)); lia.
    + destruct (IH (snd (siguiente fallos)) (fst (sql_sumar_disponible q c bd))) as [Hf Hd].
      split; [exact Hf|]. intros codigo Hc.
      rewrite Hd by (apply sql_sumar_disponible_dominio; exact Hc).
      rewrite sql_sumar_disponible_item by exact Hc.
      destruct (decide (c = codigo)); lia.
Qed.

Lemma sql_fijar_disponible_RENTAS nuevo codigo bd :
  RENTAS (fst (sql_fijar_disponible nuevo codigo bd)) = RENTAS bd.
Proof. unfold sql_fijar_disponible. destruct (INVENTARIO bd !! codigo); reflexivity. Qed.

Lemma Integradora_aumentar_stock_RENTAS codigo cantidad fallos bd :
  RENTAS (snd (snd (Integradora.aumentar_stock codigo cantidad (fallos, bd)))) = RENTAS bd.
Proof.
  unfold Integradora.aumentar_stock, mbind, op_bind, ejecutar_query, ejecutar_update.
  cbn [fst snd].
  destruct (Integradora.buscar_por_codigo bd codigo) as [d|]; [|reflexivity].
  destruct (cantidad <=? 0); [reflexivity|].
  destruct (stock d <? disponible d + cantidad); [reflexivity|].
  rewrite siguiente_cursor_execute.
  destruct (fst (siguiente fallos)); [reflexivity|]. cbn [fst snd].
  destruct (filas_positivas _); apply sql_fijar_disponible_RENTAS.
Qed.

Lemma Integradora_restaurar_stock_RENTAS dets fallos bd :
  RENTAS (snd (snd (Integradora.restaurar_stock dets (fallos, bd)))) = RENTAS bd.
Proof.
  revert fallos bd. induction dets as [|[c q] resto IH]; intros fallos bd; [reflexivity|].
  cbn [Integradora.restaurar_stock]. unfold mbind, op_bind.
  pose proof (Integradora_aumentar_stock_RENTAS c q fallos bd) as Ha.
  destruct (Integradora.aumentar_stock c q (fallos, bd)) as [r [fallos1 bd1]].
  cbn [fst snd] in Ha. rewrite IH. exact Ha.
Qed.



(** *** The scenarios of the specification, run on the code *)

(** Scenario A, first copy: 2 units of X for 3 days. *)
Example escenario_A :
  let r := Controllers.registrar_renta 0 1 1 [mkItem "X" 2] 3 ([], bd_A) in
  fst r = (true, Controllers.RentaRegistrada 1, Some 1) ∧
  (Total <$> RENTAS (snd (snd r))) = [pesos 900] ∧
  (Deposito <$> RENTAS (snd (snd r))) = [pesos 1600] ∧
  disponible_de (snd (snd r)) "X" = 8.
Proof. cbv zeta. repeat split; vm_compute; reflexivity. Qed.

(** Scenario A, second copy. *)
Example escenario_A_Integradora :
  let r := Integradora.registrar_renta 0 1 1 [mkItem "X" 2] 3 ([], bd_A) in
  fst r = (true, Integradora.RentaRegistrada, Some 1) ∧
  (Total <$> RENTAS (snd (snd r))) = [pesos 900] ∧
  (Deposito <$> RENTAS (snd (snd r))) = [pesos 1600] ∧
  disponible_de (snd (snd r)) "X" = 8.
Proof. cbv zeta. repeat split; vm_compute; reflexivity. Qed.

(** Scenario B, both copies: due 3 days ago, 50 a day. *)
Example escenario_B :
  let r := Controllers.devolver_renta (mkRentaController (pesos 50)) (timedelta 5) 1 1
             ([], bd_B) in
  fst r = (true, Controllers.RentaDevuelta 1,
           Some (Controllers.mkInfoFinanciera (pesos 600) (pesos 1600) 3 (pesos 150)
                                              (pesos 1600) (pesos 150))) ∧
  disponible_de (snd (snd r)) "X" = 10 ∧
  (Estado_Renta <$> RENTAS (snd (snd r))) = ["Devuelto"] ∧
  (Penalizacion <$> RENTAS (snd (snd r))) = [pesos 150].
Proof. cbv zeta. repeat split; vm_compute; reflexivity. Qed.

Example escenario_B_Integradora :
  let r := Integradora.devolver_renta (mkRentaController (pesos 50)) (timedelta 5) 1 1
             ([], bd_B) in
  fst r = (true, Integradora.RentaDevuelta,
           Some (Integradora.mkInfo 3 (pesos 150) (pesos 1600))) ∧
  disponible_de (snd (snd r)) "X" = 10 ∧
  (Estado_Renta <$> RENTAS (snd (snd r))) = ["Devuelto"] ∧
  (Penalizacion <$> RENTAS (snd (snd r))) = [pesos 150].
Proof. cbv zeta. repeat split; vm_compute; reflexivity. Qed.

(** Scenario C, both copies: 11 units asked of 10 available. *)
Example escenario_C :
  Controllers.verificar_disponibilidad bd_A "X" 11
  = (false, Controllers.StockInsuficiente 10 11, 10) ∧
  Integradora.verificar_disponibilidad bd_A "X" 11
  = (false, Integradora.StockInsuficiente 10 11, 10).
Proof. split; vm_compute; reflexivity. Qed.

(** Scenario D, second copy: the release is refused and nothing changes. *)
Example escenario_D_Integradora :
  Integradora.aumentar_stock "X" 1 ([], bd_A)
  = ((false, Integradora.ExcedeStock 10 10 1), ([], bd_A)).
Proof. vm_compute. reflexivity. Qed.

(** Round trip, first copy: a rental returned before it is due costs no
    penalty, gives the whole deposit back and leaves Disponible where it
    was before the rental. *)
Example ida_y_vuelta :
  let s1 := snd (Controllers.registrar_renta 0 1 1 [mkItem "X" 2] 3 ([], bd_A)) in
  let r := Controllers.devolver_renta (Controllers.nuevo_controlador bd_A) (timedelta 1) 1 1 s1 in
  fst r = (true, Controllers.RentaDevuelta 1,
           Some (Controllers.mkInfoFinanciera (pesos 900) (pesos 1600) 0 0 (pesos 1600) 0)) ∧
  disponible_de (snd (snd r)) "X" = disponible_de bd_A "X".
Proof. cbv zeta. split; vm_compute; reflexivity. Qed.

(** The return of rental 1 of [bd_B] whose header UPDATE raised, tried
    again: the first copy answers True both times and releases the 2 units
    twice, which leaves Disponible at 12 of a Stock of 10; the second copy
    answers True both times too, its guarded release keeping Disponible at
    10. *)
Example devolver_renta_reintento :
  (let r1 := Controllers.devolver_renta (mkRentaController (pesos 50)) (timedelta 5) 1 1
               ([false; true], bd_B) in
   let r2 := Controllers.devolver_renta (mkRentaController (pesos 50)) (timedelta 5) 1 1
               ([], snd (snd r1)) in
   fst (fst (fst r1)) = true ∧ fst (fst (fst r2)) = true ∧
   disponible_de (snd (snd r2)) "X" = 12) ∧
  (let r1 := Integradora.devolver_renta (mkRentaController (pesos 50)) (timedelta 5) 1 1
               ([false; true], bd_B) in
   let r2 := Integradora.devolver_renta (mkRentaController (pesos 50)) (timedelta 5) 1 1
               ([], snd (snd r1)) in
   fst (fst (fst r1)) = true ∧ fst (fst (fst r2)) = true ∧
   disponible_de (snd (snd r2)) "X" = 10).
Proof. cbv zeta. repeat split; vm_compute; reflexivity. Qed.

(** An order of 6 + 6 units of an item with 10 available, in the first
    copy: each line passes its own check against the stored Disponible,
    the call answers True and Disponible is left at -2. *)
Example registrar_renta_lineas_repetidas :
  let r := Controllers.registrar_renta 0 1 1 [mkItem "X" 6; mkItem "X" 6] 3 ([], bd_A) in
  fst r = (true, Controllers.RentaRegistrada 1, Some 1) ∧
  disponible_de (snd (snd r)) "X" = -2.
Proof. cbv zeta. split; vm_compute; reflexivity. Qed.

(** ** Further properties of the code *)

Lemma invariante_stock_bd_A : invariante_stock bd_A.
Proof.
  intros codigo f Hf. unfold bd_A in Hf. simpl in Hf.
  apply lookup_singleton_Some in Hf as [_ <-]. simpl. lia.
Qed.

Lemma Integradora_movimientos_invariante_witness :
  invariante_stock bd_A ∧
  invariante_stock
    (snd (snd (mover_todos [Reservar "X" 2; Liberar "X" 2; Liberar "X" 2] ([], bd_A)))).
Proof.
  split; [exact invariante_stock_bd_A|].
  apply (Integradora_movimientos_invariante
           [Reservar "X" 2; Liberar "X" 2; Liberar "X" 2] [] bd_A).
  exact invariante_stock_bd_A.
Defined.

Lemma Integradora_aumentar_stock_rechaza_exceso_witness :
  Integradora.aumentar_stock "X" 1 ([], bd_A)
  = ((false, Integradora.ExcedeStock 10 10 1), ([], bd_A)).
Proof.
  apply (Integradora_aumentar_stock_rechaza_exceso "X" 1 [] bd_A
           (mkDisfraz "X" (pesos 800) (pesos 150) 10 10 "Activo")).
  - vm_compute. reflexivity.
  - lia.
  - simpl. lia.
Defined.

(** First copy: a [registrar_renta] that answers False has written
    nothing. Whatever the order and whichever statement fails, the
    inventory, the rentals, their lines and the configuration are the ones
    the call started from. *)
Theorem Controllers_registrar_renta_fallida_no_escribe ahora c u detalles dias fallos bd :
  fst (fst (fst (Controllers.registrar_renta ahora c u detalles dias (fallos, bd)))) = false →
  let bd' := snd (snd (Controllers.registrar_renta ahora c u detalles dias (fallos, bd))) in
  INVENTARIO bd' = INVENTARIO bd ∧ RENTAS bd' = RENTAS bd ∧
  DETALLE_RENTAS bd' = DETALLE_RENTAS bd ∧ CONFIGURACION bd' = CONFIGURACION bd.
Proof.
  intros H. cbv zeta.
  rewrite (Controllers_registrar_renta_todo_o_nada ahora c u detalles dias fallos bd H).
  repeat split.
Qed.

Lemma Controllers_registrar_renta_fallida_no_escribe_witness :
  let bd' := snd (snd (Controllers.registrar_renta 0 1 1 [mkItem "X" 2] 3
                         ([false; false; true], bd_A))) in
  INVENTARIO bd' = INVENTARIO bd_A ∧ RENTAS bd' = RENTAS bd_A ∧
  DETALLE_RENTAS bd' = DETALLE_RENTAS bd_A ∧ CONFIGURACION bd' = CONFIGURACION bd_A.
Proof.
  apply (Controllers_registrar_renta_fallida_no_escribe 0 1 1 [mkItem "X" 2] 3
           [false; false; true] bd_A).
  vm_compute. reflexivity.
Defined.

Lemma con_Disponible_mismo f : con_Disponible (Disponible f) f = f.
Proof. destruct f; reflexivity. Qed.

Lemma con_INVENTARIO_mismo bd : con_INVENTARIO (INVENTARIO bd) bd = bd.
Proof. destruct bd; reflexivity. Qed.

(** First copy, [descontar_stock] ("control estricto").  An answer False
    leaves the store as it was.  An answer True was given for an item that
    is 'Activo' and had at least [cantidad] available, and the store
    differs by that item's Disponible alone, lowered by [cantidad].  And
    no call, whatever its arguments and the schedule, makes a Disponible
    negative. *)
Theorem Controllers_descontar_stock_estricto codigo cantidad fallos bd :
  let r := Controllers.descontar_stock codigo cantidad (fallos, bd) in
  (fst (fst r) = false → snd (snd r) = bd) ∧
  (fst (fst r) = true →
   ∃ f, INVENTARIO bd !! codigo = Some f ∧
        Estado f = "Activo" ∧ cantidad ≤ Disponible f ∧
        snd (snd r)
        = con_INVENTARIO (<[codigo := con_Disponible (Disponible f - cantidad) f]>
                            (INVENTARIO bd)) bd) ∧
  (disponible_no_negativo bd → disponible_no_negativo (snd (snd r))).
Proof.
  cbv zeta. unfold Controllers.descontar_stock.
  unfold mbind, op_bind, ejecutar_query, ejecutar_update. cbn [fst snd].
  unfold Controllers.verificar_disponibilidad, Controllers.buscar_por_codigo.
  destruct (INVENTARIO bd !! codigo) as [f|] eqn:Hf; cbn [fmap option_fmap option_map];
    [|repeat split; try discriminate; intros H; exact H].
  unfold esta_activo. cbn [Controllers.Disfraz_from_db_row estado disponible].
  destruct (String.eqb (Estado f) "Activo") eqn:Hact; cbn [negb];
    [|repeat split; try discriminate; intros H; exact H].
  destruct (Disponible f <? cantidad) eqn:Hq; cbn [negb];
    [repeat split; try discriminate; intros H; exact H|].
  rewrite siguiente_cursor_execute.
  destruct (fst (siguiente fallos)); cbn [fst snd filas_positivas];
    [repeat split; try discriminate; intros H; exact H|].
  unfold sql_sumar_disponible. rewrite Hf. cbn [fst snd].
  assert (Hneg : disponible_no_negativo bd →
                 disponible_no_negativo
                   (con_INVENTARIO
                      (<[codigo := con_Disponible (Disponible f + - cantidad) f]>
                         (INVENTARIO bd)) bd)).
  { intros Hpos c g. simpl. rewrite lookup_insert. case_decide.
    - intros [= <-]. simpl. lia.
    - apply Hpos. }
  destruct (- cantidad =? 0) eqn:Hz; cbn [fst snd].
  - split; [|split; [discriminate|exact Hneg]].
    intros _. assert (cantidad = 0) as -> by lia.
    replace (Disponible f + - 0) with (Disponible f) by lia.
    rewrite con_Disponible_mismo. rewrite insert_id by exact Hf.
    apply con_INVENTARIO_mismo.
  - split; [discriminate|]. split; [|exact Hneg].
    intros _. exists f. split; [reflexivity|].
    split; [apply String.eqb_eq, Hact|]. split; [lia|].
    replace (Disponible f + - cantidad) with (Disponible f - cantidad) by lia.
    reflexivity.
Qed.

(** Second copy: a reservation that succeeds, followed by the release of
    the same quantity of the same item, gives the store back as it was
    before the reservation, when the invariant held and both UPDATEs go
    through. *)
Theorem Integradora_reserva_y_devolucion codigo cantidad fallos bd mensaje s1 :
  invariante_stock bd →
  Integradora.descontar_stock codigo cantidad (false :: false :: fallos, bd)
  = ((true, mensaje), s1) →
  Integradora.aumentar_stock codigo cantidad s1
  = ((true, Integradora.StockAumentado), (fallos, bd)).
Proof.
  intros Hinv. unfold Integradora.descontar_stock.
  unfold mbind, op_bind, ejecutar_query, ejecutar_update. cbn [fst snd].
  destruct (Integradora.buscar_por_codigo bd codigo) as [d|] eqn:Hd; [|discriminate].
  destruct (negb (esta_activo d)); [discriminate|].
  destruct (cantidad <=? 0) eqn:Hc; [discriminate|].
  destruct (disponible d <? cantidad) eqn:Hq; [discriminate|].
  rewrite siguiente_cursor_execute. cbn [siguiente fst snd].
  destruct (buscar_por_codigo_Some _ _ _ Hd)
    as (f & Hf & Hs & Hdisp & Hpr & Hpv & Hd0 & Hs0 & Hpr0 & Hpv0).
  unfold sql_fijar_disponible at 1 2. rewrite Hf. cbn [fst snd filas_positivas].
  destruct (0 <? (if Disponible f =? disponible d - cantidad then 0 else 1)); [|discriminate].
  intros [= _ <-].
  unfold Integradora.aumentar_stock.
  unfold mbind, op_bind, ejecutar_query, ejecutar_update. cbn [fst snd].
  unfold Integradora.buscar_por_codigo. cbn [INVENTARIO con_INVENTARIO].
  rewrite lookup_insert_eq. cbn [mbind option_bind].
  unfold Integradora.Disfraz_from_db_row.
  cbn [con_Disponible Precio_Venta Precio_Renta Stock Disponible Estado].
  destruct (Precio_Venta f <? 0) eqn:E1; [lia|].
  destruct (Precio_Renta f <? 0) eqn:E2; [lia|].
  destruct (Stock f <? 0) eqn:E3; [lia|].
  destruct (disponible d - cantidad <? 0) eqn:E4; [lia|].
  rewrite Hc. cbn [stock disponible].
  pose proof (Hinv _ _ Hf) as Hbound.
  destruct (Stock f <? disponible d - cantidad + cantidad) eqn:E5; [lia|].
  rewrite siguiente_cursor_execute. cbn [siguiente fst snd].
  unfold sql_fijar_disponible. cbn [INVENTARIO con_INVENTARIO].
  rewrite lookup_insert_eq. cbn [fst snd filas_positivas con_Disponible Disponible].
  destruct (disponible d - cantidad =? disponible d - cantidad + cantidad) eqn:E6; [lia|].
  cbn [Z.ltb Z.compare]. unfold mret, op_ret. f_equal. f_equal.
  rewrite insert_insert_eq.
  replace (disponible d - cantidad + cantidad) with (Disponible f) by lia.
  change (con_Disponible (Disponible f) (con_Disponible (disponible d - cantidad) f))
    with (con_Disponible (Disponible f) f).
  rewrite con_Disponible_mismo. rewrite insert_id by exact Hf.
  destruct bd; reflexivity.
Qed.

Lemma Integradora_reserva_y_devolucion_witness :
  Integradora.aumentar_stock "X" 2
    ([false],
     con_INVENTARIO {[ "X" := mkFilaInventario (pesos 800) (pesos 150) 10 8 "Activo" ]} bd_A)
  = ((true, Integradora.StockAumentado), ([], bd_A)).
Proof.
  apply (Integradora_reserva_y_devolucion "X" 2 [] bd_A Integradora.StockDescontado).
  - exact invariante_stock_bd_A.
  - vm_compute. reflexivity.
Defined.

(** *** The second copy's registration and return *)

Lemma Integradora_verificar_disponibilidad_true bd codigo cantidad msg disp :
  Integradora.verificar_disponibilidad bd codigo cantidad = (true, msg, disp) →
  0 < cantidad ∧
  ∃ d, Integradora.buscar_por_codigo bd codigo = Some d ∧
       esta_activo d = true ∧ cantidad ≤ disponible d.
Proof.
  unfold Integradora.verificar_disponibilidad.
  destruct (Integradora.buscar_por_codigo bd codigo) as [d|]; [|discriminate].
  destruct (esta_activo d) eqn:Ha; cbn [negb]; [|discriminate].
  destruct (cantidad <=? 0) eqn:Hc; [discriminate|].
  destruct (disponible d <? cantidad) eqn:Hq; [discriminate|].
  intros _. split; [lia|]. exists d. split; [reflexivity|]. split; [exact Ha|lia].
Qed.

Lemma Integradora_calcular_totales_inr bd dias detalles total deposito total' deposito' :
  Integradora.calcular_totales bd dias detalles total deposito = inr (total', deposito') →
  total' = total
           + suma ((λ i, item_cantidad i * precio_renta_de bd (item_codigo_barras i) * dias)
                   <$> detalles) ∧
  deposito' = deposito
              + suma ((λ i, item_cantidad i * precio_venta_de bd (item_codigo_barras i))
                      <$> detalles) ∧
  Forall (λ i, 0 < item_cantidad i ∧
               ∃ d, Integradora.buscar_por_codigo bd (item_codigo_barras i) = Some d ∧
                    esta_activo d = true ∧ item_cantidad i ≤ disponible d) detalles.
Proof.
  revert total deposito. induction detalles as [|item resto IH]; intros total deposito.
  - cbn [Integradora.calcular_totales]. intros [= <- <-].
    rewrite !fmap_nil. cbn [suma foldr]. repeat split; try lia. constructor.
  - cbn [Integradora.calcular_totales].
    destruct (Integradora.verificar_disponibilidad bd (item_codigo_barras item)
                (item_cantidad item)) as [[[] msg] disp] eqn:Hver; [|discriminate].
    apply Integradora_verificar_disponibilidad_true in Hver as (Hq & d & Hd & Ha & Hle).
    rewrite Hd.
    destruct (precio_renta d <? 0); [discriminate|].
    destruct (precio_venta d <? 0); [discriminate|].
    destruct (buscar_por_codigo_Some _ _ _ Hd) as (f & Hf & _ & _ & Hpr & Hpv & _).
    assert (Hpr' : precio_renta d = precio_renta_de bd (item_codigo_barras item))
      by (unfold precio_renta_de; rewrite Hf; exact Hpr).
    assert (Hpv' : precio_venta d = precio_venta_de bd (item_codigo_barras item))
      by (unfold precio_venta_de; rewrite Hf; exact Hpv).
    rewrite Hpr', Hpv'. intros H. apply IH in H as (Ht & Hdep & Hall).
    rewrite !fmap_cons, !suma_cons.
    split; [lia|]. split; [lia|].
    constructor; [|exact Hall]. split; [exact Hq|]. exists d. repeat split; assumption.
Qed.

Lemma Integradora_descontar_stock_RENTAS codigo cantidad fallos bd :
  RENTAS (snd (snd (Integradora.descontar_stock codigo cantidad (fallos, bd)))) = RENTAS bd.
Proof.
  unfold Integradora.descontar_stock, mbind, op_bind, ejecutar_query, ejecutar_update.
  cbn [fst snd].
  destruct (Integradora.buscar_por_codigo bd codigo) as [d|]; [|reflexivity].
  destruct (negb (esta_activo d)); [reflexivity|].
  destruct (cantidad <=? 0); [reflexivity|].
  destruct (disponible d <? cantidad); [reflexivity|].
  rewrite siguiente_cursor_execute.
  destruct (fst (siguiente fallos)); [reflexivity|]. cbn [fst snd].
  destruct (filas_positivas _); apply sql_fijar_disponible_RENTAS.
Qed.

Lemma Integradora_registrar_detalles_RENTAS id dias detalles fallos bd :
  RENTAS (snd (snd (Integradora.registrar_detalles id dias detalles (fallos, bd)))) = RENTAS bd.
Proof.
  revert fallos bd. induction detalles as [|item resto IH]; intros fallos bd; [reflexivity|].
  cbn [Integradora.registrar_detalles]. unfold mbind, op_bind, ejecutar_query, ejecutar_insert.
  cbn [fst snd].
  destruct (Integradora.buscar_por_codigo bd (item_codigo_barras item)) as [d|]; [|reflexivity].
  rewrite siguiente_cursor_execute.
  destruct (fst (siguiente fallos)); cbn [fst snd].
  - pose proof (Integradora_descontar_stock_RENTAS (item_codigo_barras item)
                  (item_cantidad item) (snd (siguiente fallos)) bd) as Hd.
    destruct (Integradora.descontar_stock _ _ _) as [r [fallos1 bd1]].
    cbn [fst snd] in Hd. rewrite IH. exact Hd.
  - match goal with
    | |- context [Integradora.descontar_stock ?c ?q (?fs, ?b)] =>
        pose proof (Integradora_descontar_stock_RENTAS c q fs b) as Hd;
        destruct (Integradora.descontar_stock c q (fs, b)) as [r [fallos1 bd1]]
    end.
    cbn [fst snd] in Hd. rewrite IH. rewrite Hd. reflexivity.
Qed.

(** Second copy, [registrar_renta].  An answer True was given to an order
    whose customer and user exist, that has lines and a positive number of
    days, and whose every line asks a positive quantity, not above
    Disponible, of an item that is found and 'Activo'; the store then has
    one more rental, 'Activa', due [dias_renta] days after [ahora], whose
    Total is the sum of quantity x rental rate x days and whose Deposito is
    the sum of quantity x sale price, and the answer carries its id. *)
Theorem Integradora_registrar_renta_importes ahora c u detalles dias fallos bd msg id s' :
  Integradora.registrar_renta ahora c u detalles dias (fallos, bd) = ((true, msg, id), s') →
  c ∈ CLIENTES bd ∧ u ∈ USUARIOS bd ∧ detalles ≠ [] ∧ 0 < dias ∧
  Forall (λ i, 0 < item_cantidad i ∧
               ∃ d, Integradora.buscar_por_codigo bd (item_codigo_barras i) = Some d ∧
                    esta_activo d = true ∧ item_cantidad i ≤ disponible d) detalles ∧
  ∃ fila,
    RENTAS (snd s') = RENTAS bd ++ [fila] ∧
    id = Some (Id_Renta fila) ∧
    Estado_Renta fila = "Activa" ∧
    Fecha_Renta fila = ahora ∧
    Fecha_Devolucion fila = ahora + timedelta dias ∧
    Total fila
    = suma ((λ i, item_cantidad i * precio_renta_de bd (item_codigo_barras i) * dias)
            <$> detalles) ∧
    Deposito fila
    = suma ((λ i, item_cantidad i * precio_venta_de bd (item_codigo_barras i)) <$> detalles).
Proof.
  unfold Integradora.registrar_renta.
  unfold mbind, op_bind, ejecutar_query, ejecutar_insert. cbn [fst snd].
  unfold Integradora._validar_datos_renta_basicos.
  destruct (bool_decide (c ∈ CLIENTES bd)) eqn:Hc; cbn [negb]; [|discriminate].
  destruct (bool_decide (u ∈ USUARIOS bd)) eqn:Hu; cbn [negb]; [|discriminate].
  apply bool_decide_eq_true in Hc. apply bool_decide_eq_true in Hu.
  destruct detalles as [|item resto]; [discriminate|].
  destruct (dias <=? 0) eqn:Hd; [discriminate|]. cbn [fst snd].
  destruct (Integradora.calcular_totales bd dias (item :: resto) 0 0)
    as [m|[total deposito]] eqn:Htot; [discriminate|].
  apply Integradora_calcular_totales_inr in Htot as (Ht & Hdep & Hall).
  rewrite siguiente_cursor_execute.
  destruct (fst (siguiente fallos)); [discriminate|]. cbn [fst snd].
  destruct (_ =? 0); [discriminate|].
  match goal with
  | |- context [Integradora.registrar_detalles ?i ?n ?l (?fs, ?b)] =>
      pose proof (Integradora_registrar_detalles_RENTAS i n l fs b) as HR;
      destruct (Integradora.registrar_detalles i n l (fs, b)) as [[[]|] [fallos1 bd1]]
  end; [|discriminate].
  cbn [fst snd] in HR. unfold mret, op_ret. intros [= <- <- <-]. cbn [snd].
  split; [exact Hc|]. split; [exact Hu|]. split; [discriminate|]. split; [lia|].
  split; [exact Hall|].
  eexists. split; [rewrite HR; reflexivity|].
  split; [reflexivity|]. split; [reflexivity|]. split; [reflexivity|].
  split; [reflexivity|]. split; [cbn [Total]; lia|cbn [Deposito]; lia].
Qed.

Lemma Integradora_registrar_renta_importes_witness :
  (1:Z) ∈ CLIENTES bd_A ∧ (1:Z) ∈ USUARIOS bd_A ∧ [mkItem "X" 2] ≠ [] ∧ 0 < 3 ∧
  Forall (λ i, 0 < item_cantidad i ∧
               ∃ d, Integradora.buscar_por_codigo bd_A (item_codigo_barras i) = Some d ∧
                    esta_activo d = true ∧ item_cantidad i ≤ disponible d) [mkItem "X" 2] ∧
  ∃ fila,
    RENTAS (snd (snd (Integradora.registrar_renta 0 1 1 [mkItem "X" 2] 3 ([], bd_A))))
    = RENTAS bd_A ++ [fila] ∧
    Some 1 = Some (Id_Renta fila) ∧
    Estado_Renta fila = "Activa" ∧
    Fecha_Renta fila = 0 ∧
    Fecha_Devolucion fila = 0 + timedelta 3 ∧
    Total fila
    = suma ((λ i, item_cantidad i * precio_renta_de bd_A (item_codigo_barras i) * 3)
            <$> [mkItem "X" 2]) ∧
    Deposito fila
    = suma ((λ i, item_cantidad i * precio_venta_de bd_A (item_codigo_barras i))
            <$> [mkItem "X" 2]).
Proof.
  apply (Integradora_registrar_renta_importes 0 1 1 [mkItem "X" 2] 3 [] bd_A
           Integradora.RentaRegistrada (Some 1)).
  vm_compute. reflexivity.
Defined.

(** Second copy, [devolver_renta].  An answer True was given for a rental
    whose state reads 'Activa' or 'Vencida' (an empty Estado reads
    'Activa'), and carries: days late, the whole days from Fecha_Devolucion
    to [ahora], or 0 when that is negative; the penalty, days late times
    the controller's rate; and the whole deposit. *)
Theorem Integradora_devolver_renta_liquidacion self ahora id u fallos bd msg info s' :
  Integradora.devolver_renta self ahora id u (fallos, bd) = ((true, msg, info), s') →
  ∃ fila i,
    head (sql_rentas_por_id id bd) = Some fila ∧
    (Estado_Renta fila = "Activa" ∨ Estado_Renta fila = "Vencida" ∨ Estado_Renta fila = "") ∧
    info = Some i ∧
    Integradora.dias_retraso i
    = Z.max 0 ((ahora - Fecha_Devolucion fila) / microsegundos_por_dia) ∧
    Integradora.info_penalizacion i = Integradora.dias_retraso i * penalizacion_dia self ∧
    Integradora.deposito_devuelto i = Deposito fila.
Proof.
  unfold Integradora.devolver_renta.
  unfold mbind, op_bind, ejecutar_query, ejecutar_update. cbn [fst snd].
  destruct (sql_rentas_por_id id bd) as [|fila resto]; [discriminate|].
  unfold Integradora.Renta_from_db_row.
  destruct (Id_Cliente fila <=? 0); [discriminate|].
  destruct (Id_Usuario fila <=? 0); [discriminate|].
  destruct (Dias_Renta fila <=? 0); [discriminate|].
  destruct (Total fila <? 0); [discriminate|].
  destruct (Deposito fila <? 0); [discriminate|].
  destruct (Penalizacion fila <? 0); [discriminate|].
  destruct (Fecha_Devolucion fila <=? Fecha_Renta fila); [discriminate|].
  cbn [estado_renta fecha_devolucion deposito].
  assert (Hest : negb (String.eqb (if String.eqb (Estado_Renta fila) "" then "Activa"
                                   else Estado_Renta fila) "Activa"
                       || String.eqb (if String.eqb (Estado_Renta fila) "" then "Activa"
                                      else Estado_Renta fila) "Vencida") = false →
                 Estado_Renta fila = "Activa" ∨ Estado_Renta fila = "Vencida"
                 ∨ Estado_Renta fila = "").
  { destruct (String.eqb (Estado_Renta fila) "") eqn:E0.
    - intros _. right. right. apply String.eqb_eq, E0.
    - destruct (String.eqb (Estado_Renta fila) "Activa") eqn:Ea.
      + intros _. left. apply String.eqb_eq, Ea.
      + destruct (String.eqb (Estado_Renta fila) "Vencida") eqn:Ev; [|discriminate].
        intros _. right. left. apply String.eqb_eq, Ev. }
  destruct (negb _) eqn:Hneg; [discriminate|]. specialize (Hest eq_refl).
  destruct (Integradora.restaurar_stock _ _) as [[] [fallos1 bd1]].
  rewrite siguiente_cursor_execute.
  assert (HD : 0 < microsegundos_por_dia) by reflexivity.
  assert (Hdias : (if Fecha_Devolucion fila <? ahora
                   then days (ahora - Fecha_Devolucion fila) else 0)
                  = Z.max 0 ((ahora - Fecha_Devolucion fila) / microsegundos_por_dia)).
  { unfold days. destruct (Fecha_Devolucion fila <? ahora) eqn:E.
    - rewrite Z.max_r; [reflexivity|]. apply Z.div_pos; lia.
    - rewrite Z.max_l; [reflexivity|]. apply Z.div_le_upper_bound; lia. }
  assert (Hpen : (if (Fecha_Devolucion fila <? ahora)
                     && (0 <? (if Fecha_Devolucion fila <? ahora
                               then days (ahora - Fecha_Devolucion fila) else 0))
                  then penalizacion_dia self
                       * (if Fecha_Devolucion fila <? ahora
                          then days (ahora - Fecha_Devolucion fila) else 0)
                  else 0)
                 = (if Fecha_Devolucion fila <? ahora
                    then days (ahora - Fecha_Devolucion fila) else 0)
                   * penalizacion_dia self).
  { destruct (Fecha_Devolucion fila <? ahora) eqn:E; cbn [andb]; [|lia].
    destruct (0 <? days (ahora - Fecha_Devolucion fila)) eqn:E'; [lia|].
    assert (0 ≤ days (ahora - Fecha_Devolucion fila))
      by (unfold days; apply Z.div_pos; lia).
    assert (days (ahora - Fecha_Devolucion fila) = 0) as -> by lia. lia. }
  destruct (fst (siguiente fallos1)); cbn [fst snd]; intros [= <- <- <-];
    eexists fila, _; (split; [reflexivity|]); (split; [exact Hest|]);
    (split; [reflexivity|]);
    cbn [Integradora.dias_retraso Integradora.info_penalizacion Integradora.deposito_devuelto];
    (split; [exact Hdias|]); (split; [exact Hpen|]); reflexivity.
Qed.

Lemma Integradora_devolver_renta_liquidacion_witness :
  ∃ fila i,
    head (sql_rentas_por_id 1 bd_B) = Some fila ∧
    (Estado_Renta fila = "Activa" ∨ Estado_Renta fila = "Vencida" ∨ Estado_Renta fila = "") ∧
    Some (Integradora.mkInfo 3 (pesos 150) (pesos 1600)) = Some i ∧
    Integradora.dias_retraso i
    = Z.max 0 ((timedelta 5 - Fecha_Devolucion fila) / microsegundos_por_dia) ∧
    Integradora.info_penalizacion i = Integradora.dias_retraso i * pesos 50 ∧
    Integradora.deposito_devuelto i = Deposito fila.
Proof.
  eapply (Integradora_devolver_renta_liquidacion (mkRentaController (pesos 50)) (timedelta 5)
            1 1 [] bd_B).
  vm_compute. reflexivity.
Defined.

(** *** What the first copy's registration writes, and reading it back *)

Lemma Controllers_preparar_detalles_validos bd dias detalles validados subtotal deposito_total r :
  Controllers.preparar_detalles bd dias detalles validados subtotal deposito_total = inr r →
  Forall (λ i, item_codigo_barras i ≠ "" ∧ 0 < item_cantidad i ∧
               ∃ f, INVENTARIO bd !! item_codigo_barras i = Some f ∧
                    Estado f = "Activo" ∧ item_cantidad i ≤ Disponible f) detalles.
Proof.
  revert validados subtotal deposito_total.
  induction detalles as [|item resto IH]; intros validados subtotal deposito_total;
    [constructor|].
  cbn [Controllers.preparar_detalles].
  destruct (String.eqb (item_codigo_barras item) "") eqn:Hcod; cbn [orb]; [discriminate|].
  destruct (item_cantidad item <=? 0) eqn:Hq; [discriminate|].
  unfold Controllers.verificar_disponibilidad, Controllers.buscar_por_codigo.
  destruct (INVENTARIO bd !! item_codigo_barras item) as [f|] eqn:Hf;
    cbn [fmap option_fmap option_map]; [|discriminate].
  unfold esta_activo. cbn [Controllers.Disfraz_from_db_row estado disponible].
  destruct (String.eqb (Estado f) "Activo") eqn:Hact; cbn [negb]; [|discriminate].
  destruct (Disponible f <? item_cantidad item) eqn:Hd; [discriminate|].
  intros H. apply IH in H. constructor; [|exact H].
  split; [intros Hc; rewrite Hc in Hcod; discriminate|]. split; [lia|].
  exists f. split; [exact Hf|]. split; [apply String.eqb_eq, Hact|lia].
Qed.

Lemma sql_sumar_disponible_otras_tablas delta codigo bd :
  DETALLE_RENTAS (fst (sql_sumar_disponible delta codigo bd)) = DETALLE_RENTAS bd ∧
  auto_increment (fst (sql_sumar_disponible delta codigo bd)) = auto_increment bd ∧
  CONFIGURACION (fst (sql_sumar_disponible delta codigo bd)) = CONFIGURACION bd.
Proof.
  unfold sql_sumar_disponible. destruct (INVENTARIO bd !! codigo); repeat split.
Qed.

Lemma Controllers_insertar_detalles_filas id validados fallos bd fallos' bd' :
  Controllers.insertar_detalles id validados (fallos, bd) = (Some (), (fallos', bd')) →
  DETALLE_RENTAS bd'
  = DETALLE_RENTAS bd
    ++ ((λ d, mkFilaDetalle id (Controllers.dr_codigo_barras d) (Controllers.dr_cantidad d)
                            (Controllers.dr_precio_unitario d) (Controllers.dr_subtotal d))
        <$> validados) ∧
  auto_increment bd' = auto_increment bd.
Proof.
  revert fallos bd. induction validados as [|d resto IH]; intros fallos bd.
  - cbn [Controllers.insertar_detalles]. unfold mret, op_ret. intros [= <- <-].
    rewrite fmap_nil, app_nil_r. split; reflexivity.
  - cbn [Controllers.insertar_detalles]. unfold mbind, op_bind.
    rewrite siguiente_cursor_execute.
    destruct (fst (siguiente fallos)); [discriminate|]. cbn [fst snd].
    rewrite siguiente_cursor_execute.
    destruct (fst (siguiente (snd (siguiente fallos)))); [discriminate|]. cbn [fst snd].
    intros H. apply IH in H as [Hd Ha].
    destruct (sql_sumar_disponible_otras_tablas (- Controllers.dr_cantidad d)
                (Controllers.dr_codigo_barras d)
                (sql_insertar_detalle
                   (mkFilaDetalle id (Controllers.dr_codigo_barras d)
                      (Controllers.dr_cantidad d) (Controllers.dr_precio_unitario d)
                      (Controllers.dr_subtotal d)) bd)) as (Hd1 & Ha1 & _).
    rewrite Hd1 in Hd. rewrite Ha1 in Ha.
    split; [|exact Ha].
    rewrite Hd. cbn [sql_insertar_detalle con_DETALLE_RENTAS DETALLE_RENTAS].
    rewrite fmap_cons, <- app_assoc. reflexivity.
Qed.

Lemma Controllers_registrar_renta_exito ahora c u detalles dias fallos bd msg id s' :
  Controllers.registrar_renta ahora c u detalles dias (fallos, bd) = ((true, msg, id), s') →
  1 ≤ dias ≤ 30 ∧
  Forall (λ i, item_codigo_barras i ≠ "" ∧ 0 < item_cantidad i ∧
               ∃ f, INVENTARIO bd !! item_codigo_barras i = Some f ∧
                    Estado f = "Activo" ∧ item_cantidad i ≤ Disponible f) detalles ∧
  0 < suma ((λ i, item_cantidad i * precio_renta_de bd (item_codigo_barras i) * dias)
            <$> detalles) ∧
  0 ≤ suma ((λ i, item_cantidad i * precio_venta_de bd (item_codigo_barras i)) <$> detalles) ∧
  id = Some (auto_increment bd) ∧
  auto_increment (snd s') = auto_increment bd + 1 ∧
  RENTAS (snd s')
  = RENTAS bd
    ++ [mkFilaRenta (auto_increment bd) c u ahora (ahora + timedelta dias) None 0 dias
          (suma ((λ i, item_cantidad i * precio_renta_de bd (item_codigo_barras i) * dias)
                 <$> detalles))
          (suma ((λ i, item_cantidad i * precio_venta_de bd (item_codigo_barras i))
                 <$> detalles))
          "Activa"] ∧
  DETALLE_RENTAS (snd s')
  = DETALLE_RENTAS bd ++ (fila_de_detalle bd dias (auto_increment bd) <$> detalles).
Proof.
  unfold Controllers.registrar_renta.
  destruct detalles as [|item resto]; [discriminate|].
  destruct (dias <=? 0) eqn:Hd0; [discriminate|].
  destruct (30 <? dias) eqn:Hd30; [discriminate|].
  unfold mbind, op_bind, ejecutar_query. cbn [snd fst].
  destruct (Controllers.preparar_detalles bd dias (item :: resto) [] 0 0)
    as [m|[[validados subtotal] deposito_total]] eqn:Hprep; [discriminate|].
  pose proof (Controllers_preparar_detalles_validos _ _ _ _ _ _ _ Hprep) as Hval.
  apply Controllers_preparar_detalles_inr in Hprep as (Hv & Hs & Hdep & _).
  rewrite app_nil_l in Hv.
  unfold Controllers.validar_renta. cbn [dias_renta total deposito fecha_devolucion fecha_renta].
  destruct validados as [|v vs] eqn:Hvs; [discriminate|]. rewrite <- Hvs in *.
  rewrite Hd0.
  destruct (subtotal <=? 0) eqn:Htot; [discriminate|].
  destruct (deposito_total <? 0) eqn:Hdp; [discriminate|].
  destruct (ahora + timedelta dias <=? ahora); [discriminate|].
  rewrite siguiente_cursor_execute.
  destruct (fst (siguiente fallos)); [discriminate|].
  cbn [snd fst].
  destruct (_ =? 0); [discriminate|].
  match goal with
  | |- context [Controllers.insertar_detalles ?i ?v ?s] =>
      pose proof (Controllers_insertar_detalles_RENTAS i v (fst s) (snd s)) as HR;
      pose proof (Controllers_insertar_detalles_filas i v (fst s) (snd s)) as HF;
      destruct (Controllers.insertar_detalles i v s) as [[[]|] [fallos1 bd1]] eqn:Hins
  end; [|discriminate].
  cbn [fst snd] in HR, HF. rewrite Hins in HR. cbn [snd] in HR.
  destruct (HF _ _ Hins) as [HF1 HF2].
  unfold mret, op_ret. intros [= <- <- <-]. cbn [snd].
  split; [lia|]. split; [exact Hval|].
  assert (Hs' : subtotal
                = suma ((λ i, item_cantidad i * precio_renta_de bd (item_codigo_barras i) * dias)
                        <$> item :: resto)) by lia.
  assert (Hdep' : deposito_total
                  = suma ((λ i, item_cantidad i * precio_venta_de bd (item_codigo_barras i))
                          <$> item :: resto)) by lia.
  rewrite <- Hs', <- Hdep'.
  split; [lia|]. split; [lia|]. split; [reflexivity|].
  split; [rewrite HF2; reflexivity|].
  split; [rewrite HR; reflexivity|].
  assert (Hfilas : (λ d, mkFilaDetalle (auto_increment bd) (Controllers.dr_codigo_barras d)
                           (Controllers.dr_cantidad d) (Controllers.dr_precio_unitario d)
                           (Controllers.dr_subtotal d)) <$> validados
                   = fila_de_detalle bd dias (auto_increment bd) <$> (item :: resto)).
  { rewrite Hv, <- list_fmap_compose. reflexivity. }
  rewrite HF1. cbn [sql_insertar_renta fst snd DETALLE_RENTAS con_auto_increment con_RENTAS].
  cbn [sql_insertar_renta snd] in Hfilas. rewrite Hfilas. reflexivity.
Qed.

(** First copy, [registrar_renta].  An answer True was given to an order of
    1 to 30 days whose every line names an item and asks a positive
    quantity, not above Disponible, of an item that is 'Activo'.  The
    store then has one more rental, with the next id, no return date and no
    penalty, due [dias_renta] days after [ahora], with a positive Total;
    and one more line for each entry of the order, in order, with the
    rental's id, the item's rate of that moment and quantity x rate x days
    as Subtotal: the Total of the header is the sum of the Subtotal of its
    lines. *)
Theorem Controllers_registrar_renta_encabezado_y_lineas
        ahora c u detalles dias fallos bd msg id s' :
  Controllers.registrar_renta ahora c u detalles dias (fallos, bd) = ((true, msg, id), s') →
  1 ≤ dias ≤ 30 ∧
  Forall (λ i, item_codigo_barras i ≠ "" ∧ 0 < item_cantidad i ∧
               ∃ f, INVENTARIO bd !! item_codigo_barras i = Some f ∧
                    Estado f = "Activo" ∧ item_cantidad i ≤ Disponible f) detalles ∧
  ∃ total deposito,
    0 < total ∧ 0 ≤ deposito ∧
    id = Some (auto_increment bd) ∧
    auto_increment (snd s') = auto_increment bd + 1 ∧
    RENTAS (snd s')
    = RENTAS bd ++ [mkFilaRenta (auto_increment bd) c u ahora (ahora + timedelta dias)
                                None 0 dias total deposito "Activa"] ∧
    DETALLE_RENTAS (snd s')
    = DETALLE_RENTAS bd ++ (fila_de_detalle bd dias (auto_increment bd) <$> detalles) ∧
    total = suma (det_Subtotal <$> (fila_de_detalle bd dias (auto_increment bd) <$> detalles)).
Proof.
  intros H. apply Controllers_registrar_renta_exito in H
    as (Hdias & Hval & Htot & Hdep & Hid & Hai & HR & HD).
  split; [exact Hdias|]. split; [exact Hval|].
  eexists _, _. split; [exact Htot|]. split; [exact Hdep|]. split; [exact Hid|].
  split; [exact Hai|]. split; [exact HR|]. split; [exact HD|].
  rewrite <- list_fmap_compose. reflexivity.
Qed.

Lemma Controllers_registrar_renta_encabezado_y_lineas_witness :
  1 ≤ 3 ≤ 30 ∧
  Forall (λ i, item_codigo_barras i ≠ "" ∧ 0 < item_cantidad i ∧
               ∃ f, INVENTARIO bd_A !! item_codigo_barras i = Some f ∧
                    Estado f = "Activo" ∧ item_cantidad i ≤ Disponible f) [mkItem "X" 2] ∧
  ∃ total deposito,
    0 < total ∧ 0 ≤ deposito ∧
    Some 1 = Some (auto_increment bd_A) ∧
    auto_increment
      (snd (snd (Controllers.registrar_renta 0 1 1 [mkItem "X" 2] 3 ([], bd_A))))
    = auto_increment bd_A + 1 ∧
    RENTAS (snd (snd (Controllers.registrar_renta 0 1 1 [mkItem "X" 2] 3 ([], bd_A))))
    = RENTAS bd_A ++ [mkFilaRenta (auto_increment bd_A) 1 1 0 (0 + timedelta 3)
                                  None 0 3 total deposito "Activa"] ∧
    DETALLE_RENTAS (snd (snd (Controllers.registrar_renta 0 1 1 [mkItem "X" 2] 3 ([], bd_A))))
    = DETALLE_RENTAS bd_A ++ (fila_de_detalle bd_A 3 (auto_increment bd_A) <$> [mkItem "X" 2]) ∧
    total = suma (det_Subtotal
                  <$> (fila_de_detalle bd_A 3 (auto_increment bd_A) <$> [mkItem "X" 2])).
Proof.
  apply (Controllers_registrar_renta_encabezado_y_lineas 0 1 1 [mkItem "X" 2] 3 [] bd_A
           (Controllers.RentaRegistrada 1) (Some 1)).
  vm_compute. reflexivity.
Defined.

Lemma filter_ninguno {A} (P : A → Prop) `{∀ x, Decision (P x)} (l : list A) :
  (∀ x, x ∈ l → ¬ P x) → filter P l = [].
Proof.
  induction l as [|x l IH]; intros Hl; [reflexivity|].
  rewrite filter_cons, decide_False by (apply Hl; left).
  apply IH. intros y Hy. apply Hl. right. exact Hy.
Qed.

Lemma filter_todos {A} (P : A → Prop) `{∀ x, Decision (P x)} (l : list A) :
  (∀ x, x ∈ l → P x) → filter P l = l.
Proof.
  induction l as [|x l IH]; intros Hl; [reflexivity|].
  rewrite filter_cons, decide_True by (apply Hl; left).
  f_equal. apply IH. intros y Hy. apply Hl. right. exact Hy.
Qed.

Lemma Controllers_cargar_filas r bd dias id detalles acumulados :
  dias_renta r = dias →
  foldl (λ ds fila,
           Controllers.agregar_detalle r ds
             (Controllers.mkDetalleRenta (det_Codigo_Barras fila) (det_Cantidad fila)
                (det_Precio_Unitario fila) (det_Subtotal fila)))
        acumulados (fila_de_detalle bd dias id <$> detalles)
  = acumulados ++ (detalle_de bd dias <$> detalles).
Proof.
  intros Hd. revert acumulados.
  induction detalles as [|i resto IH]; intros acumulados.
  - rewrite !fmap_nil, app_nil_r. reflexivity.
  - rewrite !fmap_cons. cbn [foldl]. rewrite IH.
    unfold Controllers.agregar_detalle, Controllers.calcular_subtotal. rewrite Hd.
    rewrite <- app_assoc. reflexivity.
Qed.

(** First copy: a rental read back with [obtener_renta_completa] right
    after [registrar_renta] answered True with its id is the one that was
    registered, with the order's Total and Deposito, and its [detalles]
    are the lines of the order in order, each with the rate of the moment
    of registration and quantity x rate x days as subtotal; provided no
    row of the store carried an id at or above the next one. *)
Theorem Controllers_registrar_y_obtener ahora c u detalles dias fallos bd msg id s' :
  ids_frescos bd →
  Controllers.registrar_renta ahora c u detalles dias (fallos, bd)
  = ((true, msg, Some id), s') →
  Controllers.obtener_renta_completa (snd s') id
  = Some (mkRenta (Some id) c u ahora (ahora + timedelta dias) None 0 dias
                  (suma ((λ i, item_cantidad i * precio_renta_de bd (item_codigo_barras i) * dias)
                         <$> detalles))
                  (suma ((λ i, item_cantidad i * precio_venta_de bd (item_codigo_barras i))
                         <$> detalles))
                  "Activa",
          detalle_de bd dias <$> detalles).
Proof.
  intros [Hr Hd] Hreg.
  assert (Htot := Hreg).
  apply Controllers_registrar_renta_exito in Hreg
    as (_ & _ & _ & _ & [= ->] & _ & HR & HD).
  unfold Controllers.obtener_renta_completa, Controllers.buscar_por_id, sql_rentas_por_id.
  rewrite HR, filter_app.
  rewrite (filter_ninguno _ (RENTAS bd))
    by (intros r Hin Heq; specialize (Hr r Hin); lia).
  rewrite filter_cons, decide_True by reflexivity. rewrite filter_nil. cbn [app].
  unfold Controllers.cargar_detalles. cbn [id_renta Controllers.Renta_from_db_row Id_Renta].
  unfold sql_filas_detalle_de. rewrite HD, filter_app.
  rewrite (filter_ninguno _ (DETALLE_RENTAS bd))
    by (intros d Hin Heq; specialize (Hd d Hin); lia).
  rewrite filter_todos
    by (intros d Hin; apply list_elem_of_fmap in Hin as (i & -> & _); reflexivity).
  cbn [app].
  destruct detalles as [|item resto].
  { exfalso. clear -Htot. unfold Controllers.registrar_renta in Htot. discriminate. }
  rewrite fmap_cons. cbn [snd].
  f_equal. f_equal.
  apply (Controllers_cargar_filas _ bd dias (auto_increment bd) (item :: resto) []).
  reflexivity.
Qed.

Lemma ids_frescos_bd_A : ids_frescos bd_A.
Proof. split; intros x Hx; inversion Hx. Qed.

Lemma Controllers_registrar_y_obtener_witness :
  Controllers.obtener_renta_completa
    (snd (snd (Controllers.registrar_renta 0 1 1 [mkItem "X" 2] 3 ([], bd_A)))) 1
  = Some (mkRenta (Some 1) 1 1 0 (0 + timedelta 3) None 0 3
                  (suma ((λ i, item_cantidad i * precio_renta_de bd_A (item_codigo_barras i) * 3)
                         <$> [mkItem "X" 2]))
                  (suma ((λ i, item_cantidad i * precio_venta_de bd_A (item_codigo_barras i))
                         <$> [mkItem "X" 2]))
                  "Activa",
          detalle_de bd_A 3 <$> [mkItem "X" 2]).
Proof.
  apply (Controllers_registrar_y_obtener 0 1 1 [mkItem "X" 2] 3 [] bd_A
           (Controllers.RentaRegistrada 1) 1
           (snd (Controllers.registrar_renta 0 1 1 [mkItem "X" 2] 3 ([], bd_A)))).
  - exact ids_frescos_bd_A.
  - vm_compute. reflexivity.
Defined.

(** *** The rentals under sequences of calls on the first copy *)

Lemma sql_rentas_por_id_fmap (g : FilaRenta → FilaRenta) (id : Z) (rs : list FilaRenta) :
  (∀ r, Id_Renta (g r) = Id_Renta r) →
  filter (λ r, Id_Renta r = id) (g <$> rs) = g <$> filter (λ r, Id_Renta r = id) rs.
Proof.
  intros Hg. induction rs as [|r rs IH]; [reflexivity|].
  rewrite fmap_cons, !filter_cons, Hg.
  destruct (decide (Id_Renta r = id)); [rewrite fmap_cons|]; rewrite IH; reflexivity.
Qed.

Lemma Controllers_devolver_stock_otras_tablas detalles fallos bd :
  DETALLE_RENTAS (snd (snd (Controllers.devolver_stock detalles (fallos, bd))))
  = DETALLE_RENTAS bd ∧
  auto_increment (snd (snd (Controllers.devolver_stock detalles (fallos, bd))))
  = auto_increment bd.
Proof.
  revert fallos bd. induction detalles as [|[codigo cantidad] resto IH]; intros fallos bd;
    [split; reflexivity|].
  cbn [Controllers.devolver_stock]. unfold mbind, op_bind, ejecutar_update.
  rewrite siguiente_cursor_execute.
  destruct (fst (siguiente fallos)); [apply IH|].
  cbn [fst snd].
  destruct (IH (snd (siguiente fallos)) (fst (sql_sumar_disponible cantidad codigo bd)))
    as [H1 H2].
  destruct (sql_sumar_disponible_otras_tablas cantidad codigo bd) as (H3 & H4 & _).
  split; congruence.
Qed.

(** What a call does to RENTAS, DETALLE_RENTAS and the next id: either
    nothing, or one rental appended with its lines, or the rows rewritten
    in place by a return or by the sweep. *)
Lemma llamar_efecto l fallos bd :
  let bd' := snd (snd (llamar l (fallos, bd))) in
  (RENTAS bd' = RENTAS bd ∧ DETALLE_RENTAS bd' = DETALLE_RENTAS bd ∧
   auto_increment bd' = auto_increment bd) ∨
  (∃ fila detalles,
     RENTAS bd' = RENTAS bd ++ [fila] ∧
     DETALLE_RENTAS bd' = DETALLE_RENTAS bd ++ detalles ∧
     auto_increment bd' = auto_increment bd + 1 ∧
     Id_Renta fila = auto_increment bd ∧
     (∀ d, d ∈ detalles → det_Id_Renta d = auto_increment bd) ∧
     renta_coherente fila) ∨
  (∃ ahora pen id,
     RENTAS bd'
     = (λ r, if decide (Id_Renta r = id) then marcar_devuelto ahora pen r else r) <$> RENTAS bd ∧
     DETALLE_RENTAS bd' = DETALLE_RENTAS bd ∧
     auto_increment bd' = auto_increment bd ∧
     ∀ fila, head (sql_rentas_por_id id bd) = Some fila → Estado_Renta fila ≠ "Devuelto") ∨
  (∃ ahora,
     RENTAS bd'
     = (λ r, if debe_vencer ahora r then con_Estado_Renta "Vencida" r else r) <$> RENTAS bd ∧
     DETALLE_RENTAS bd' = DETALLE_RENTAS bd ∧
     auto_increment bd' = auto_increment bd).
Proof.
  cbv zeta. destruct l as [ahora c u detalles dias | self ahora id u | ahora];
    cbn [llamar]; unfold mbind, op_bind.
  - destruct (Controllers.registrar_renta ahora c u detalles dias (fallos, bd))
      as [[[ok msg] idr] [fallos' bd']] eqn:Hreg.
    unfold mret, op_ret. cbn [snd]. destruct ok.
    + right. left.
      apply Controllers_registrar_renta_exito in Hreg
        as (Hdias & _ & Htot & Hdep & _ & Hai & HR & HD).
      cbn [snd] in Hai, HR, HD.
      eexists _, _. split; [exact HR|]. split; [exact HD|]. split; [exact Hai|].
      split; [reflexivity|]. split.
      * intros d Hd. apply list_elem_of_fmap in Hd as (i & -> & _). reflexivity.
      * unfold renta_coherente.
        cbn [Dias_Renta Fecha_Devolucion Fecha_Renta Total Deposito Estado_Renta
             Fecha_Devuelto Penalizacion].
        split; [exact Hdias|]. split; [reflexivity|]. split; [exact Htot|].
        split; [exact Hdep|]. right. split; [left; reflexivity|]. split; reflexivity.
    + left.
      pose proof (Controllers_registrar_renta_todo_o_nada ahora c u detalles dias fallos bd)
        as Hnada.
      rewrite Hreg in Hnada. cbn [fst snd] in Hnada. rewrite (Hnada eq_refl).
      repeat split.
  - unfold Controllers.devolver_renta.
    unfold mbind, op_bind, ejecutar_query. cbn [snd fst].
    unfold Controllers.buscar_por_id.
    destruct (sql_rentas_por_id id bd) as [|fila resto] eqn:Hsel;
      [left; repeat split|].
    destruct (esta_devuelta _) eqn:Hdev; [left; repeat split|].
    destruct (negb (esta_activa _) && negb (esta_vencida _)); [left; repeat split|].
    cbn [snd fst].
    destruct (sql_detalles_de id bd) as [|d ds]; [left; repeat split|].
    pose proof (Controllers_devolver_stock_RENTAS (d :: ds) fallos bd) as HR.
    pose proof (Controllers_devolver_stock_otras_tablas (d :: ds) fallos bd) as [HD HA].
    destruct (Controllers.devolver_stock (d :: ds) (fallos, bd)) as [[] [fallos1 bd1]].
    cbn [fst snd] in HR, HD, HA.
    unfold ejecutar_update. rewrite siguiente_cursor_execute.
    destruct (fst (siguiente fallos1)); cbn [fst snd]; unfold mret, op_ret; cbn [fst snd].
    + left. repeat split; assumption.
    + right. right. left. eexists _, _, id.
      cbn [sql_devolver_renta fst RENTAS DETALLE_RENTAS auto_increment con_RENTAS].
      rewrite HR, HD, HA. split; [reflexivity|]. split; [reflexivity|].
      split; [reflexivity|].
      intros fila'. rewrite Hsel. intros [= <-] Hd'. unfold esta_devuelta in Hdev.
      cbn [Controllers.Renta_from_db_row estado_renta] in Hdev.
      rewrite Hd' in Hdev. discriminate.
  - unfold Controllers.marcar_rentas_vencidas.
    unfold mbind, op_bind, ejecutar_update. rewrite siguiente_cursor_execute.
    destruct (fst (siguiente fallos)); cbn [fst snd];
      [left; repeat split|].
    right. right. right. exists ahora.
    destruct (0 <? _); unfold mret, op_ret; cbn [fst snd]; repeat split.
Qed.

Lemma renta_coherente_marcar_devuelto ahora pen r :
  renta_coherente r → renta_coherente (marcar_devuelto ahora pen r).
Proof.
  intros (H1 & H2 & H3 & H4 & _). unfold renta_coherente.
  cbn [marcar_devuelto Dias_Renta Fecha_Devolucion Fecha_Renta Total Deposito Estado_Renta
       Fecha_Devuelto Penalizacion].
  repeat (split; [assumption|]). left. split; [reflexivity|]. eexists; reflexivity.
Qed.

Lemma renta_coherente_vencida r :
  renta_coherente r → Estado_Renta r = "Activa" →
  renta_coherente (con_Estado_Renta "Vencida" r).
Proof.
  intros (H1 & H2 & H3 & H4 & H5) Ha. unfold renta_coherente.
  cbn [con_Estado_Renta Dias_Renta Fecha_Devolucion Fecha_Renta Total Deposito Estado_Renta
       Fecha_Devuelto Penalizacion].
  repeat (split; [assumption|]). right.
  destruct H5 as [[Hd _] | (_ & Hf & Hp)]; [rewrite Ha in Hd; discriminate|].
  split; [right; reflexivity|]. split; assumption.
Qed.

Lemma almacen_coherente_fmap (g : FilaRenta → FilaRenta) bd bd' :
  almacen_coherente bd →
  (∀ r, Id_Renta (g r) = Id_Renta r) →
  (∀ r, r ∈ RENTAS bd → renta_coherente (g r)) →
  RENTAS bd' = g <$> RENTAS bd →
  DETALLE_RENTAS bd' = DETALLE_RENTAS bd →
  auto_increment bd' = auto_increment bd →
  almacen_coherente bd'.
Proof.
  intros (Hc & [Hr Hd] & Hnd) Hid Hg HR HD HA. split; [|split; [split|]].
  - intros r Hin. rewrite HR in Hin. apply list_elem_of_fmap in Hin as (r0 & -> & Hin).
    apply Hg, Hin.
  - intros r Hin. rewrite HR in Hin. apply list_elem_of_fmap in Hin as (r0 & -> & Hin).
    rewrite Hid, HA. apply Hr, Hin.
  - intros d Hin. rewrite HD in Hin. rewrite HA. apply Hd, Hin.
  - rewrite HR, <- list_fmap_compose.
    erewrite list_fmap_ext; [exact Hnd|]. intros i r _. simpl. apply Hid.
Qed.

Lemma llamar_coherente l fallos bd :
  almacen_coherente bd → almacen_coherente (snd (snd (llamar l (fallos, bd)))).
Proof.
  intros Hinv. pose proof (llamar_efecto l fallos bd) as Hef. cbv zeta in Hef.
  destruct Hef as [(HR & HD & HA) | [(fila & dets & HR & HD & HA & Hid & Hdets & Hfila)
                  | [(ahora & pen & id & HR & HD & HA & _) | (ahora & HR & HD & HA)]]].
  - apply (almacen_coherente_fmap id bd); try assumption.
    + reflexivity.
    + intros r Hr. apply Hinv, Hr.
    + rewrite list_fmap_id. exact HR.
  - destruct Hinv as (Hc & [Hr Hd] & Hnd). split; [|split; [split|]].
    + intros r Hin. rewrite HR in Hin. apply elem_of_app in Hin as [Hin|Hin].
      * apply Hc, Hin.
      * apply list_elem_of_singleton in Hin. subst r. exact Hfila.
    + intros r Hin. rewrite HR in Hin. rewrite HA. apply elem_of_app in Hin as [Hin|Hin].
      * specialize (Hr r Hin). lia.
      * apply list_elem_of_singleton in Hin. subst r. lia.
    + intros d Hin. rewrite HD in Hin. rewrite HA. apply elem_of_app in Hin as [Hin|Hin].
      * specialize (Hd d Hin). lia.
      * rewrite (Hdets d Hin). lia.
    + rewrite HR, fmap_app. apply NoDup_app. split; [exact Hnd|]. split.
      * intros x Hx Hx'. apply list_elem_of_singleton in Hx'. subst x.
        apply list_elem_of_fmap in Hx as (r & Hrid & Hin).
        specialize (Hr r Hin). lia.
      * apply NoDup_singleton.
  - apply (almacen_coherente_fmap
             (λ r, if decide (Id_Renta r = id) then marcar_devuelto ahora pen r else r) bd);
      try assumption.
    + intros r. destruct (decide (Id_Renta r = id)); reflexivity.
    + intros r Hr. destruct (decide (Id_Renta r = id));
        [apply renta_coherente_marcar_devuelto|]; apply Hinv, Hr.
  - apply (almacen_coherente_fmap
             (λ r, if debe_vencer ahora r then con_Estado_Renta "Vencida" r else r) bd);
      try assumption.
    + intros r. destruct (debe_vencer ahora r); reflexivity.
    + intros r Hr. destruct (debe_vencer ahora r) eqn:E; [|apply Hinv, Hr].
      apply renta_coherente_vencida; [apply Hinv, Hr|].
      apply debe_vencer_vence in E as [E _]. exact E.
Qed.

(** First copy: every sequence of [registrar_renta], [devolver_renta] and
    [marcar_rentas_vencidas], whatever their arguments and the statements
    that fail, keeps the rentals coherent: each row is due after it
    starts, by its 1 to 30 days, has a positive total, and is either
    'Devuelto' with a return date or 'Activa'/'Vencida' with no return date
    and no penalty; ids stay unique and below the next id. *)
Theorem Controllers_rentas_coherentes ls fallos bd :
  almacen_coherente bd →
  almacen_coherente (snd (snd (llamar_todas ls (fallos, bd)))).
Proof.
  revert fallos bd. induction ls as [|l ls IH]; intros fallos bd Hinv; [exact Hinv|].
  cbn [llamar_todas]. unfold mbind, op_bind.
  pose proof (llamar_coherente l fallos bd Hinv) as Hl.
  destruct (llamar l (fallos, bd)) as [[] [fallos1 bd1]]. cbn [snd] in Hl.
  apply IH, Hl.
Qed.

Lemma almacen_coherente_bd_A : almacen_coherente bd_A.
Proof.
  split; [intros r Hr; inversion Hr|]. split; [exact ids_frescos_bd_A|]. constructor.
Qed.

Lemma Controllers_rentas_coherentes_witness :
  almacen_coherente
    (snd (snd (llamar_todas
                 [Registrar 0 1 1 [mkItem "X" 2] 3; MarcarVencidas (timedelta 4);
                  Devolver (mkRentaController (pesos 50)) (timedelta 5) 1 1]
                 ([], bd_A)))).
Proof.
  apply (Controllers_rentas_coherentes
           [Registrar 0 1 1 [mkItem "X" 2] 3; MarcarVencidas (timedelta 4);
            Devolver (mkRentaController (pesos 50)) (timedelta 5) 1 1] [] bd_A).
  exact almacen_coherente_bd_A.
Defined.

Lemma filter_id_unico (l : list FilaRenta) r :
  NoDup (Id_Renta <$> l) → r ∈ l → filter (λ x, Id_Renta x = Id_Renta r) l = [r].
Proof.
  induction l as [|a l IH]; intros Hnd Hin; [inversion Hin|].
  rewrite fmap_cons in Hnd. apply NoDup_cons in Hnd as [Hfuera Hnd].
  apply elem_of_cons in Hin as [->|Hin].
  - rewrite filter_cons, decide_True by reflexivity. f_equal.
    apply filter_ninguno. intros x Hx Hid. apply Hfuera.
    rewrite <- Hid. apply list_elem_of_fmap. exists x. split; [reflexivity|exact Hx].
  - rewrite filter_cons, decide_False; [apply IH; assumption|].
    intros Hid. apply Hfuera. rewrite Hid.
    apply list_elem_of_fmap. exists r. split; [reflexivity|exact Hin].
Qed.

Lemma llamar_devuelto_es_final l fallos bd i r :
  almacen_coherente bd →
  RENTAS bd !! i = Some r → Estado_Renta r = "Devuelto" →
  RENTAS (snd (snd (llamar l (fallos, bd)))) !! i = Some r.
Proof.
  intros (_ & _ & Hnd) Hi Hdev.
  pose proof (llamar_efecto l fallos bd) as Hef. cbv zeta in Hef.
  destruct Hef as [(HR & _) | [(fila & dets & HR & _)
                  | [(ahora & pen & id & HR & _ & _ & Hno) | (ahora & HR & _)]]];
    rewrite HR.
  - exact Hi.
  - apply lookup_app_l_Some. exact Hi.
  - rewrite list_lookup_fmap, Hi. cbn [fmap option_fmap option_map].
    destruct (decide (Id_Renta r = id)) as [Hid|]; [|reflexivity].
    exfalso. apply (Hno r); [|exact Hdev].
    unfold sql_rentas_por_id. rewrite <- Hid.
    rewrite (filter_id_unico (RENTAS bd) r Hnd); [reflexivity|].
    apply list_elem_of_lookup. exists i. exact Hi.
  - rewrite list_lookup_fmap, Hi. cbn [fmap option_fmap option_map].
    destruct (debe_vencer ahora r) eqn:E; [|reflexivity].
    apply debe_vencer_vence in E as [E _]. rewrite Hdev in E. discriminate.
Qed.

(** First copy: 'Devuelto' is final. A rental that is returned keeps its
    row as it is (state, return date, penalty and all) through every later
    sequence of [registrar_renta], [devolver_renta] and
    [marcar_rentas_vencidas] calls. *)
Theorem Controllers_devuelto_es_final ls fallos bd i r :
  almacen_coherente bd →
  RENTAS bd !! i = Some r → Estado_Renta r = "Devuelto" →
  RENTAS (snd (snd (llamar_todas ls (fallos, bd)))) !! i = Some r.
Proof.
  revert fallos bd. induction ls as [|l ls IH]; intros fallos bd Hinv Hi Hdev; [exact Hi|].
  cbn [llamar_todas]. unfold mbind, op_bind.
  pose proof (llamar_coherente l fallos bd Hinv) as Hl.
  pose proof (llamar_devuelto_es_final l fallos bd i r Hinv Hi Hdev) as Hf.
  destruct (llamar l (fallos, bd)) as [[] [fallos1 bd1]]. cbn [snd] in Hl, Hf.
  apply IH; assumption.
Qed.


Lemma almacen_coherente_bd_devuelta : almacen_coherente bd_devuelta.
Proof.
  pose proof (llamar_coherente (Registrar 0 1 1 [mkItem "X" 2] 3) [] bd_A
                almacen_coherente_bd_A) as H1.
  exact (llamar_coherente (Devolver (mkRentaController (pesos 50)) (timedelta 5) 1 1)
           (fst (snd (llamar (Registrar 0 1 1 [mkItem "X" 2] 3) ([], bd_A)))) _ H1).
Qed.

Lemma Controllers_devuelto_es_final_witness :
  RENTAS (snd (snd (llamar_todas
                      [Devolver (mkRentaController (pesos 50)) (timedelta 9) 1 1;
                       MarcarVencidas (timedelta 10);
                       Registrar (timedelta 10) 1 1 [mkItem "X" 1] 2]
                      ([], bd_devuelta)))) !! 0%nat
  = Some (mkFilaRenta 1 1 1 0 (timedelta 3) (Some (timedelta 5)) (pesos 100) 3
                      (pesos 900) (pesos 1600) "Devuelto").
Proof.
  apply (Controllers_devuelto_es_final
           [Devolver (mkRentaController (pesos 50)) (timedelta 9) 1 1;
            MarcarVencidas (timedelta 10);
            Registrar (timedelta 10) 1 1 [mkItem "X" 1] 2] [] bd_devuelta 0%nat).
  - exact almacen_coherente_bd_devuelta.
  - vm_compute. reflexivity.
  - reflexivity.
Defined.

(** *** A second return, and the sweep before a return or a count *)

Lemma sql_rentas_por_id_devuelta ahora pen id bd bd1 fila resto :
  RENTAS bd1 = RENTAS bd →
  sql_rentas_por_id id bd = fila :: resto →
  sql_rentas_por_id id
    (con_RENTAS ((λ r, if decide (Id_Renta r = id) then marcar_devuelto ahora pen r else r)
                 <$> RENTAS bd1) bd1)
  = marcar_devuelto ahora pen fila
    :: ((λ r, if decide (Id_Renta r = id) then marcar_devuelto ahora pen r else r) <$> resto).
Proof.
  intros HR Hsel. unfold sql_rentas_por_id in *.
  cbn [RENTAS con_RENTAS]. rewrite HR.
  rewrite sql_rentas_por_id_fmap
    by (intros r; destruct (decide (Id_Renta r = id)); reflexivity).
  rewrite Hsel, fmap_cons.
  assert (Hid : Id_Renta fila = id).
  { assert (Hin : fila ∈ filter (λ r, Id_Renta r = id) (RENTAS bd))
      by (rewrite Hsel; left).
    apply list_elem_of_filter in Hin as [Hid _]. exact Hid. }
  rewrite decide_True by exact Hid. reflexivity.
Qed.

(** First copy: a rental is returned once. After a [devolver_renta] that
    answers True and changes RENTAS, every further [devolver_renta] of the
    same rental answers False with 'La renta ya fue devuelta' and leaves
    the store as it is. *)
Theorem Controllers_segunda_devolucion_rechazada self ahora id u fallos bd m info s1 :
  Controllers.devolver_renta self ahora id u (fallos, bd) = ((true, m, info), s1) →
  RENTAS (snd s1) ≠ RENTAS bd →
  ∀ self' ahora' u' fallos',
    Controllers.devolver_renta self' ahora' id u' (fallos', snd s1)
    = ((false, Controllers.RentaYaDevuelta, None), (fallos', snd s1)).
Proof.
  unfold Controllers.devolver_renta at 1.
  unfold mbind, op_bind, ejecutar_query. cbn [snd fst].
  unfold Controllers.buscar_por_id.
  destruct (sql_rentas_por_id id bd) as [|fila resto] eqn:Hsel;
    [unfold mret, op_ret; discriminate|].
  destruct (esta_devuelta _); [unfold mret, op_ret; discriminate|].
  destruct (negb (esta_activa _) && negb (esta_vencida _));
    [unfold mret, op_ret; discriminate|].
  cbn [snd fst].
  destruct (sql_detalles_de id bd) as [|d ds]; [unfold mret, op_ret; discriminate|].
  pose proof (Controllers_devolver_stock_RENTAS (d :: ds) fallos bd) as HR.
  destruct (Controllers.devolver_stock (d :: ds) (fallos, bd)) as [[] [fallos1 bd1]].
  cbn [fst snd] in HR.
  unfold ejecutar_update. rewrite siguiente_cursor_execute.
  destruct (fst (siguiente fallos1)); cbn [fst snd]; unfold mret, op_ret; cbn [fst snd];
    intros [= <- <- <-] Hcambio; cbn [snd] in Hcambio |- *.
  - contradiction.
  - intros self' ahora' u' fallos'.
    unfold Controllers.devolver_renta, mbind, op_bind, ejecutar_query. cbn [snd fst].
    unfold Controllers.buscar_por_id.
    rewrite (sql_rentas_por_id_devuelta _ _ id bd bd1 fila resto HR Hsel).
    reflexivity.
Qed.

Lemma Controllers_segunda_devolucion_rechazada_witness :
  Controllers.devolver_renta (mkRentaController (pesos 80)) (timedelta 9) 1 2
    ([true], bd_devuelta)
  = ((false, Controllers.RentaYaDevuelta, None), ([true], bd_devuelta)).
Proof.
  apply (Controllers_segunda_devolucion_rechazada
           (mkRentaController (pesos 50)) (timedelta 5) 1 1 []
           (snd (snd (Controllers.registrar_renta 0 1 1 [mkItem "X" 2] 3 ([], bd_A))))
           (Controllers.RentaDevuelta 1)
           (snd (fst (Controllers.devolver_renta (mkRentaController (pesos 50)) (timedelta 5)
                        1 1
                        ([], snd (snd (Controllers.registrar_renta 0 1 1 [mkItem "X" 2] 3
                                         ([], bd_A)))))))
           ([], bd_devuelta)).
  - vm_compute. reflexivity.
  - vm_compute. discriminate.
Defined.

(** Second copy: a rental is returned once. After a [devolver_renta] that
    answers True and changes RENTAS, every further [devolver_renta] of the
    same rental answers False (its state is 'Devuelto', or its row is
    refused by [Renta.from_db_row]) and leaves the store as it is. *)
Theorem Integradora_segunda_devolucion_rechazada self ahora id u fallos bd m info s1 :
  Integradora.devolver_renta self ahora id u (fallos, bd) = ((true, m, info), s1) →
  RENTAS (snd s1) ≠ RENTAS bd →
  ∀ self' ahora' u' fallos',
    ∃ mensaje,
      Integradora.devolver_renta self' ahora' id u' (fallos', snd s1)
      = ((false, mensaje, None), (fallos', snd s1)) ∧
      (mensaje = Integradora.EstadoNoDevolvible "Devuelto" ∨
       mensaje = Integradora.ErrorInesperado).
Proof.
  unfold Integradora.devolver_renta at 1.
  unfold mbind, op_bind, ejecutar_query. cbn [snd fst].
  destruct (sql_rentas_por_id id bd) as [|fila resto] eqn:Hsel;
    [unfold mret, op_ret; discriminate|].
  destruct (Integradora.Renta_from_db_row fila) as [renta|];
    [|unfold mret, op_ret; discriminate].
  destruct (negb _); [unfold mret, op_ret; discriminate|].
  cbn [snd fst].
  pose proof (Integradora_restaurar_stock_RENTAS (sql_detalles_de id bd) fallos bd) as HR.
  destruct (Integradora.restaurar_stock (sql_detalles_de id bd) (fallos, bd))
    as [[] [fallos1 bd1]].
  cbn [fst snd] in HR.
  unfold ejecutar_update. rewrite siguiente_cursor_execute.
  destruct (fst (siguiente fallos1)); cbn [fst snd]; unfold mret, op_ret; cbn [fst snd];
    intros [= <- <- <-] Hcambio; cbn [snd] in Hcambio |- *.
  - contradiction.
  - intros self' ahora' u' fallos'.
    unfold Integradora.devolver_renta, mbind, op_bind, ejecutar_query. cbn [snd fst].
    rewrite (sql_rentas_por_id_devuelta _ _ id bd bd1 fila resto HR Hsel).
    destruct (Integradora.Renta_from_db_row (marcar_devuelto _ _ fila)) as [renta'|] eqn:Hrow.
    + exists (Integradora.EstadoNoDevolvible "Devuelto").
      unfold Integradora.Renta_from_db_row in Hrow.
      repeat match type of Hrow with (if ?c then _ else _) = _ =>
                                       destruct c; [discriminate|] end.
      injection Hrow as <-. cbn [estado_renta marcar_devuelto Estado_Renta].
      split; [reflexivity|]. left. reflexivity.
    + exists Integradora.ErrorInesperado. split; [reflexivity|]. right. reflexivity.
Qed.

Lemma Integradora_segunda_devolucion_rechazada_witness :
  ∃ mensaje,
    Integradora.devolver_renta (mkRentaController (pesos 80)) (timedelta 9) 1 2
      ([true],
       snd (snd (Integradora.devolver_renta (mkRentaController (pesos 50)) (timedelta 5) 1 1
                   ([], bd_B))))
    = ((false, mensaje, None),
       ([true],
        snd (snd (Integradora.devolver_renta (mkRentaController (pesos 50)) (timedelta 5) 1 1
                    ([], bd_B))))) ∧
    (mensaje = Integradora.EstadoNoDevolvible "Devuelto" ∨
     mensaje = Integradora.ErrorInesperado).
Proof.
  apply (Integradora_segunda_devolucion_rechazada
           (mkRentaController (pesos 50)) (timedelta 5) 1 1 [] bd_B
           Integradora.RentaDevuelta
           (snd (fst (Integradora.devolver_renta (mkRentaController (pesos 50)) (timedelta 5)
                        1 1 ([], bd_B))))
           (snd (Integradora.devolver_renta (mkRentaController (pesos 50)) (timedelta 5) 1 1
                   ([], bd_B)))).
  - vm_compute. reflexivity.
  - vm_compute. discriminate.
Defined.

Lemma Controllers_devolver_stock_con_RENTAS detalles rs fallos bd :
  Controllers.devolver_stock detalles (fallos, con_RENTAS rs bd)
  = ((), (fst (snd (Controllers.devolver_stock detalles (fallos, bd))),
          con_RENTAS rs (snd (snd (Controllers.devolver_stock detalles (fallos, bd)))))).
Proof.
  revert fallos bd. induction detalles as [|[codigo cantidad] resto IH]; intros fallos bd;
    [reflexivity|].
  cbn [Controllers.devolver_stock]. unfold mbind, op_bind, ejecutar_update.
  rewrite !siguiente_cursor_execute.
  destruct (fst (siguiente fallos)); cbn [fst snd]; [apply IH|].
  rewrite <- IH. f_equal. f_equal.
  unfold sql_sumar_disponible. cbn [INVENTARIO con_RENTAS].
  destruct (INVENTARIO bd !! codigo); reflexivity.
Qed.

Lemma Controllers_renta_marcada t ahora fila :
  esta_devuelta (Controllers.Renta_from_db_row
                   (if debe_vencer t fila then con_Estado_Renta "Vencida" fila else fila))
  = esta_devuelta (Controllers.Renta_from_db_row fila) ∧
  negb (esta_activa (Controllers.Renta_from_db_row
                       (if debe_vencer t fila then con_Estado_Renta "Vencida" fila else fila)))
  && negb (esta_vencida (Controllers.Renta_from_db_row
                           (if debe_vencer t fila then con_Estado_Renta "Vencida" fila
                            else fila)))
  = negb (esta_activa (Controllers.Renta_from_db_row fila))
    && negb (esta_vencida (Controllers.Renta_from_db_row fila)) ∧
  (negb (esta_activa (Controllers.Renta_from_db_row fila))
   && negb (esta_vencida (Controllers.Renta_from_db_row fila)) = true →
   estado_renta (Controllers.Renta_from_db_row
                   (if debe_vencer t fila then con_Estado_Renta "Vencida" fila else fila))
   = estado_renta (Controllers.Renta_from_db_row fila)) ∧
  Controllers.dias_de_retraso ahora
    (Controllers.Renta_from_db_row
       (if debe_vencer t fila then con_Estado_Renta "Vencida" fila else fila))
  = Controllers.dias_de_retraso ahora (Controllers.Renta_from_db_row fila) ∧
  total (Controllers.Renta_from_db_row
           (if debe_vencer t fila then con_Estado_Renta "Vencida" fila else fila))
  = total (Controllers.Renta_from_db_row fila) ∧
  deposito (Controllers.Renta_from_db_row
              (if debe_vencer t fila then con_Estado_Renta "Vencida" fila else fila))
  = deposito (Controllers.Renta_from_db_row fila).
Proof.
  destruct (debe_vencer t fila) eqn:Hv; [|repeat split].
  apply debe_vencer_vence in Hv as [Hact _].
  unfold Controllers.dias_de_retraso, esta_devuelta, esta_activa, esta_vencida.
  cbn [Controllers.Renta_from_db_row estado_renta con_Estado_Renta Estado_Renta
       fecha_devuelto fecha_devolucion total deposito Fecha_Devuelto Fecha_Devolucion
       Total Deposito].
  rewrite Hact. repeat split. intros H. discriminate H.
Qed.

Lemma sql_detalles_de_con_RENTAS id rs bd :
  sql_detalles_de id (con_RENTAS rs bd) = sql_detalles_de id bd.
Proof. reflexivity. Qed.

(** First copy: running the sweep first changes nothing about a return.
    [devolver_renta] answers the same (same flag, same message, same
    settlement) and leaves the same inventory, whether or not
    [marcar_rentas_vencidas] ran just before it, at whatever time. *)
Theorem Controllers_barrido_no_cambia_devolucion t fallos0 self ahora id u fallos bd :
  let marcada := snd (snd (Controllers.marcar_rentas_vencidas t (fallos0, bd))) in
  fst (Controllers.devolver_renta self ahora id u (fallos, marcada))
  = fst (Controllers.devolver_renta self ahora id u (fallos, bd)) ∧
  INVENTARIO (snd (snd (Controllers.devolver_renta self ahora id u (fallos, marcada))))
  = INVENTARIO (snd (snd (Controllers.devolver_renta self ahora id u (fallos, bd)))).
Proof.
  cbv zeta.
  assert (Hm : snd (snd (Controllers.marcar_rentas_vencidas t (fallos0, bd))) = bd ∨
               snd (snd (Controllers.marcar_rentas_vencidas t (fallos0, bd)))
               = con_RENTAS ((λ r, if debe_vencer t r then con_Estado_Renta "Vencida" r else r)
                             <$> RENTAS bd) bd).
  { unfold Controllers.marcar_rentas_vencidas, mbind, op_bind, ejecutar_update.
    rewrite siguiente_cursor_execute.
    destruct (fst (siguiente fallos0)); cbn [fst snd]; [left; reflexivity|].
    right. destruct (0 <? _); reflexivity. }
  destruct Hm as [-> | ->]; [split; reflexivity|].
  unfold Controllers.devolver_renta, mbind, op_bind, ejecutar_query. cbn [snd fst].
  unfold Controllers.buscar_por_id, sql_rentas_por_id. cbn [RENTAS con_RENTAS].
  rewrite sql_rentas_por_id_fmap by (intros r; destruct (debe_vencer t r); reflexivity).
  destruct (filter (λ r, Id_Renta r = id) (RENTAS bd)) as [|fila resto];
    [split; reflexivity|].
  rewrite fmap_cons.
  destruct (Controllers_renta_marcada t ahora fila) as (H1 & H2 & H3 & H4 & H5 & H6).
  rewrite H1. destruct (esta_devuelta (Controllers.Renta_from_db_row fila));
    [split; reflexivity|].
  rewrite H2.
  destruct (negb (esta_activa (Controllers.Renta_from_db_row fila))
            && negb (esta_vencida (Controllers.Renta_from_db_row fila))) eqn:E.
  - rewrite (H3 eq_refl). split; reflexivity.
  - unfold Controllers.calcular_penalizacion, deposito_a_devolver. rewrite H4, H5, H6.
    cbn beta. cbn [fst snd]. rewrite sql_detalles_de_con_RENTAS.
    destruct (sql_detalles_de id bd) as [|d ds]; [split; reflexivity|].
    rewrite Controllers_devolver_stock_con_RENTAS.
    destruct (Controllers.devolver_stock (d :: ds) (fallos, bd)) as [[] [fallos1 bd1]].
    cbn [fst snd]. unfold ejecutar_update. rewrite !siguiente_cursor_execute.
    destruct (fst (siguiente fallos1)); cbn [fst snd]; split; reflexivity.
Qed.

Lemma conteo_tras_barrido ahora (l : list FilaRenta) :
  (length (filter (λ r, Estado_Renta r ∈ ["Activa"])
             ((λ r, if debe_vencer ahora r then con_Estado_Renta "Vencida" r else r) <$> l))
   + length (filter (λ r, debe_vencer ahora r = true) l))%nat
  = length (filter (λ r, Estado_Renta r ∈ ["Activa"]) l).
Proof.
  induction l as [|r l IH]; [reflexivity|].
  rewrite fmap_cons, !filter_cons.
  destruct (debe_vencer ahora r) eqn:E.
  - pose proof E as Ev. apply debe_vencer_vence in Ev as [Hact _].
    rewrite (decide_True (P := true = true)) by reflexivity.
    rewrite (decide_True (P := Estado_Renta r ∈ ["Activa"]))
      by (rewrite Hact; left).
    rewrite (decide_False (P := Estado_Renta (con_Estado_Renta "Vencida" r) ∈ ["Activa"]))
      by (cbn [con_Estado_Renta Estado_Renta]; intros H;
          apply list_elem_of_singleton in H; discriminate).
    cbn [length]. lia.
  - rewrite (decide_False (P := false = true)) by discriminate.
    destruct (decide (Estado_Renta r ∈ ["Activa"])); cbn [length]; lia.
Qed.

Lemma Controllers_barrido_y_conteo_de ahora fallos bd :
  let r := Controllers.marcar_rentas_vencidas ahora (fallos, bd) in
  Controllers.contar_rentas_activas (snd (snd r))
  = Controllers.contar_rentas_activas bd - fst r ∧
  (fst (siguiente fallos) = false →
   fst r = Z.of_nat (length (filter (λ fila, Controllers.debe_marcarse_vencida ahora
                                              (Controllers.Renta_from_db_row fila) = true)
                                    (RENTAS bd))) ∧
   ∀ fila, fila ∈ RENTAS (snd (snd r)) → Estado_Renta fila = "Activa" →
           ahora ≤ Fecha_Devolucion fila).
Proof.
  cbv zeta. unfold Controllers.marcar_rentas_vencidas, mbind, op_bind, ejecutar_update.
  rewrite siguiente_cursor_execute.
  destruct (fst (siguiente fallos)); cbn [fst snd].
  - split; [unfold mret, op_ret; cbn [fst snd]; lia|discriminate].
  - assert (Hn : fst (((if 0 <? snd (sql_marcar_vencidas ahora bd)
                        then mret (snd (sql_marcar_vencidas ahora bd)) else mret 0) : Op Z)
                        (snd (siguiente fallos), fst (sql_marcar_vencidas ahora bd)))
                 = snd (sql_marcar_vencidas ahora bd) ∧
                 snd (snd (((if 0 <? snd (sql_marcar_vencidas ahora bd)
                        then mret (snd (sql_marcar_vencidas ahora bd)) else mret 0) : Op Z)
                        (snd (siguiente fallos), fst (sql_marcar_vencidas ahora bd))))
                 = fst (sql_marcar_vencidas ahora bd)).
    { unfold sql_marcar_vencidas. cbn [fst snd].
      destruct (0 <? _) eqn:E; unfold mret, op_ret; cbn [fst snd];
        (split; [|reflexivity]); [reflexivity|].
      apply Z.ltb_ge in E. lia. }
    destruct Hn as [-> ->].
    unfold Controllers.contar_rentas_activas, sql_contar_rentas_en, sql_marcar_vencidas.
    cbn [fst snd RENTAS con_RENTAS].
    split; [rewrite <- (conteo_tras_barrido ahora (RENTAS bd)); lia|].
    intros _. split; [reflexivity|].
    intros fila Hin Hact. apply list_elem_of_fmap in Hin as (r0 & -> & _).
    destruct (debe_vencer ahora r0) eqn:E; [discriminate|].
    unfold debe_vencer in E. rewrite Hact in E. cbn in E.
    apply Z.ltb_ge in E. exact E.
Qed.

(** First copy: the sweep and the count of active rentals.
    [marcar_rentas_vencidas] answers the number of rentals it flagged, which
    is the number of rentals for which [Renta.debe_marcarse_vencida] holds;
    [contar_rentas_activas] goes down by exactly that number; and when the
    statement went through, no rental left 'Activa' is past its due
    date. *)
Theorem Controllers_barrido_y_conteo ahora fallos bd :
  let r := Controllers.marcar_rentas_vencidas ahora (fallos, bd) in
  Controllers.contar_rentas_activas (snd (snd r))
  = Controllers.contar_rentas_activas bd - fst r ∧
  let r' := Controllers.marcar_rentas_vencidas ahora (false :: fallos, bd) in
  fst r' = Z.of_nat (length (filter (λ fila, Controllers.debe_marcarse_vencida ahora
                                              (Controllers.Renta_from_db_row fila) = true)
                                    (RENTAS bd))) ∧
  ∀ fila, fila ∈ RENTAS (snd (snd r')) → Estado_Renta fila = "Activa" →
          ahora ≤ Fecha_Devolucion fila.
Proof.
  cbv zeta. split.
  - apply (Controllers_barrido_y_conteo_de ahora fallos bd).
  - apply (Controllers_barrido_y_conteo_de ahora (false :: fallos) bd). reflexivity.
Qed.

Lemma conteo_abiertas_tras_barrido ahora (l : list FilaRenta) :
  length (filter (λ r, Estado_Renta r ∈ ["Activa"; "Vencida"])
            ((λ r, if debe_vencer ahora r then con_Estado_Renta "Vencida" r else r) <$> l))
  = length (filter (λ r, Estado_Renta r ∈ ["Activa"; "Vencida"]) l).
Proof.
  induction l as [|r l IH]; [reflexivity|].
  rewrite fmap_cons, !filter_cons.
  destruct (debe_vencer ahora r) eqn:E.
  - apply debe_vencer_vence in E as [Hact _].
    rewrite (decide_True
               (P := Estado_Renta (con_Estado_Renta "Vencida" r) ∈ ["Activa"; "Vencida"]))
      by (cbn [con_Estado_Renta Estado_Renta]; right; left).
    rewrite (decide_True (P := Estado_Renta r ∈ ["Activa"; "Vencida"]))
      by (rewrite Hact; left).
    cbn [length]. rewrite IH. reflexivity.
  - destruct (decide (Estado_Renta r ∈ ["Activa"; "Vencida"])); cbn [length];
      rewrite IH; reflexivity.
Qed.

(** Second copy: its [contar_rentas_activas] counts the rentals that are
    out ('Activa' or 'Vencida'), so [marcar_rentas_vencidas] never changes
    it, whether its statement goes through or not. *)
Theorem Integradora_barrido_conserva_conteo ahora fallos bd :
  Integradora.contar_rentas_activas
    (snd (snd (Integradora.marcar_rentas_vencidas ahora (fallos, bd))))
  = Integradora.contar_rentas_activas bd.
Proof.
  unfold Integradora.marcar_rentas_vencidas, mbind, op_bind, ejecutar_update.
  rewrite siguiente_cursor_execute.
  destruct (fst (siguiente fallos)); cbn [fst snd]; [reflexivity|].
  assert (Hs : ∀ (n : Z) s, snd ((if n =? 0 then mret 0 else mret n : Op Z) s) = s)
    by (intros n s; destruct (n =? 0); reflexivity).
  rewrite Hs. cbn [snd].
  unfold Integradora.contar_rentas_activas, sql_contar_rentas_en, sql_marcar_vencidas.
  cbn [fst RENTAS con_RENTAS]. rewrite conteo_abiertas_tras_barrido. reflexivity.
Qed.

(** *** The penalty rate *)

(** First copy: what [actualizar_penalizacion_dia] answers. It answers True
    exactly when the amount is not negative, the statement does not fail
    and CONFIGURACION has a PENALIZACION_DIA row holding another value: with
    no row, or with the value already stored, it answers False. When it
    answers False, the store and the controller are as before; when it
    answers True, a controller created afterwards loads the new amount. *)
Theorem Controllers_actualizar_penalizacion_exacto self monto fallos bd :
  let r := Controllers.actualizar_penalizacion_dia self monto (fallos, bd) in
  (fst (fst (fst r)) = true ↔
   0 ≤ monto ∧ fst (siguiente fallos) = false ∧
   ∃ v, CONFIGURACION bd !! "PENALIZACION_DIA" = Some v ∧ v ≠ monto) ∧
  (fst (fst (fst r)) = false → snd (snd r) = bd ∧ snd (fst r) = self) ∧
  (fst (fst (fst r)) = true →
   Controllers.nuevo_controlador (snd (snd r)) = mkRentaController monto ∧
   snd (fst r) = mkRentaController monto).
Proof.
  cbv zeta. unfold Controllers.actualizar_penalizacion_dia.
  destruct (monto <? 0) eqn:Hneg.
  { apply Z.ltb_lt in Hneg. unfold mret, op_ret. cbn [fst snd].
    split; [split; [discriminate|intros (H & _); lia]|].
    split; [intros _; split; reflexivity|discriminate]. }
  apply Z.ltb_ge in Hneg.
  unfold mbind, op_bind, ejecutar_update. rewrite siguiente_cursor_execute.
  destruct (fst (siguiente fallos)); cbn [fst snd filas_positivas].
  { unfold mret, op_ret. cbn [fst snd].
    split; [split; [discriminate|intros (_ & H & _); discriminate]|].
    split; [intros _; split; reflexivity|discriminate]. }
  unfold sql_fijar_config.
  destruct (CONFIGURACION bd !! "PENALIZACION_DIA") as [v0|] eqn:Hc; cbn [fst snd].
  - destruct (v0 =? monto) eqn:Hv; cbn [Z.ltb Z.compare]; unfold mret, op_ret; cbn [fst snd].
    + apply Z.eqb_eq in Hv. subst v0.
      split; [split; [discriminate|intros (_ & _ & v & [= <-] & Hne); contradiction]|].
      split; [|discriminate]. intros _. split; [|reflexivity].
      rewrite insert_id by exact Hc. destruct bd; reflexivity.
    + apply Z.eqb_neq in Hv.
      split; [split; [intros _; repeat split; [exact Hneg|exists v0; split; [reflexivity|exact Hv]]
                     |reflexivity]|].
      split; [discriminate|]. intros _. split; [|reflexivity].
      unfold Controllers.nuevo_controlador, Controllers._cargar_penalizacion_dia.
      cbn [CONFIGURACION con_CONFIGURACION]. rewrite lookup_insert_eq. reflexivity.
  - cbn [Z.ltb Z.compare]. unfold mret, op_ret. cbn [fst snd].
    split; [split; [discriminate|intros (_ & _ & v & Hv & _); discriminate]|].
    split; [intros _; split; reflexivity|discriminate].
Qed.

(** Second copy: [actualizar_penalizacion_dia] with an amount that is not
    negative always answers True and hands the amount to the controller.
    When its statement goes through, the amount is stored whether
    CONFIGURACION had a PENALIZACIONDIA row or not, and a controller created
    afterwards loads it; when its statement fails, the answer is still True
    and the store is as before. *)
Theorem Integradora_actualizar_penalizacion_guarda self monto fallos bd :
  0 ≤ monto →
  let r := Integradora.actualizar_penalizacion_dia self monto (fallos, bd) in
  fst r = (true, Integradora.PenalizacionActualizada monto, mkRentaController monto) ∧
  (fst (siguiente fallos) = false →
   Integradora.nuevo_controlador (snd (snd r)) = mkRentaController monto) ∧
  (fst (siguiente fallos) = true → snd (snd r) = bd).
Proof.
  intros Hmonto. cbv zeta. unfold Integradora.actualizar_penalizacion_dia.
  destruct (monto <? 0) eqn:Hneg; [apply Z.ltb_lt in Hneg; lia|].
  unfold mbind, op_bind, ejecutar_query, ejecutar_update, ejecutar_insert. cbn [fst snd].
  unfold Integradora.nuevo_controlador, Integradora._cargar_penalizacion_config.
  destruct (CONFIGURACION bd !! "PENALIZACIONDIA") as [v0|] eqn:Hc;
    rewrite siguiente_cursor_execute;
    destruct (fst (siguiente fallos)); cbn [fst snd]; unfold mret, op_ret; cbn [fst snd];
    (split; [reflexivity|]); (split; [|try discriminate; reflexivity]);
    try discriminate; intros _.
  - unfold sql_fijar_config. rewrite Hc. cbn [fst CONFIGURACION con_CONFIGURACION].
    rewrite lookup_insert_eq. reflexivity.
  - unfold sql_insertar_config. cbn [CONFIGURACION con_CONFIGURACION].
    rewrite lookup_insert_eq. reflexivity.
Qed.

Lemma Integradora_actualizar_penalizacion_guarda_witness :
  fst (Integradora.actualizar_penalizacion_dia (mkRentaController (pesos 50)) (pesos 75)
         ([], bd_A))
  = (true, Integradora.PenalizacionActualizada (pesos 75), mkRentaController (pesos 75)) ∧
  (fst (siguiente []) = false →
   Integradora.nuevo_controlador
     (snd (snd (Integradora.actualizar_penalizacion_dia (mkRentaController (pesos 50))
                  (pesos 75) ([], bd_A))))
   = mkRentaController (pesos 75)) ∧
  (fst (siguiente []) = true →
   snd (snd (Integradora.actualizar_penalizacion_dia (mkRentaController (pesos 50))
               (pesos 75) ([], bd_A)))
   = bd_A).
Proof.
  apply (Integradora_actualizar_penalizacion_guarda (mkRentaController (pesos 50)) (pesos 75)
           [] bd_A).
  unfold pesos. lia.
Defined.

(** *** The catalogue *)

(** First copy: [eliminar_disfraz] never removes a row. When it answers
    True the item is still in INVENTARIO with its prices, Stock and
    Disponible, now 'Inactivo'; from then on [verificar_disponibilidad] and
    [descontar_stock] refuse it for every quantity, and a second
    [eliminar_disfraz] answers False and changes nothing. *)
Theorem Controllers_eliminar_disfraz_baja_logica codigo fallos bd m s1 :
  Controllers.eliminar_disfraz codigo (fallos, bd) = ((true, m), s1) →
  ∃ f,
    INVENTARIO bd !! codigo = Some f ∧
    snd s1 = con_INVENTARIO (<[codigo := con_Estado "Inactivo" f]> (INVENTARIO bd)) bd ∧
    (∀ cantidad,
       Controllers.verificar_disponibilidad (snd s1) codigo cantidad
       = (false, Controllers.DisfrazInactivo codigo, 0)) ∧
    (∀ cantidad fallos',
       Controllers.descontar_stock codigo cantidad (fallos', snd s1)
       = ((false, Controllers.DisfrazInactivo codigo), (fallos', snd s1))) ∧
    (∀ fallos',
       Controllers.eliminar_disfraz codigo (fallos', snd s1)
       = ((false, Controllers.NoSePudoEliminar), (snd (siguiente fallos'), snd s1))).
Proof.
  unfold Controllers.eliminar_disfraz at 1.
  unfold mbind, op_bind, ejecutar_query, ejecutar_update. cbn [fst snd].
  unfold Controllers.existe_codigo.
  destruct (INVENTARIO bd !! codigo) as [f|] eqn:Hf; cbn [negb];
    [|unfold mret, op_ret; discriminate].
  rewrite siguiente_cursor_execute.
  destruct (fst (siguiente fallos)); cbn [fst snd filas_positivas];
    [unfold mret, op_ret; discriminate|].
  unfold sql_inactivar. rewrite Hf. cbn [fst snd].
  destruct (0 <? _); unfold mret, op_ret; [|discriminate].
  intros [= <- <-]. cbn [snd]. exists f. split; [reflexivity|]. split; [reflexivity|].
  assert (Hv : ∀ cantidad,
             Controllers.verificar_disponibilidad
               (con_INVENTARIO (<[codigo := con_Estado "Inactivo" f]> (INVENTARIO bd)) bd)
               codigo cantidad
             = (false, Controllers.DisfrazInactivo codigo, 0)).
  { intros cantidad.
    unfold Controllers.verificar_disponibilidad, Controllers.buscar_por_codigo.
    cbn [INVENTARIO con_INVENTARIO]. rewrite lookup_insert_eq. reflexivity. }
  split; [exact Hv|]. split.
  - intros cantidad fallos'.
    unfold Controllers.descontar_stock, mbind, op_bind, ejecutar_query. cbn [fst snd].
    rewrite Hv. reflexivity.
  - intros fallos'.
    unfold Controllers.eliminar_disfraz, mbind, op_bind, ejecutar_query, ejecutar_update.
    cbn [fst snd]. unfold Controllers.existe_codigo.
    cbn [INVENTARIO con_INVENTARIO]. rewrite lookup_insert_eq. cbn [negb].
    rewrite siguiente_cursor_execute.
    destruct (fst (siguiente fallos')); cbn [fst snd filas_positivas]; [reflexivity|].
    unfold sql_inactivar. cbn [INVENTARIO con_INVENTARIO]. rewrite lookup_insert_eq.
    cbn [fst snd]. unfold filas_cambiadas.
    rewrite decide_True by reflexivity. cbn [Z.ltb Z.compare].
    unfold mret, op_ret. f_equal. f_equal.
    unfold con_INVENTARIO. cbn [INVENTARIO RENTAS DETALLE_RENTAS CONFIGURACION CLIENTES
                                USUARIOS auto_increment].
    rewrite insert_insert_eq. reflexivity.
Qed.

Lemma Controllers_eliminar_disfraz_baja_logica_witness :
  ∃ f,
    INVENTARIO bd_A !! "X" = Some f ∧
    snd (snd (Controllers.eliminar_disfraz "X" ([], bd_A)))
    = con_INVENTARIO (<["X" := con_Estado "Inactivo" f]> (INVENTARIO bd_A)) bd_A ∧
    (∀ cantidad,
       Controllers.verificar_disponibilidad
         (snd (snd (Controllers.eliminar_disfraz "X" ([], bd_A)))) "X" cantidad
       = (false, Controllers.DisfrazInactivo "X", 0)) ∧
    (∀ cantidad fallos',
       Controllers.descontar_stock "X" cantidad
         (fallos', snd (snd (Controllers.eliminar_disfraz "X" ([], bd_A))))
       = ((false, Controllers.DisfrazInactivo "X"),
          (fallos', snd (snd (Controllers.eliminar_disfraz "X" ([], bd_A)))))) ∧
    (∀ fallos',
       Controllers.eliminar_disfraz "X"
         (fallos', snd (snd (Controllers.eliminar_disfraz "X" ([], bd_A))))
       = ((false, Controllers.NoSePudoEliminar),
          (snd (siguiente fallos'), snd (snd (Controllers.eliminar_disfraz "X" ([], bd_A)))))).
Proof.
  apply (Controllers_eliminar_disfraz_baja_logica "X" [] bd_A Controllers.DisfrazEliminado
           (snd (Controllers.eliminar_disfraz "X" ([], bd_A)))).
  vm_compute. reflexivity.
Defined.

Lemma sin_lineas_de codigo (l : list FilaDetalle) :
  (0 <? Z.of_nat (length (filter (λ d, det_Codigo_Barras d = codigo) l))) = false →
  ∀ d, d ∈ l → det_Codigo_Barras d ≠ codigo.
Proof.
  intros Hn d Hd Hc. apply Z.ltb_ge in Hn.
  assert (Hin : d ∈ filter (λ d, det_Codigo_Barras d = codigo) l)
    by (apply list_elem_of_filter; split; assumption).
  destruct (filter (λ d, det_Codigo_Barras d = codigo) l); [inversion Hin|].
  cbn [length] in Hn. lia.
Qed.

(** Second copy: [eliminar_disfraz] keeps the rental lines pointing at the
    inventory. If every line of DETALLE_RENTAS names an item of INVENTARIO
    before the call, it does so after it, whatever the code and whichever
    statement fails: an item named by a line is at most made 'Inactivo',
    with its Stock and Disponible kept, and only an item that no line
    names is deleted. *)
Theorem Integradora_eliminar_disfraz_integridad DETALLE_VENTAS codigo fallos bd :
  referencias_validas bd →
  let bd' := snd (snd (Integradora.eliminar_disfraz DETALLE_VENTAS codigo (fallos, bd))) in
  referencias_validas bd' ∧
  RENTAS bd' = RENTAS bd ∧
  DETALLE_RENTAS bd' = DETALLE_RENTAS bd ∧
  (∀ c, c ≠ codigo → INVENTARIO bd' !! c = INVENTARIO bd !! c) ∧
  (∀ d, d ∈ DETALLE_RENTAS bd → det_Codigo_Barras d = codigo →
        ∃ f f', INVENTARIO bd !! codigo = Some f ∧ INVENTARIO bd' !! codigo = Some f' ∧
                Stock f' = Stock f ∧ Disponible f' = Disponible f).
Proof.
  intros Href. cbv zeta.
  unfold Integradora.eliminar_disfraz, mbind, op_bind, ejecutar_query. cbn [fst snd].
  assert (Hmismo : ∀ d, d ∈ DETALLE_RENTAS bd → det_Codigo_Barras d = codigo →
            ∃ f f', INVENTARIO bd !! codigo = Some f ∧ INVENTARIO bd !! codigo = Some f' ∧
                    Stock f' = Stock f ∧ Disponible f' = Disponible f).
  { intros d Hd Hc. destruct (Href d Hd) as [f Hf]. rewrite Hc in Hf.
    exists f, f. repeat split; assumption. }
  destruct (Integradora.buscar_por_codigo bd codigo) as [disfraz|] eqn:Hb;
    [|unfold mret, op_ret; cbn [snd]; repeat split; assumption].
  cbn [fst snd].
  destruct (Integradora._disfraz_tiene_movimiento DETALLE_VENTAS bd codigo) eqn:Hmov.
  - unfold Integradora._cambiar_a_inactivo, mbind, op_bind, ejecutar_query, ejecutar_update.
    cbn [fst snd]. rewrite Hb. rewrite siguiente_cursor_execute.
    destruct (fst (siguiente fallos)); cbn [fst snd filas_positivas];
      [unfold mret, op_ret; cbn [snd]; repeat split; assumption|].
    unfold sql_inactivar.
    destruct (INVENTARIO bd !! codigo) as [f|] eqn:Hf; cbn [fst snd];
      [|destruct (0 <? 0); unfold mret, op_ret; cbn [snd]; repeat split;
        try assumption; intros d Hd Hc; destruct (Href d Hd) as [f Hf'];
        rewrite Hc, Hf in Hf'; discriminate].
    assert (Hs : ∀ (b : bool) s,
               snd ((if b then mret (true, Integradora.MarcadoInactivo codigo)
                     else mret (false, Integradora.NoSePudoCambiarEstado)
                     : Op (bool * Integradora.MensajeCatalogo)) s) = s)
      by (intros [] s0; reflexivity).
    rewrite Hs. cbn [snd INVENTARIO RENTAS DETALLE_RENTAS con_INVENTARIO].
    split; [|split; [reflexivity|split; [reflexivity|split]]].
    + intros d Hd. cbn [INVENTARIO DETALLE_RENTAS con_INVENTARIO] in Hd |- *.
      destruct (decide (det_Codigo_Barras d = codigo)) as [->|Hne].
      * rewrite lookup_insert_eq. eexists; reflexivity.
      * rewrite lookup_insert_ne by congruence. apply Href, Hd.
    + intros c Hc. apply lookup_insert_ne. congruence.
    + intros d Hd Hc. exists f, (con_Estado "Inactivo" f).
      rewrite lookup_insert_eq. repeat split.
  - unfold Integradora._disfraz_tiene_movimiento in Hmov.
    apply orb_false_iff in Hmov as [Hrentas _].
    pose proof (sin_lineas_de codigo (DETALLE_RENTAS bd) Hrentas) as Hsin.
    unfold Integradora._eliminar_disfraz_fisico, mbind, op_bind, ejecutar_update.
    rewrite siguiente_cursor_execute.
    destruct (fst (siguiente fallos)); cbn [fst snd filas_positivas];
      [unfold mret, op_ret; cbn [snd]; repeat split; assumption|].
    unfold sql_eliminar_inventario.
    destruct (INVENTARIO bd !! codigo) as [f|] eqn:Hf; cbn [fst snd].
    + cbn [Z.ltb Z.compare]. unfold mret, op_ret.
      cbn [snd INVENTARIO RENTAS DETALLE_RENTAS con_INVENTARIO].
      split; [|split; [reflexivity|split; [reflexivity|split]]].
      * intros d Hd. cbn [INVENTARIO DETALLE_RENTAS con_INVENTARIO] in Hd |- *.
        rewrite lookup_delete_ne by (intros Hc; apply (Hsin d Hd); congruence).
        apply Href, Hd.
      * intros c Hc. apply lookup_delete_ne. congruence.
      * intros d Hd Hc. exfalso. apply (Hsin d Hd Hc).
    + cbn [Z.ltb Z.compare]. unfold mret, op_ret. cbn [snd].
      repeat split; try assumption.
      intros d Hd Hc. exfalso. apply (Hsin d Hd Hc).
Qed.

Lemma referencias_validas_bd_B : referencias_validas bd_B.
Proof.
  intros d Hd. apply list_elem_of_singleton in Hd. subst d.
  eexists. vm_compute. reflexivity.
Qed.

Lemma Integradora_eliminar_disfraz_integridad_witness :
  let bd' := snd (snd (Integradora.eliminar_disfraz [] "X" ([], bd_B))) in
  referencias_validas bd' ∧
  RENTAS bd' = RENTAS bd_B ∧
  DETALLE_RENTAS bd' = DETALLE_RENTAS bd_B ∧
  (∀ c, c ≠ "X" → INVENTARIO bd' !! c = INVENTARIO bd_B !! c) ∧
  (∀ d, d ∈ DETALLE_RENTAS bd_B → det_Codigo_Barras d = "X" →
        ∃ f f', INVENTARIO bd_B !! "X" = Some f ∧ INVENTARIO bd' !! "X" = Some f' ∧
                Stock f' = Stock f ∧ Disponible f' = Disponible f).
Proof.
  apply (Integradora_eliminar_disfraz_integridad [] "X" [] bd_B).
  exact referencias_validas_bd_B.
Defined.

(** Second copy: what a successful [editar_disfraz] of prices and stock has
    checked and written. The item exists; a price that is given is
    positive; a stock that is given is not negative and not below the
    units out on rent (Stock - Disponible); the row is rewritten with the
    given columns only, Disponible and Estado as they were, and differs
    from the old one; no other row or table changes. *)
Theorem Integradora_editar_disfraz_exito codigo pv pr ns fallos bd m s1 :
  Integradora.editar_disfraz codigo pv pr ns (fallos, bd) = ((true, m), s1) →
  ∃ f,
    INVENTARIO bd !! codigo = Some f ∧
    (∀ v, pv = Some v → 0 < v) ∧
    (∀ v, pr = Some v → 0 < v) ∧
    (∀ n, ns = Some n → 0 ≤ n ∧ Stock f - Disponible f ≤ n) ∧
    editar_fila pv pr ns f ≠ f ∧
    snd s1 = con_INVENTARIO (<[codigo := editar_fila pv pr ns f]> (INVENTARIO bd)) bd.
Proof.
  unfold Integradora.editar_disfraz, mbind, op_bind, ejecutar_query. cbn [fst snd].
  destruct (Integradora.buscar_por_codigo bd codigo) as [d|] eqn:Hb;
    [|unfold mret, op_ret; discriminate].
  destruct (buscar_por_codigo_Some _ _ _ Hb) as (f & Hf & Hst & Hdi & _).
  destruct (match pv with Some v => v <=? 0 | None => false end) eqn:Hpv;
    [unfold mret, op_ret; discriminate|].
  destruct (match pr with Some v => v <=? 0 | None => false end) eqn:Hpr;
    [unfold mret, op_ret; discriminate|].
  destruct (match ns with Some n => n <? 0 | None => false end) eqn:Hn0;
    [unfold mret, op_ret; discriminate|].
  destruct (match ns with Some n => n <? stock d - disponible d | None => false end) eqn:Hnr;
    [unfold mret, op_ret; discriminate|].
  intros H.
  assert (H' : (let '(x, s') :=
                  ejecutar_update (sql_editar_inventario pv pr ns codigo) (fallos, bd) in
                (if filas_positivas x then mret (true, Integradora.DisfrazActualizado)
                 else mret (false, Integradora.SinCambios)
                 : Op (bool * Integradora.MensajeCatalogo)) s')
               = ((true, m), s1)).
  { destruct pv, pr, ns; try exact H. unfold mret, op_ret in H. discriminate. }
  clear H. unfold ejecutar_update in H'. rewrite siguiente_cursor_execute in H'.
  destruct (fst (siguiente fallos)); cbn [fst snd filas_positivas] in H';
    [unfold mret, op_ret in H'; discriminate|].
  unfold sql_editar_inventario in H'. rewrite Hf in H'. cbn [fst snd] in H'.
  unfold filas_cambiadas in H'.
  destruct (decide (f = editar_fila pv pr ns f)) as [Heq|Hne];
    cbn [Z.ltb Z.compare] in H'; unfold mret, op_ret in H'; [discriminate|].
  injection H' as <- <-. exists f. split; [exact Hf|].
  split; [intros v ->; apply Z.leb_gt in Hpv; exact Hpv|].
  split; [intros v ->; apply Z.leb_gt in Hpr; exact Hpr|].
  split; [intros n ->; apply Z.ltb_ge in Hn0, Hnr; rewrite Hst, Hdi in Hnr; lia|].
  split; [congruence|reflexivity].
Qed.

Lemma Integradora_editar_disfraz_exito_witness :
  ∃ f,
    INVENTARIO bd_B !! "X" = Some f ∧
    (∀ v, Some (pesos 900) = Some v → 0 < v) ∧
    (∀ v, (None : option Z) = Some v → 0 < v) ∧
    (∀ n, Some 12 = Some n → 0 ≤ n ∧ Stock f - Disponible f ≤ n) ∧
    editar_fila (Some (pesos 900)) None (Some 12) f ≠ f ∧
    snd (snd (Integradora.editar_disfraz "X" (Some (pesos 900)) None (Some 12) ([], bd_B)))
    = con_INVENTARIO
        (<["X" := editar_fila (Some (pesos 900)) None (Some 12) f]> (INVENTARIO bd_B)) bd_B.
Proof.
  apply (Integradora_editar_disfraz_exito "X" (Some (pesos 900)) None (Some 12) [] bd_B
           Integradora.DisfrazActualizado
           (snd (Integradora.editar_disfraz "X" (Some (pesos 900)) None (Some 12)
                   ([], bd_B)))).
  vm_compute. reflexivity.
Defined.

(** Second copy: [editar_disfraz] does not keep Disponible within Stock.
    For an item with 0 <= Disponible <= Stock, a new stock that is at
    least the units out on rent but below Disponible is accepted (the
    answer is True), and the row is left with Disponible above Stock: the
    statement writes Stock and leaves Disponible as it was. *)
Theorem Integradora_editar_disfraz_stock_bajo_disponible codigo n fallos bd f :
  INVENTARIO bd !! codigo = Some f →
  0 ≤ Precio_Venta f → 0 ≤ Precio_Renta f →
  0 ≤ Disponible f ≤ Stock f →
  Stock f - Disponible f ≤ n → 0 ≤ n < Disponible f →
  let r := Integradora.editar_disfraz codigo None None (Some n) (false :: fallos, bd) in
  fst r = (true, Integradora.DisfrazActualizado) ∧
  INVENTARIO (snd (snd r)) !! codigo
  = Some (mkFilaInventario (Precio_Venta f) (Precio_Renta f) n (Disponible f) (Estado f)) ∧
  ¬ invariante_stock (snd (snd r)).
Proof.
  intros Hf Hpv Hpr Hd Hrent Hn. cbv zeta.
  unfold Integradora.editar_disfraz, mbind, op_bind, ejecutar_query. cbn [fst snd].
  unfold Integradora.buscar_por_codigo, Integradora.Disfraz_from_db_row.
  rewrite Hf. cbn [option_bind mbind].
  destruct (Precio_Venta f <? 0) eqn:E1; [apply Z.ltb_lt in E1; lia|].
  destruct (Precio_Renta f <? 0) eqn:E2; [apply Z.ltb_lt in E2; lia|].
  destruct (Stock f <? 0) eqn:E3; [apply Z.ltb_lt in E3; lia|].
  destruct (Disponible f <? 0) eqn:E4; [apply Z.ltb_lt in E4; lia|].
  cbn [stock disponible].
  destruct (n <? 0) eqn:E5; [apply Z.ltb_lt in E5; lia|].
  destruct (n <? Stock f - Disponible f) eqn:E6; [apply Z.ltb_lt in E6; lia|].
  unfold ejecutar_update, cursor_execute. cbn [fst snd siguiente].
  unfold sql_editar_inventario. rewrite Hf. cbn [fst snd filas_positivas].
  unfold filas_cambiadas, editar_fila. cbn [from_option id].
  rewrite decide_False by (intros Heq; apply (f_equal Stock) in Heq; cbn [Stock] in Heq; lia).
  cbn [Z.ltb Z.compare]. unfold mret, op_ret. cbn [fst snd INVENTARIO con_INVENTARIO].
  split; [reflexivity|]. split; [apply lookup_insert_eq|].
  intros Hinv. specialize (Hinv codigo _ (lookup_insert_eq _ _ _)).
  cbn [Disponible Stock] in Hinv. lia.
Qed.

Lemma Integradora_editar_disfraz_stock_bajo_disponible_witness :
  let r := Integradora.editar_disfraz "X" None None (Some 3) ([false], bd_B) in
  fst r = (true, Integradora.DisfrazActualizado) ∧
  INVENTARIO (snd (snd r)) !! "X"
  = Some (mkFilaInventario (pesos 800) (pesos 150) 3 8 "Activo") ∧
  ¬ invariante_stock (snd (snd r)).
Proof.
  apply (Integradora_editar_disfraz_stock_bajo_disponible "X" 3 [] bd_B
           (mkFilaInventario (pesos 800) (pesos 150) 10 8 "Activo"));
    first [reflexivity | vm_compute; intuition discriminate].
Defined.

(** *** The models *)

(** Second copy: [cambiar_estado] of Disfraz and Renta. It answers True
    exactly when the new state differs from the current one and is one of
    ESTADOS_VALIDOS; then the object is in the new state, which is valid,
    the history has one more entry after the old ones, and
    [ultimo_cambio_estado] is that entry, from the old state to the new
    one. When it answers False the object is unchanged. *)
Theorem Integradora_cambiar_estado_historial validos ahora obj nuevo usuario motivo :
  let r := Integradora.cambiar_estado validos ahora obj nuevo usuario motivo in
  (fst r = true ↔ Integradora.aud_estado obj ≠ nuevo ∧ nuevo ∈ validos) ∧
  (fst r = false → snd r = obj) ∧
  (fst r = true →
   Integradora.aud_estado (snd r) = nuevo ∧
   Integradora.validar_estado validos (snd r) = true ∧
   Integradora.historial_estados (snd r)
   = Integradora.historial_estados obj
     ++ [Integradora.mkRegistroEstado ahora (Integradora.aud_estado obj) nuevo usuario motivo] ∧
   Integradora.ultimo_cambio_estado (snd r)
   = Some (Integradora.mkRegistroEstado ahora (Integradora.aud_estado obj) nuevo
             usuario motivo)).
Proof.
  cbv zeta. unfold Integradora.cambiar_estado.
  destruct (String.eqb (Integradora.aud_estado obj) nuevo) eqn:E; cbn [fst snd].
  { apply String.eqb_eq in E.
    split; [split; [discriminate|intros [H _]; contradiction]|].
    split; [reflexivity|discriminate]. }
  apply String.eqb_neq in E.
  destruct (bool_decide (nuevo ∈ validos)) eqn:B; cbn [negb fst snd].
  - apply bool_decide_eq_true in B.
    split; [split; [intros _; split; assumption|reflexivity]|].
    split; [discriminate|]. intros _.
    unfold Integradora.validar_estado, Integradora.ultimo_cambio_estado.
    cbn [Integradora.aud_estado Integradora.historial_estados].
    split; [reflexivity|]. split; [apply bool_decide_eq_true; exact B|].
    split; [reflexivity|]. apply last_snoc.
  - apply bool_decide_eq_false in B.
    split; [split; [discriminate|intros [_ H]; contradiction]|].
    split; [reflexivity|discriminate].
Qed.

(** Second copy: [verificar_disponibilidad] against [tiene_disponible] and
    [obtener_disponible]. The check answers True exactly when the item is
    found and active, the quantity is positive and [tiene_disponible]
    holds; the quantity it reports is [obtener_disponible], except for an
    inactive item, for which it reports 0. *)
Theorem Integradora_disponibilidad_coherente bd codigo cantidad :
  let r := Integradora.verificar_disponibilidad bd codigo cantidad in
  (fst (fst r) = true ↔
   (∃ d, Integradora.buscar_por_codigo bd codigo = Some d ∧ esta_activo d = true) ∧
   0 < cantidad ∧ Integradora.tiene_disponible bd codigo cantidad = true) ∧
  (snd r = Integradora.obtener_disponible bd codigo ∨
   (snd r = 0 ∧ ∃ d, Integradora.buscar_por_codigo bd codigo = Some d ∧ esta_activo d = false)).
Proof.
  cbv zeta.
  unfold Integradora.verificar_disponibilidad, Integradora.tiene_disponible,
    Integradora.obtener_disponible.
  destruct (Integradora.buscar_por_codigo bd codigo) as [d|]; cbn [fst snd].
  - destruct (esta_activo d) eqn:Ha; cbn [negb fst snd].
    + destruct (cantidad <=? 0) eqn:E0; cbn [fst snd].
      * apply Z.leb_le in E0.
        split; [split; [discriminate|intros (_ & H & _); lia]|left; reflexivity].
      * apply Z.leb_gt in E0.
        destruct (disponible d <? cantidad) eqn:E1; cbn [fst snd].
        -- apply Z.ltb_lt in E1.
           split; [split; [discriminate|intros (_ & _ & H); apply Z.leb_le in H; lia]
                  |left; reflexivity].
        -- apply Z.ltb_ge in E1.
           split; [|left; reflexivity].
           split; [intros _|reflexivity].
           split; [exists d; split; [reflexivity|exact Ha]|].
           split; [exact E0|apply Z.leb_le; exact E1].
    + split; [split; [discriminate|intros ((d' & [= <-] & Hd') & _); congruence]|].
      right. split; [reflexivity|]. exists d. split; [reflexivity|exact Ha].
  - split; [split; [discriminate|intros ((d' & Hd' & _) & _); discriminate]|].
    left. reflexivity.
Qed.

(** *** A rental and its return *)

Lemma Controllers_insertar_detalles_dominio id validados fallos bd c :
  is_Some (INVENTARIO (snd (snd (Controllers.insertar_detalles id validados (fallos, bd)))) !! c)
  ↔ is_Some (INVENTARIO bd !! c).
Proof.
  revert fallos bd. induction validados as [|d resto IH]; intros fallos bd; [reflexivity|].
  cbn [Controllers.insertar_detalles]. unfold mbind, op_bind.
  rewrite siguiente_cursor_execute.
  destruct (fst (siguiente fallos)); [reflexivity|]. cbn [fst snd].
  rewrite siguiente_cursor_execute.
  destruct (fst (siguiente (snd (siguiente fallos)))); [reflexivity|]. cbn [fst snd].
  rewrite IH. rewrite sql_sumar_disponible_dominio. reflexivity.
Qed.

Lemma Controllers_devolver_stock_dominio detalles fallos bd c :
  is_Some (INVENTARIO (snd (snd (Controllers.devolver_stock detalles (fallos, bd)))) !! c)
  ↔ is_Some (INVENTARIO bd !! c).
Proof.
  revert fallos bd. induction detalles as [|[codigo cantidad] resto IH]; intros fallos bd;
    [reflexivity|].
  cbn [Controllers.devolver_stock]. unfold mbind, op_bind, ejecutar_update.
  rewrite siguiente_cursor_execute.
  destruct (fst (siguiente fallos)); cbn [fst snd]; rewrite IH; [reflexivity|].
  apply sql_sumar_disponible_dominio.
Qed.

Lemma Controllers_registrar_renta_inventario ahora c u detalles dias fallos bd msg id s' :
  Controllers.registrar_renta ahora c u detalles dias (fallos, bd) = ((true, msg, id), s') →
  (∀ codigo, disponible_de (snd s') codigo
             = disponible_de bd codigo - cantidad_pedida codigo detalles) ∧
  (∀ codigo, is_Some (INVENTARIO (snd s') !! codigo) ↔ is_Some (INVENTARIO bd !! codigo)).
Proof.
  unfold Controllers.registrar_renta.
  destruct detalles as [|item resto]; [discriminate|].
  destruct (dias <=? 0); [discriminate|].
  destruct (30 <? dias); [discriminate|].
  unfold mbind, op_bind, ejecutar_query. cbn [snd fst].
  destruct (Controllers.preparar_detalles bd dias (item :: resto) [] 0 0)
    as [m|[[validados subtotal] deposito_total]] eqn:Hprep; [discriminate|].
  apply Controllers_preparar_detalles_inr in Hprep as (Hv & _ & _ & Hall).
  rewrite app_nil_l in Hv. subst validados.
  destruct (Controllers.validar_renta _ _); [discriminate|].
  rewrite siguiente_cursor_execute.
  destruct (fst (siguiente fallos)); [discriminate|].
  cbn [snd fst].
  destruct (_ =? 0); [discriminate|].
  match goal with
  | |- context [Controllers.insertar_detalles ?i ?v ?s] =>
      pose proof (λ c, Controllers_insertar_detalles_disponible i v (fst s) (snd s) c) as HD;
      pose proof (λ c, Controllers_insertar_detalles_dominio i v (fst s) (snd s) c) as Hdom;
      destruct (Controllers.insertar_detalles i v s) as [[[]|] [fallos1 bd1]] eqn:Hins
  end; [|discriminate].
  cbn [fst snd] in HD, Hdom.
  intros [= <- <- <-]. cbn [snd]. split.
  - intros codigo. rewrite (HD fallos1 bd1 codigo).
    + rewrite cantidad_pedida_detalle_de. reflexivity.
    + rewrite Forall_fmap. eapply Forall_impl; [exact Hall|]. intros i Hi. exact Hi.
    + exact Hins.
  - intros codigo. rewrite Hins in Hdom. cbn [snd] in Hdom. rewrite Hdom. reflexivity.
Qed.

Lemma liberado_sin_fallos codigo (detalles : list Item) :
  liberado codigo ((λ i, (item_codigo_barras i, item_cantidad i)) <$> detalles) []
  = cantidad_pedida codigo detalles.
Proof.
  unfold cantidad_pedida. induction detalles as [|i resto IH]; [reflexivity|].
  rewrite fmap_cons. cbn [liberado siguiente fst snd]. rewrite IH, filter_cons.
  destruct (decide (item_codigo_barras i = codigo)); [rewrite fmap_cons, suma_cons|]; lia.
Qed.

(** First copy: a rental and its return give the units back. When
    [registrar_renta] has answered True with an id, a [devolver_renta] of
    that id during which no statement fails answers True, whatever the
    time of the return, and leaves every item with the Disponible it had
    before the rental was registered; provided no row of the store carried
    an id at or above the next one. *)
Theorem Controllers_renta_ida_y_vuelta ahora c u detalles dias fallos bd msg id s1
        self ahora' u' :
  ids_frescos bd →
  Controllers.registrar_renta ahora c u detalles dias (fallos, bd)
  = ((true, msg, Some id), s1) →
  let r := Controllers.devolver_renta self ahora' id u' ([], snd s1) in
  fst (fst (fst r)) = true ∧
  ∀ codigo, disponible_de (snd (snd r)) codigo = disponible_de bd codigo.
Proof.
  intros [Hr Hd] Hreg. cbv zeta.
  pose proof (Controllers_registrar_renta_inventario _ _ _ _ _ _ _ _ _ _ Hreg)
    as [Hdisp Hdom].
  assert (Hne : detalles ≠ []).
  { intros ->. unfold Controllers.registrar_renta in Hreg. discriminate. }
  apply Controllers_registrar_renta_exito in Hreg
    as (_ & _ & _ & _ & [= ->] & _ & HR & HD).
  destruct s1 as [fallos1 bd1]. cbn [snd] in *.
  unfold Controllers.devolver_renta, mbind, op_bind, ejecutar_query. cbn [snd fst].
  unfold Controllers.buscar_por_id, sql_rentas_por_id.
  rewrite HR, filter_app.
  rewrite (filter_ninguno _ (RENTAS bd))
    by (intros r Hin Heq; specialize (Hr r Hin); lia).
  rewrite filter_cons, decide_True by reflexivity. rewrite filter_nil. cbn [app].
  unfold esta_devuelta, esta_activa, esta_vencida.
  cbn [Controllers.Renta_from_db_row estado_renta Estado_Renta String.eqb Ascii.eqb
       Bool.eqb andb negb].
  assert (Hdets : sql_detalles_de (auto_increment bd) bd1
                  = (λ i, (item_codigo_barras i, item_cantidad i)) <$> detalles).
  { unfold sql_detalles_de. rewrite HD, filter_app.
    rewrite (filter_ninguno _ (DETALLE_RENTAS bd))
      by (intros d Hin Heq; specialize (Hd d Hin); lia).
    rewrite filter_todos
      by (intros d Hin; apply list_elem_of_fmap in Hin as (i & -> & _); reflexivity).
    cbn [app]. rewrite <- list_fmap_compose. reflexivity. }
  cbn [fst snd]. rewrite Hdets.
  destruct detalles as [|item resto]; [contradiction|].
  rewrite fmap_cons. rewrite <- (fmap_cons (λ i, (item_codigo_barras i, item_cantidad i))).
  pose proof (Controllers_devolver_stock_efecto
                ((λ i, (item_codigo_barras i, item_cantidad i)) <$> item :: resto) [] bd1)
    as [_ Hlib].
  pose proof (λ c, Controllers_devolver_stock_dominio
                ((λ i, (item_codigo_barras i, item_cantidad i)) <$> item :: resto) [] bd1 c)
    as Hdom2.
  destruct (Controllers.devolver_stock _ ([], bd1)) as [[] [fallos2 bd2]].
  cbn [fst snd] in Hlib, Hdom2.
  unfold ejecutar_update. rewrite siguiente_cursor_execute.
  assert (Hfin : ∀ codigo, disponible_de bd2 codigo = disponible_de bd codigo).
  { intros codigo. destruct (INVENTARIO bd !! codigo) as [f|] eqn:Hf.
    - rewrite Hlib by (apply Hdom; rewrite Hf; eexists; reflexivity).
      rewrite liberado_sin_fallos, Hdisp. lia.
    - unfold disponible_de at 2. rewrite Hf.
      unfold disponible_de. destruct (INVENTARIO bd2 !! codigo) as [f2|] eqn:Hf2;
        [|reflexivity].
      exfalso. assert (Hs : is_Some (INVENTARIO bd !! codigo)).
      { apply Hdom, Hdom2. rewrite Hf2. eexists; reflexivity. }
      rewrite Hf in Hs. destruct Hs as [? [=]]. }
  destruct (fst (siguiente fallos2)); cbn [fst snd]; unfold mret, op_ret; cbn [fst snd].
  - split; [reflexivity|exact Hfin].
  - split; [reflexivity|]. intros codigo. rewrite <- Hfin. reflexivity.
Qed.

Lemma Controllers_renta_ida_y_vuelta_witness :
  let r := Controllers.devolver_renta (mkRentaController (pesos 50)) (timedelta 5) 1 1
             ([], snd (snd (Controllers.registrar_renta 0 1 1 [mkItem "X" 2; mkItem "X" 1] 3
                              ([], bd_A)))) in
  fst (fst (fst r)) = true ∧
  ∀ codigo, disponible_de (snd (snd r)) codigo = disponible_de bd_A codigo.
Proof.
  apply (Controllers_renta_ida_y_vuelta 0 1 1 [mkItem "X" 2; mkItem "X" 1] 3 [] bd_A
           (Controllers.RentaRegistrada 1) 1
           (snd (Controllers.registrar_renta 0 1 1 [mkItem "X" 2; mkItem "X" 1] 3 ([], bd_A)))
           (mkRentaController (pesos 50)) (timedelta 5) 1).
  - exact ids_frescos_bd_A.
  - vm_compute. reflexivity.
Defined.

(** First copy: [verificar_disponibilidad] against the model's predicates.
    For an item that is found, the check answers what [Disfraz.esta_activo]
    and [Disfraz.tiene_stock] answer together; [Disfraz.es_rentable] holds
    exactly when the check accepts one unit; and an item that is not found
    is refused for every quantity. *)
Theorem Controllers_disponibilidad_y_modelo bd codigo cantidad :
  (∀ d, Controllers.buscar_por_codigo bd codigo = Some d →
        fst (fst (Controllers.verificar_disponibilidad bd codigo cantidad))
        = esta_activo d && Controllers.tiene_stock d cantidad ∧
        (Controllers.es_rentable d = true ↔
         fst (fst (Controllers.verificar_disponibilidad bd codigo 1)) = true)) ∧
  (Controllers.buscar_por_codigo bd codigo = None →
   Controllers.verificar_disponibilidad bd codigo cantidad
   = (false, Controllers.NoExisteDisfraz codigo, 0)).
Proof.
  unfold Controllers.verificar_disponibilidad, Controllers.tiene_stock, Controllers.es_rentable.
  destruct (Controllers.buscar_por_codigo bd codigo) as [d|];
    [|split; [intros d [=]|reflexivity]].
  split; [|discriminate]. intros d' [= <-].
  destruct (esta_activo d); cbn [negb andb fst].
  - split.
    + destruct (disponible d <? cantidad) eqn:E; cbn [fst].
      * apply Z.ltb_lt in E. symmetry. apply Z.leb_gt. exact E.
      * apply Z.ltb_ge in E. symmetry. apply Z.leb_le. exact E.
    + destruct (disponible d <? 1) eqn:E; cbn [fst].
      * apply Z.ltb_lt in E. split; [|discriminate].
        intros H. apply Z.ltb_lt in H. lia.
      * apply Z.ltb_ge in E. split; [reflexivity|].
        intros _. apply Z.ltb_lt. lia.
  - split; [reflexivity|]. split; discriminate.
Qed.
